(** * Google-Ads-Simulator: auction, volume, quality, confidence and cache core

    A shallow embedding of the Python modules under [app/core] (and of the
    aggregation step of [app/api/simulate.py]) together with the properties
    the specification states about them.

    Conventions of the embedding.
    - A Python [float] is idealised as an exact rational ([Q]); the
      arithmetic of the source is kept operation for operation, only the
      binary rounding of each operation is left out.
    - A Python [dict] that the code mutates or passes around is a
      [gmap string value]; objects that are shared live in a store indexed
      by locations, so that aliasing is visible.
    - A raised exception is the result [None].
    - The global generator of [numpy.random] is an explicit component of the
      state; the generator itself is an interface ([NumpyRandom]). *)

From Stdlib Require Import ZArith QArith Qround Qabs String Ascii List Lia Lqa.
From Stdlib Require Import Permutation Sorted DecimalString.
From stdpp Require Import gmap strings list fin_maps option sorting.

Set Warnings "-register-all".
Set Default Proof Using "Type".

(** ** Python numerics *)

Module py.

(** [int(x)] on a float: truncation toward zero. *)
Definition int (x : Q) : Z := (Qnum x ÷ Zpos (Qden x))%Z.

(** [round(x)]: the nearest integer, ties to the even neighbour. *)
Definition round_half_even (x : Q) : Z :=
  let f := Qfloor x in
  match (x - inject_Z f ?= 1 # 2)%Q with
  | Lt => f
  | Gt => (f + 1)%Z
  | Eq => if Z.even f then f else (f + 1)%Z
  end.

(** [round(x, ndigits)] for [ndigits >= 0]. *)
Definition round (x : Q) (ndigits : nat) : Q :=
  let scale := Pos.pow 10 (Pos.of_nat ndigits) in
  match ndigits with
  | O => inject_Z (round_half_even x)
  | S _ => Qmake (round_half_even (x * inject_Z (Zpos scale))) scale
  end.

(** [x < y] and [x >= y] on floats, as booleans. *)
Definition ltb (x y : Q) : bool := negb (Qle_bool y x).
Definition geb (x y : Q) : bool := Qle_bool y x.

(** [x / y]: [ZeroDivisionError] when the divisor is zero. *)
Definition div (x y : Q) : option Q :=
  if Qeq_bool y 0 then None else Some (x / y)%Q.

(** [max(a, b)] and [min(a, b)] return the first argument unless the
    second one is strictly larger (smaller). *)
Definition max (a b : Q) : Q := if ltb a b then b else a.
Definition min (a b : Q) : Q := if ltb b a then b else a.

(** [sorted(l, key=key, reverse=True)]: a stable sort by decreasing key;
    elements with equal keys keep the order of the input. *)
Fixpoint insert_desc {A} (key : A -> Q) (x : A) (l : list A) : list A :=
  match l with
  | [] => [x]
  | y :: l' => if ltb (key x) (key y) then y :: insert_desc key x l'
               else x :: y :: l'
  end.

Definition sorted_desc {A} (key : A -> Q) (l : list A) : list A :=
  foldr (insert_desc key) [] l.

(** The order that [sorted_desc] establishes. *)
Definition desc {A} (key : A -> Q) : relation A :=
  fun a b => (key b <= key a)%Q.

End py.

(** ** numpy.random: the global generator *)

(** The Mersenne Twister behind [numpy.random] is kept abstract: what the
    code relies on is that [seed] resets the whole state and that each draw
    is a function of the state and of its arguments. *)
Class NumpyRandom (G : Type) := {
  mt_seed : Z -> G;
  mt_randint : Z -> Z -> G -> Z * G;
  mt_uniform : Q -> Q -> G -> Q * G
}.

Module np_random.
Section generator.
Context {G : Type} `{NumpyRandom G}.

(** [np.random.seed(s)] raises [ValueError] unless [0 <= s < 2**32]. *)
Definition seed (s : Z) : option G :=
  if ((0 <=? s) && (s <? 2 ^ 32))%Z then Some (mt_seed s) else None.

Definition randint (low high : Z) (g : G) : Z * G := mt_randint low high g.
Definition uniform (low high : Q) (g : G) : Q * G := mt_uniform low high g.
End generator.
End np_random.

(** A small linear congruential generator, used to run the model on
    concrete inputs. *)
Definition lcg_next (g : Z) : Z := ((g * 1103515245 + 12345) mod 2 ^ 31)%Z.

#[global] Instance lcg_random : NumpyRandom Z := {
  mt_seed s := s;
  mt_randint low high g := ((low + g mod (high - low))%Z, lcg_next g);
  mt_uniform low high g :=
    ((low + (high - low) * (Qmake (g mod 1000) 1000))%Q, lcg_next g)
}.

(** ** Python objects: values, dictionaries and the store *)

Inductive value :=
| VNum (q : Q)
| VStr (s : string).

Abbreviation pydict := (gmap string value).
Abbreviation loc := nat.
Abbreviation store := (gmap loc pydict).

Record world (G : Type) := World {
  np_state : G;
  objects : store
}.
Arguments World {G} _ _.
Arguments np_state {G} _.
Arguments objects {G} _.

Definition as_num (v : option value) : option Q :=
  match v with
  | Some (VNum q) => Some q
  | _ => None
  end.

(** ** app/core/constants.py *)

Module constants.
Definition MIN_AD_RANK : Q := 1.0.
Definition MAX_POSITION : nat := 10.
End constants.

(** ** app/core/auction.py and app/core/enhanced_auction.py: [run_auction]

    The two modules hold the same [run_auction]; the one of
    [enhanced_auction.py] also copies [ad.get('match_type', 'phrase')]
    into each winner. The flag [with_match_type] selects it. *)

Module auction_engine.
Import constants.

Definition calculate_ad_rank (bid quality_score : Q) : Q :=
  (bid * quality_score)%Q.

(** One step of the first loop:
    [ad['ad_rank'] = calculate_ad_rank(ad['bid'], ad['quality_score'])],
    an update in place of the dictionary at location [ad]. *)
Definition set_ad_rank (h : store) (ad : loc) : option store :=
  d ← h !! ad;
  bid ← as_num (d !! "bid");
  qs ← as_num (d !! "quality_score");
  Some (<[ad := <["ad_rank" := VNum (calculate_ad_rank bid qs)]> d]> h).

Fixpoint rank_all (ads : list loc) (h : store) : option store :=
  match ads with
  | [] => Some h
  | ad :: ads' => h' ← set_ad_rank h ad; rank_all ads' h'
  end.

(** What the rest of the function reads from a participant. ['keyword']
    is only read for winners, ['match_type'] only through [get]. *)
Record Ad := {
  ad_keyword : option value;
  ad_match_type : option value;
  ad_bid : Q;
  ad_quality_score : Q;
  ad_rank : Q
}.

Definition read_ad (d : pydict) : option Ad :=
  bid ← as_num (d !! "bid");
  qs ← as_num (d !! "quality_score");
  rank ← as_num (d !! "ad_rank");
  Some {| ad_keyword := d !! "keyword"; ad_match_type := d !! "match_type";
          ad_bid := bid; ad_quality_score := qs; ad_rank := rank |}.

Definition sorted_ads (ads : list Ad) : list Ad := py.sorted_desc ad_rank ads.

Definition eligible_ads (sorted : list Ad) : list Ad :=
  List.filter (fun ad => py.geb (ad_rank ad) MIN_AD_RANK) sorted.

Record Winner := {
  w_keyword : value;
  w_match_type : option value;
  w_position : nat;
  w_ad_rank : Q;
  w_cpc : Q;
  w_quality_score : Q;
  w_bid : Q
}.

(** The price before rounding. [position] is 1-based, so
    [eligible[position]] is the participant right below; the lookup
    succeeds exactly when [position < len(eligible_ads)]. *)
Definition price (eligible : list Ad) (position : nat) (ad : Ad) : option Q :=
  match eligible !! position with
  | Some next_ad =>
      q ← py.div (ad_rank next_ad) (ad_quality_score ad); Some (q + 0.01)%Q
  | None =>
      q ← py.div MIN_AD_RANK (ad_quality_score ad); Some (q + 0.01)%Q
  end.

Definition make_winner (with_match_type : bool) (eligible : list Ad)
    (position : nat) (ad : Ad) : option Winner :=
  cpc ← price eligible position ad;
  kw ← ad_keyword ad;
  Some {| w_keyword := kw;
          w_match_type :=
            if with_match_type
            then Some (default (VStr "phrase") (ad_match_type ad))
            else None;
          w_position := position;
          w_ad_rank := ad_rank ad;
          w_cpc := py.round cpc 2;
          w_quality_score := ad_quality_score ad;
          w_bid := ad_bid ad |}.

(** [for position, ad in enumerate(slice, start=position)]. *)
Fixpoint assign_positions (with_match_type : bool) (eligible : list Ad)
    (position : nat) (slice : list Ad) : option (list Winner) :=
  match slice with
  | [] => Some []
  | ad :: rest =>
      w ← make_winner with_match_type eligible position ad;
      ws ← assign_positions with_match_type eligible (S position) rest;
      Some (w :: ws)
  end.

(** A participant as the first loop leaves it. *)
Definition ranked (d : pydict) (bid qs : Q) : pydict :=
  <["ad_rank" := VNum (bid * qs)%Q]> d.

Definition rank_is_product (ad : Ad) : Prop :=
  ad_rank ad = (ad_bid ad * ad_quality_score ad)%Q.

(** A participant that [run_auction] can process: numbers under
    ['bid'] and ['quality_score'], and a ['keyword']. *)
Definition well_formed_ad (d : pydict) : Prop :=
  is_Some (as_num (d !! "bid")) /\ is_Some (as_num (d !! "quality_score")) /\
  is_Some (d !! "keyword").

(** The participants as the second half of the function sees them. *)
Definition view (h : store) (ads : list loc) : option (list Ad) :=
  mapM (fun l => h !! l ≫= read_ad) ads.

Definition run_auction {G} `{NumpyRandom G} (with_match_type : bool)
    (ads : list loc) (seed : Z) (w : world G)
    : option (list Winner * world G) :=
  g ← np_random.seed seed;
  h ← rank_all ads (objects w);
  participants ← view h ads;
  let eligible := eligible_ads (sorted_ads participants) in
  winners ← assign_positions with_match_type eligible 1
               (take MAX_POSITION eligible);
  Some (winners, World g h).

End auction_engine.

Module auction.
Definition run_auction {G} `{NumpyRandom G} :=
  auction_engine.run_auction (G := G) false.
End auction.

(** ** Python strings

    A [str] is a sequence of code points; the model covers the code points
    below 256 (one [ascii] each), with the case mapping and the white space
    of Unicode restricted to that range. *)

Module pystr.
Open Scope string_scope.

Definition code (c : ascii) : N := N_of_ascii c.

Definition between (lo hi : N) (c : ascii) : bool :=
  ((lo <=? code c) && (code c <=? hi))%N.

Definition is_upper_char (c : ascii) : bool :=
  between 65 90 c || between 192 214 c || between 216 222 c.

Definition is_lower_char (c : ascii) : bool :=
  between 97 122 c || between 223 246 c || between 248 255 c
  || (code c =? 170)%N || (code c =? 181)%N || (code c =? 186)%N.

Definition is_space_char (c : ascii) : bool :=
  between 9 13 c || between 28 32 c || (code c =? 133)%N || (code c =? 160)%N.

Definition lower_char (c : ascii) : ascii :=
  if is_upper_char c then ascii_of_N (code c + 32) else c.

(** [s.lower()] *)
Fixpoint lower (s : string) : string :=
  match s with
  | EmptyString => EmptyString
  | String c s' => String (lower_char c) (lower s')
  end.

Fixpoint forallb_str (p : ascii -> bool) (s : string) : bool :=
  match s with
  | EmptyString => true
  | String c s' => p c && forallb_str p s'
  end.

Fixpoint existsb_str (p : ascii -> bool) (s : string) : bool :=
  match s with
  | EmptyString => false
  | String c s' => p c || existsb_str p s'
  end.

(** [s.isupper()]: there is a cased character and none is lower case. *)
Definition isupper (s : string) : bool :=
  existsb_str is_upper_char s && negb (existsb_str is_lower_char s).

Fixpoint lstrip (s : string) : string :=
  match s with
  | EmptyString => EmptyString
  | String c s' => if is_space_char c then lstrip s' else s
  end.

Fixpoint rstrip (s : string) : string :=
  match s with
  | EmptyString => EmptyString
  | String c s' =>
      match rstrip s' with
      | EmptyString => if is_space_char c then EmptyString else String c EmptyString
      | r => String c r
      end
  end.

(** [s.strip()] *)
Definition strip (s : string) : string := rstrip (lstrip s).

(** [s.split()]: the maximal runs of characters that are not white
    space. [word] is the run being read, in reverse. *)
Fixpoint split_aux (word : list ascii) (s : string) : list string :=
  let flush tl :=
    match word with
    | [] => tl
    | _ => string_of_list_ascii (rev word) :: tl
    end in
  match s with
  | EmptyString => flush []
  | String c s' =>
      if is_space_char c then flush (split_aux [] s')
      else split_aux (c :: word) s'
  end.

Definition split (s : string) : list string := split_aux [] s.

(** [needle in hay] *)
Fixpoint contains (needle hay : string) : bool :=
  String.prefix needle hay ||
  match hay with
  | EmptyString => false
  | String _ hay' => contains needle hay'
  end.

Definition startswith (s p : string) : bool := String.prefix p s.

(** [sep.join(l)] *)
Fixpoint join (sep : string) (l : list string) : string :=
  match l with
  | [] => ""
  | [s] => s
  | s :: l' => s ++ sep ++ join sep l'
  end.

(** [any(w in s for w in words)] *)
Definition any_in (words : list string) (s : string) : bool :=
  existsb (fun w => contains w s) words.

(** [str(n)] for a natural number, and for an integer. *)
Definition of_nat (n : nat) : string := NilZero.string_of_uint (Nat.to_uint n).
Definition of_Z (z : Z) : string := NilZero.string_of_int (Z.to_int z).

End pystr.

(** ** app/core/volume_estimation.py *)

Module volume_estimation.
Open Scope string_scope.

Record VolumeData := {
  vd_keyword : string;
  monthly_searches : Z;
  competition : string;
  competition_index : Q;
  avg_cpc : Q;
  cpc_low : Q;
  cpc_high : Q
}.

Record AuctionEstimate := {
  ae_keyword : string;
  ae_match_type : string;
  daily_auctions : Z;
  volume_source : string;
  confidence : Q
}.

(** The positional constructor [VolumeData(keyword, monthly_searches,
    competition, competition_index, avg_cpc, cpc_low, cpc_high)]. *)
Definition mk (k : string) (m : Z) (c : string) (ci avg lo hi : Q) : VolumeData :=
  {| vd_keyword := k; monthly_searches := m; competition := c;
     competition_index := ci; avg_cpc := avg; cpc_low := lo; cpc_high := hi |}.

Definition static_volume_rows : list (string * VolumeData) := [
  ("plumber", mk "plumber" 450000 "High" 0.8 8.50 5.20 12.80);
  ("electrician", mk "electrician" 320000 "High" 0.75 12.30 8.50 18.20);
  ("hvac repair", mk "hvac repair" 180000 "Medium" 0.65 15.80 10.20 22.50);
  ("roofing contractor", mk "roofing contractor" 95000 "Medium" 0.60 18.90 12.50 28.40);
  ("landscaping services", mk "landscaping services" 120000 "Medium" 0.55 14.20 9.80 20.10);
  ("web design", mk "web design" 280000 "High" 0.85 12.50 8.20 18.90);
  ("seo services", mk "seo services" 150000 "High" 0.80 25.40 18.50 35.20);
  ("digital marketing", mk "digital marketing" 220000 "High" 0.75 18.90 12.80 28.50);
  ("software development", mk "software development" 180000 "Medium" 0.70 22.10 15.60 31.80);
  ("mobile app development", mk "mobile app development" 85000 "Medium" 0.65 28.90 20.50 40.20);
  ("dentist", mk "dentist" 380000 "High" 0.75 9.80 6.50 15.20);
  ("chiropractor", mk "chiropractor" 120000 "Medium" 0.60 11.20 7.80 16.90);
  ("physical therapy", mk "physical therapy" 95000 "Medium" 0.55 13.50 9.20 19.80);
  ("mental health counseling", mk "mental health counseling" 65000 "Low" 0.45 16.80 11.50 24.20);
  ("veterinarian", mk "veterinarian" 150000 "Medium" 0.65 8.90 5.80 13.50);
  ("personal injury lawyer", mk "personal injury lawyer" 280000 "High" 0.90 45.20 32.80 68.50);
  ("divorce lawyer", mk "divorce lawyer" 180000 "High" 0.85 38.90 28.50 55.20);
  ("criminal defense attorney", mk "criminal defense attorney" 120000 "High" 0.80 42.10 30.80 58.90);
  ("estate planning lawyer", mk "estate planning lawyer" 85000 "Medium" 0.70 35.60 25.20 48.90);
  ("business lawyer", mk "business lawyer" 95000 "Medium" 0.65 28.90 20.50 40.20);
  ("real estate agent", mk "real estate agent" 320000 "High" 0.80 12.50 8.90 18.20);
  ("home inspector", mk "home inspector" 45000 "Medium" 0.55 18.90 12.80 28.50);
  ("property management", mk "property management" 38000 "Low" 0.50 15.20 10.50 22.80);
  ("commercial real estate", mk "commercial real estate" 25000 "Medium" 0.60 22.80 16.20 32.50);
  ("real estate investment", mk "real estate investment" 18000 "Low" 0.45 19.50 13.80 28.20);
  ("auto repair", mk "auto repair" 280000 "High" 0.75 8.90 6.20 13.50);
  ("car insurance", mk "car insurance" 450000 "High" 0.85 12.50 8.90 18.20);
  ("used cars", mk "used cars" 680000 "High" 0.90 6.80 4.50 10.20);
  ("auto parts", mk "auto parts" 180000 "Medium" 0.65 4.20 2.80 6.90);
  ("car detailing", mk "car detailing" 65000 "Medium" 0.55 9.80 6.50 15.20);
  ("restaurant", mk "restaurant" 520000 "High" 0.80 3.20 2.10 5.80);
  ("pizza delivery", mk "pizza delivery" 180000 "High" 0.75 2.80 1.90 4.50);
  ("catering services", mk "catering services" 85000 "Medium" 0.60 8.90 6.20 13.50);
  ("food truck", mk "food truck" 45000 "Medium" 0.55 5.20 3.50 8.90);
  ("bakery", mk "bakery" 65000 "Medium" 0.50 4.80 3.20 7.50);
  ("gym", mk "gym" 280000 "High" 0.75 4.20 2.80 6.90);
  ("personal trainer", mk "personal trainer" 120000 "Medium" 0.60 8.90 6.20 13.50);
  ("yoga classes", mk "yoga classes" 85000 "Medium" 0.55 6.80 4.50 10.20);
  ("massage therapy", mk "massage therapy" 95000 "Medium" 0.60 9.80 6.50 15.20);
  ("nutritionist", mk "nutritionist" 45000 "Low" 0.45 12.50 8.90 18.20);
  ("online courses", mk "online courses" 180000 "High" 0.80 8.90 6.20 13.50);
  ("language learning", mk "language learning" 150000 "High" 0.75 6.80 4.50 10.20);
  ("coding bootcamp", mk "coding bootcamp" 65000 "Medium" 0.65 15.20 10.50 22.80);
  ("music lessons", mk "music lessons" 85000 "Medium" 0.55 9.80 6.50 15.20);
  ("tutoring services", mk "tutoring services" 120000 "Medium" 0.60 8.90 6.20 13.50);
  ("online shopping", mk "online shopping" 1200000 "High" 0.90 2.10 1.40 3.20);
  ("free shipping", mk "free shipping" 450000 "High" 0.85 1.80 1.20 2.80);
  ("discount codes", mk "discount codes" 280000 "High" 0.80 2.50 1.70 3.80);
  ("product reviews", mk "product reviews" 180000 "Medium" 0.70 1.90 1.30 2.90);
  ("compare prices", mk "compare prices" 95000 "Medium" 0.65 2.20 1.50 3.20);
  ("hotel booking", mk "hotel booking" 380000 "High" 0.85 3.20 2.10 5.80);
  ("flight deals", mk "flight deals" 280000 "High" 0.80 4.50 3.00 6.80);
  ("vacation rental", mk "vacation rental" 120000 "Medium" 0.70 2.80 1.90 4.50);
  ("travel insurance", mk "travel insurance" 65000 "Medium" 0.60 5.20 3.50 8.90);
  ("tourist attractions", mk "tourist attractions" 85000 "Low" 0.50 1.90 1.30 2.90);
  ("credit card", mk "credit card" 450000 "High" 0.90 8.90 6.20 13.50);
  ("mortgage rates", mk "mortgage rates" 280000 "High" 0.85 12.50 8.90 18.20);
  ("investment advice", mk "investment advice" 120000 "High" 0.80 18.90 12.80 28.50);
  ("tax preparation", mk "tax preparation" 180000 "High" 0.75 15.20 10.50 22.80);
  ("insurance quotes", mk "insurance quotes" 220000 "High" 0.80 8.90 6.20 13.50);
  ("home improvement", mk "home improvement" 320000 "High" 0.75 6.80 4.50 10.20);
  ("furniture", mk "furniture" 280000 "High" 0.80 4.20 2.80 6.90);
  ("home decor", mk "home decor" 180000 "Medium" 0.70 3.20 2.10 5.80);
  ("garden supplies", mk "garden supplies" 95000 "Medium" 0.60 2.80 1.90 4.50);
  ("cleaning services", mk "cleaning services" 120000 "Medium" 0.65 8.90 6.20 13.50);
  ("clothing", mk "clothing" 680000 "High" 0.85 2.10 1.40 3.20);
  ("shoes", mk "shoes" 450000 "High" 0.80 2.50 1.70 3.80);
  ("makeup", mk "makeup" 280000 "High" 0.75 3.20 2.10 5.80);
  ("hair salon", mk "hair salon" 150000 "Medium" 0.60 6.80 4.50 10.20);
  ("nail salon", mk "nail salon" 85000 "Medium" 0.55 5.20 3.50 8.90);
  ("near me", mk "near me" 1200000 "High" 0.90 1.20 0.80 1.80);
  ("best", mk "best" 2800000 "High" 0.95 0.80 0.50 1.20);
  ("cheap", mk "cheap" 1800000 "High" 0.90 0.90 0.60 1.40);
  ("affordable", mk "affordable" 1200000 "High" 0.85 1.10 0.70 1.60);
  ("professional", mk "professional" 850000 "Medium" 0.70 2.20 1.50 3.20);
  ("local", mk "local" 2200000 "High" 0.90 0.70 0.50 1.00);
  ("reviews", mk "reviews" 1500000 "High" 0.85 1.50 1.00 2.20);
  ("services", mk "services" 3200000 "High" 0.90 0.60 0.40 0.90);
  ("company", mk "company" 2800000 "High" 0.85 0.80 0.50 1.20);
  ("business", mk "business" 2500000 "High" 0.80 0.90 0.60 1.40)
]%Q.

Definition static_volume_db : gmap string VolumeData :=
  list_to_map static_volume_rows.

Definition match_type_modifiers : gmap string Q :=
  list_to_map [("exact", 1.0%Q); ("phrase", 0.7%Q); ("broad", 0.4%Q)].

Definition geo_modifiers : gmap string Q :=
  list_to_map [("US", 1.0%Q); ("CA", 0.15%Q); ("UK", 0.12%Q); ("AU", 0.08%Q);
               ("DE", 0.10%Q); ("FR", 0.08%Q); ("IT", 0.06%Q); ("ES", 0.05%Q);
               ("EU", 0.25%Q); ("default", 0.05%Q)].

Definition length_modifiers : gmap nat Q :=
  list_to_map [(1%nat, 500000%Q); (2%nat, 200000%Q); (3%nat, 100000%Q);
               (4%nat, 80000%Q); (5%nat, 60000%Q); (6%nat, 40000%Q);
               (7%nat, 25000%Q); (8%nat, 15000%Q); (9%nat, 10000%Q);
               (10%nat, 8000%Q)].

Definition high_volume_words : list string :=
  ["near"; "me"; "best"; "cheap"; "affordable"; "local"; "reviews";
   "services"; "company"; "business"].

Definition business_terms : list string :=
  ["service"; "company"; "business"; "professional"; "expert"; "specialist"].

(** [keyword.isupper() or keyword[0].isupper()]; the index raises
    [IndexError] on the empty string. *)
Definition looks_like_brand (keyword : string) : option bool :=
  if pystr.isupper keyword then Some true
  else match keyword with
       | EmptyString => None
       | String c _ => Some (pystr.isupper (String c EmptyString))
       end.

Definition _estimate_volume_from_keyword (keyword : string) : option Z :=
  let base_volume := default 5000%Q (length_modifiers !! String.length keyword) in
  let base_volume :=
    if pystr.any_in high_volume_words keyword then (base_volume * 2.0)%Q
    else base_volume in
  let base_volume :=
    if pystr.any_in business_terms keyword then (base_volume * 1.5)%Q
    else base_volume in
  let words := List.length (pystr.split keyword) in
  let base_volume :=
    if (2 <? words)%nat then (base_volume * 0.3)%Q
    else if (words =? 2)%nat then (base_volume * 0.7)%Q
    else base_volume in
  brand ← looks_like_brand keyword;
  let base_volume := if brand : bool then (base_volume * 0.2)%Q else base_volume in
  Some (py.int base_volume).

Definition normalize (keyword : string) : string :=
  pystr.strip (pystr.lower keyword).

Definition estimate_daily_auctions (keyword match_type geo : string)
    : option AuctionEstimate :=
  let normalized_keyword := normalize keyword in
  '(monthly, source, conf) ←
    match static_volume_db !! normalized_keyword with
    | Some volume_data => Some (monthly_searches volume_data, "static", 0.9%Q)
    | None =>
        m ← _estimate_volume_from_keyword normalized_keyword;
        Some (m, "estimated", 0.6%Q)
    end;
  let match_modifier := default 0.5%Q (match_type_modifiers !! match_type) in
  let geo_modifier := default 0.05%Q (geo_modifiers !! geo) in
  let daily := py.int ((inject_Z monthly / 30) * match_modifier * geo_modifier)%Q in
  Some {| ae_keyword := keyword; ae_match_type := match_type;
          daily_auctions := Z.max 1 daily;
          volume_source := source; confidence := conf |}.

Definition get_volume_data (keyword : string) : option VolumeData :=
  static_volume_db !! normalize keyword.

Definition get_competition_level (keyword : string) : string :=
  match get_volume_data keyword with
  | Some volume_data => competition volume_data
  | None =>
      let words := List.length (pystr.split keyword) in
      if (words =? 1)%nat && (String.length keyword <=? 6)%nat then "High"
      else if (3 <=? words)%nat then "Low"
      else "Medium"
  end.

Definition get_estimated_cpc (keyword match_type : string) : Q * Q * Q :=
  let '(base_low, base_avg, base_high) :=
    match get_volume_data keyword with
    | Some volume_data =>
        (cpc_low volume_data, avg_cpc volume_data, cpc_high volume_data)
    | None =>
        let competition := get_competition_level keyword in
        if String.eqb competition "High" then (8.0, 15.0, 25.0)%Q
        else if String.eqb competition "Medium" then (4.0, 8.0, 15.0)%Q
        else (2.0, 5.0, 10.0)%Q
    end in
  let cpc_multiplier :=
    if String.eqb match_type "exact" then 1.2%Q
    else if String.eqb match_type "phrase" then 1.0%Q
    else 0.8%Q in
  ((base_low * cpc_multiplier)%Q, (base_avg * cpc_multiplier)%Q,
   (base_high * cpc_multiplier)%Q).

End volume_estimation.

(** ** Code that draws from the global generator

    A computation that reads and advances the global generator and may
    raise: a state and error monad over the generator state. *)

Definition rand (G A : Type) : Type := G -> option (A * G).

#[global] Instance rand_ret {G} : MRet (rand G) :=
  fun A (x : A) g => Some (x, g).

#[global] Instance rand_bind {G} : MBind (rand G) :=
  fun A B (f : A -> rand G B) (m : rand G A) g =>
    match m g with
    | Some (x, g') => f x g'
    | None => None
    end.

Module rnd.
Section ops.
Context {G : Type} `{NumpyRandom G}.

(** [np.random.seed(s)]: the previous state is dropped. *)
Definition seed (s : Z) : rand G unit :=
  fun _ => g ← np_random.seed s; Some (tt, g).

Definition randint (low high : Z) : rand G Z := fun g => Some (np_random.randint low high g).
Definition uniform (low high : Q) : rand G Q := fun g => Some (np_random.uniform low high g).

(** A step that does not touch the generator; [None] is an exception. *)
Definition lift {A} (o : option A) : rand G A :=
  fun g => x ← o; Some (x, g).

Definition ret {A} (x : A) : rand G A := mret x.
End ops.
End rnd.

(** ** app/core/enhanced_auction.py: competitors and the auction loop *)

Module enhanced_auction.
Import volume_estimation.
Open Scope string_scope.

Definition run_auction {G} `{NumpyRandom G} :=
  auction_engine.run_auction (G := G) true.

Definition as_str (v : option value) : option string :=
  match v with
  | Some (VStr s) => Some s
  | _ => None
  end.

(** [a == b] on the values of the model. *)
Definition value_eqb (a b : value) : bool :=
  match a, b with
  | VNum x, VNum y => Qeq_bool x y
  | VStr x, VStr y => String.eqb x y
  | _, _ => false
  end.

Definition competitor_counts : gmap string (Z * Z) :=
  list_to_map [("High", (3, 8)%Z); ("Medium", (2, 5)%Z); ("Low", (1, 3)%Z)].

Section with_generator.
Context {G : Type} `{NumpyRandom G}.

(** The body of [for i in range(num_competitors)], from index [i] on,
    with [n] rounds left. *)
Fixpoint competitor_loop (match_type : string) (avg_cpc : Q) (i n : nat)
    : rand G (list pydict) :=
  match n with
  | O => rnd.ret []
  | S n' =>
      competitor_bid ← rnd.uniform (avg_cpc * 0.7)%Q (avg_cpc * 1.3)%Q;
      competitor_qs ← rnd.randint 5 10;
      let ad : pydict :=
        <["keyword" := VStr ("competitor_" ++ pystr.of_nat i)]>
        (<["match_type" := VStr match_type]>
        (<["bid" := VNum (py.round competitor_bid 2)]>
        (<["quality_score" := VNum (inject_Z competitor_qs)]> ∅))) in
      rest ← competitor_loop match_type avg_cpc (S i) n';
      rnd.ret (ad :: rest)
  end.

Definition _generate_competitor_ads (keyword match_type geo : string)
    (seed : Z) : rand G (list pydict) :=
  _ ← rnd.seed seed;
  let competition_level := get_competition_level keyword in
  let '(min_competitors, max_competitors) :=
    default (2, 5)%Z (competitor_counts !! competition_level) in
  num_competitors ← rnd.randint min_competitors (max_competitors + 1);
  let '(low_cpc, avg_cpc, high_cpc) := get_estimated_cpc keyword match_type in
  competitor_loop match_type avg_cpc 0 (Z.to_nat num_competitors).

(** The dictionaries of one auction are new objects: they are placed
    in a store of their own, at the locations [0 .. len(ads) - 1]. *)
Definition alloc (ads : list pydict) : store :=
  list_to_map (zip (seq 0 (List.length ads)) ads).

Definition run_auction_on (ads : list pydict) (seed : Z)
    : rand G (list auction_engine.Winner) :=
  fun g =>
    '(winners, w) ← run_auction (seq 0 (List.length ads)) seed
                       (World g (alloc ads));
    Some (winners, np_state w).

(** [kw.get('match_type', 'phrase')] *)
Definition kw_match_type (kw : pydict) : option string :=
  match kw !! "match_type" with
  | None => Some "phrase"
  | v => as_str v
  end.

(** The first loop: one estimate per keyword text, the last keyword
    with a given text wins. *)
Fixpoint estimate_all (keywords : list pydict) (geo : string)
    (keyword_auction_data : gmap string AuctionEstimate)
    (total_daily_auctions : Z)
    : option (gmap string AuctionEstimate * Z) :=
  match keywords with
  | [] => Some (keyword_auction_data, total_daily_auctions)
  | kw :: rest =>
      text ← as_str (kw !! "text");
      match_type ← kw_match_type kw;
      auction_estimate ← estimate_daily_auctions text match_type geo;
      estimate_all rest geo
        (<[text := auction_estimate]> keyword_auction_data)
        (total_daily_auctions + daily_auctions auction_estimate)
  end.

(** The body of [for auction_id in range(keyword_auctions)], from
    [auction_id] on, with [n] rounds left. *)
Fixpoint auction_loop (kw : pydict) (geo : string) (seed : Z)
    (auction_id n : nat) : rand G (list auction_engine.Winner) :=
  match n with
  | O => rnd.ret []
  | S n' =>
      text ← rnd.lift (as_str (kw !! "text"));
      match_type ← rnd.lift (kw_match_type kw);
      bid ← rnd.lift (kw !! "bid");
      quality_score ← rnd.lift (kw !! "quality_score");
      let ad : pydict :=
        <["keyword" := VStr text]>
        (<["match_type" := VStr match_type]>
        (<["bid" := bid]>
        (<["quality_score" := quality_score]> ∅))) in
      competitors ← _generate_competitor_ads text match_type geo
                       (seed + Z.of_nat auction_id);
      winners ← run_auction_on (ad :: competitors) (seed + Z.of_nat auction_id);
      let our_results :=
        List.filter
          (fun w => value_eqb (auction_engine.w_keyword w) (VStr text))
          winners in
      rest ← auction_loop kw geo seed (S auction_id) n';
      rnd.ret (our_results ++ rest)%list
  end.

Fixpoint keyword_loop (keywords : list pydict) (geo : string) (seed : Z)
    (keyword_auction_data : gmap string AuctionEstimate)
    : rand G (list auction_engine.Winner) :=
  match keywords with
  | [] => rnd.ret []
  | kw :: rest =>
      text ← rnd.lift (as_str (kw !! "text"));
      auction_estimate ← rnd.lift (keyword_auction_data !! text);
      results ← auction_loop kw geo seed 0
                   (Z.to_nat (daily_auctions auction_estimate));
      more ← keyword_loop rest geo seed keyword_auction_data;
      rnd.ret (results ++ more)%list
  end.

(** [campaign_context] is accepted and not read by the function. *)
Definition simulate_volume_based_auctions {Ctx : Type}
    (keywords : list pydict) (geo : string) (campaign_context : Ctx)
    (seed : Z) : rand G (list auction_engine.Winner) :=
  _ ← rnd.seed seed;
  '(keyword_auction_data, total_daily_auctions) ←
    rnd.lift (estimate_all keywords geo ∅ 0);
  keyword_loop keywords geo seed keyword_auction_data.

End with_generator.
End enhanced_auction.

(** ** The campaign context

    [campaign_context] is an optional dictionary read through
    [get(key, default)]. Its entries are typed here; [ctx_other_keys] tells
    whether the dictionary holds keys that the modelled code never reads
    (they only matter for its truth value). *)

Module campaign.
Record CampaignContext := {
  ctx_ad_headline : option string;
  ctx_ad_description : option string;
  ctx_display_url : option string;
  ctx_final_url : option string;
  ctx_extensions : option (list string);
  ctx_device_targeting : option string;
  ctx_keyword_intent : option string;
  ctx_competition_level : option string;
  ctx_goal : option string;
  ctx_reach_methods : option (list string);
  ctx_lp_score : option Q;
  ctx_geo : option string;
  ctx_other_keys : bool
}.

Definition empty : CampaignContext :=
  {| ctx_ad_headline := None; ctx_ad_description := None;
     ctx_display_url := None; ctx_final_url := None; ctx_extensions := None;
     ctx_device_targeting := None; ctx_keyword_intent := None;
     ctx_competition_level := None; ctx_goal := None;
     ctx_reach_methods := None; ctx_lp_score := None; ctx_geo := None;
     ctx_other_keys := false |}.

Definition is_set {A} (o : option A) : bool :=
  match o with Some _ => true | None => false end.

(** [len(campaign_context) > 0] *)
Definition nonempty (c : CampaignContext) : bool :=
  is_set (ctx_ad_headline c) || is_set (ctx_ad_description c)
  || is_set (ctx_display_url c) || is_set (ctx_final_url c)
  || is_set (ctx_extensions c) || is_set (ctx_device_targeting c)
  || is_set (ctx_keyword_intent c) || is_set (ctx_competition_level c)
  || is_set (ctx_goal c) || is_set (ctx_reach_methods c)
  || is_set (ctx_lp_score c) || is_set (ctx_geo c) || ctx_other_keys c.

(** The truth value of [campaign_context]: neither [None] nor [{}]. *)
Definition truthy (c : option CampaignContext) : bool :=
  match c with
  | Some c => nonempty c
  | None => false
  end.
End campaign.

(** ** app/core/quality_score_engine.py *)

Module quality_score_engine.
Open Scope string_scope.

Record AdData := {
  headlines : list string;
  descriptions : list string;
  display_url : string;
  final_url : string;
  extensions : option (list string);
  device_targeting : string;
  ad_type : string
}.

Record KeywordData := {
  text : string;
  match_type : string;
  intent : string;
  competition : string
}.

Record QualityScoreComponents := {
  expected_ctr : Q;
  ad_relevance : Q;
  landing_page_experience : Q;
  extension_bonus : Q;
  raw_score : Q;
  final_score : Q
}.

(** The engine: the two optional models for relevance (a model, when
    present, is the whole of [_check_relevance_gemini], respectively of
    [_check_relevance_sentence_transformers], which catch their own
    errors) and the cache of landing page scores. *)
Record QualityScoreEngine := {
  gemini_model : option (AdData -> KeywordData -> Q);
  sentence_model : option (AdData -> KeywordData -> Q);
  lp_cache : gmap string Q
}.

(** The engine as it is built when no model is installed. *)
Definition offline_engine : QualityScoreEngine :=
  {| gemini_model := None; sentence_model := None; lp_cache := ∅ |}.

Definition ad_content (ad : AdData) : string :=
  pystr.lower (pystr.join " " (headlines ad ++ descriptions ad)%list).

Definition _keyword_in_ad (ad : AdData) (keyword : string) : bool :=
  pystr.contains (pystr.lower keyword) (ad_content ad).

(** [ad.extensions and len(ad.extensions) > n] *)
Definition extension_count (ad : AdData) : nat :=
  match extensions ad with
  | Some l => List.length l
  | None => 0
  end.

Definition predict_expected_ctr (ad : AdData) (keyword : KeywordData) : Q :=
  let base_ctr := 0.03%Q in
  let base_ctr :=
    if String.eqb (intent keyword) "transactional" then (base_ctr + 0.03)%Q
    else if String.eqb (intent keyword) "navigational" then (base_ctr + 0.02)%Q
    else if String.eqb (intent keyword) "informational" then (base_ctr + 0.01)%Q
    else base_ctr in
  let base_ctr :=
    if String.eqb (match_type keyword) "exact" then (base_ctr + 0.02)%Q
    else if String.eqb (match_type keyword) "phrase" then (base_ctr + 0.01)%Q
    else base_ctr in
  let base_ctr :=
    if _keyword_in_ad ad (text keyword) then (base_ctr + 0.02)%Q else base_ctr in
  let base_ctr :=
    if String.eqb (device_targeting ad) "mobile" then (base_ctr + 0.01)%Q
    else base_ctr in
  let base_ctr :=
    if (2 <? extension_count ad)%nat then (base_ctr + 0.01)%Q else base_ctr in
  let base_ctr :=
    if String.eqb (competition keyword) "low" then (base_ctr + 0.01)%Q
    else if String.eqb (competition keyword) "high" then (base_ctr - 0.01)%Q
    else base_ctr in
  py.min 1.0 (py.max 0.01 base_ctr).

Definition transactional_words : list string :=
  ["buy"; "purchase"; "order"; "shop"; "price"; "deal"; "sale"].

Definition _check_relevance_rule_based (ad : AdData) (keyword : KeywordData) : Q :=
  let score := 0.5%Q in
  let keyword_lower := pystr.lower (text keyword) in
  let content := ad_content ad in
  let score :=
    if pystr.contains keyword_lower content then (score + 0.3)%Q else score in
  let keyword_words := pystr.split keyword_lower in
  let matched_words :=
    List.length (List.filter (fun word => pystr.contains word content) keyword_words) in
  let score :=
    if (0 <? matched_words)%nat
    then (score + 0.2 * (inject_Z (Z.of_nat matched_words)
                         / inject_Z (Z.of_nat (List.length keyword_words))))%Q
    else score in
  let score :=
    if String.eqb (intent keyword) "transactional"
       && pystr.any_in transactional_words content
    then (score + 0.1)%Q else score in
  py.min 1.0 score.

Definition check_ad_relevance (e : QualityScoreEngine) (ad : AdData)
    (keyword : KeywordData) : Q :=
  match gemini_model e, sentence_model e with
  | Some gemini, _ => gemini ad keyword
  | None, Some st => st ad keyword
  | None, None => _check_relevance_rule_based ad keyword
  end.

(** [urllib.parse.urlparse], reduced to what the analysis reads: the
    scheme is split off at the first [':'] when what precedes it is a
    letter followed by scheme characters, the network location runs
    from ["//"] to the first of ['/'], ['?'], ['#'], and the path ends
    at the first ['#'] or ['?']. Bracketed hosts, path parameters and
    the removal of control characters are not covered. *)
Fixpoint cut (stop : ascii -> bool) (s : string) : string * string :=
  match s with
  | EmptyString => (EmptyString, EmptyString)
  | String c s' =>
      if stop c then (EmptyString, s)
      else let '(a, b) := cut stop s' in (String c a, b)
  end.

Definition is_char (c : ascii) : ascii -> bool := Ascii.eqb c.

Definition is_ascii_letter (c : ascii) : bool :=
  pystr.between 65 90 c || pystr.between 97 122 c.

Definition is_scheme_char (c : ascii) : bool :=
  is_ascii_letter c || pystr.between 48 57 c
  || is_char "+" c || is_char "-" c || is_char "." c.

Definition drop_scheme (url : string) : string :=
  match cut (is_char ":") url with
  | (String c pre, String _ rest) =>
      if is_ascii_letter c && pystr.forallb_str is_scheme_char pre
      then rest else url
  | _ => url
  end.

Definition netloc_and_path (url : string) : string * string :=
  let url := drop_scheme url in
  let '(netloc, url) :=
    match url with
    | String "/" (String "/" rest) =>
        cut (fun c => is_char "/" c || is_char "?" c || is_char "#" c) rest
    | _ => (EmptyString, url)
    end in
  let '(url, _) := cut (is_char "#") url in
  let '(path, _) := cut (is_char "?") url in
  (netloc, path).

Definition _analyze_landing_page_offline (url : string) : Q :=
  let '(netloc, path) := netloc_and_path url in
  let domain := pystr.lower netloc in
  let score := 1.0%Q in
  let score :=
    if negb (pystr.startswith url "https://") then (score - 0.1)%Q else score in
  let score :=
    if pystr.any_in ["localhost"; "test"; "demo"; "example"] domain
    then (score - 0.3)%Q else score in
  let score :=
    if pystr.any_in ["google.com"; "microsoft.com"; "apple.com"; "amazon.com";
                     "facebook.com"] domain
    then (score + 0.1)%Q else score in
  let path := pystr.lower path in
  let score :=
    if pystr.any_in ["/landing"; "/lp"; "/offer"; "/deal"] path
    then (score + 0.05)%Q else score in
  let score :=
    if pystr.any_in ["/404"; "/error"; "/not-found"] path
    then (score - 0.4)%Q else score in
  let score :=
    if (100 <? String.length url)%nat then (score - 0.05)%Q else score in
  let subdomain :=
    if pystr.contains "." domain then fst (cut (is_char ".") domain) else "" in
  let score :=
    if existsb (String.eqb subdomain) ["www"; "shop"; "store"; "app"]
    then (score + 0.02)%Q else score in
  py.max 0.1 (py.min 1.0 (py.round score 2)).

Definition calculate_landing_page_experience (e : QualityScoreEngine)
    (url : string) : Q * QualityScoreEngine :=
  match lp_cache e !! url with
  | Some score => (score, e)
  | None =>
      let score := _analyze_landing_page_offline url in
      (score, {| gemini_model := gemini_model e;
                 sentence_model := sentence_model e;
                 lp_cache := <[url := score]> (lp_cache e) |})
  end.

Definition calculate_extension_bonus (ad : AdData) : Q :=
  let num_extensions := extension_count ad in
  if (4 <=? num_extensions)%nat then 1.5%Q
  else if (3 <=? num_extensions)%nat then 1.3%Q
  else if (2 <=? num_extensions)%nat then 1.2%Q
  else if (1 <=? num_extensions)%nat then 1.1%Q
  else 1.0%Q.

(** [final_url or ad.final_url] *)
Definition url_or (final_url : option string) (ad : AdData) : string :=
  match final_url with
  | Some (String c u) => String c u
  | _ => quality_score_engine.final_url ad
  end.

Definition calculate_quality_score (e : QualityScoreEngine) (ad : AdData)
    (keyword : KeywordData) (final_url : option string)
    : QualityScoreComponents * QualityScoreEngine :=
  let final_url := url_or final_url ad in
  let ctr := predict_expected_ctr ad keyword in
  let relevance := check_ad_relevance e ad keyword in
  let '(landing_page_score, e') := calculate_landing_page_experience e final_url in
  let bonus := calculate_extension_bonus ad in
  let raw := (ctr * relevance * landing_page_score * bonus * 10)%Q in
  ({| expected_ctr := ctr; ad_relevance := relevance;
      landing_page_experience := landing_page_score;
      extension_bonus := bonus; raw_score := raw;
      final_score := py.min 10.0 (py.round raw 1) |}, e').

End quality_score_engine.

(** ** app/core/enhanced_auction.py: the Quality Score entry points *)

Module enhanced_quality.
Import campaign quality_score_engine.
Open Scope string_scope.

(** [campaign_context.get(key, default)] *)
Definition ctx_get {A} (campaign_context : option CampaignContext)
    (key : CampaignContext -> option A) (d : A) : A :=
  default d (campaign_context ≫= key).

Definition ad_of_context (campaign_context : option CampaignContext) : AdData :=
  if truthy campaign_context then
    let c := campaign_context in
    {| headlines := [ctx_get c ctx_ad_headline "Generic Ad"];
       descriptions := [ctx_get c ctx_ad_description "Generic description"];
       display_url := ctx_get c ctx_display_url "example.com";
       final_url := ctx_get c ctx_final_url "https://example.com";
       extensions := Some (ctx_get c ctx_extensions []);
       device_targeting := ctx_get c ctx_device_targeting "all";
       ad_type := "search" |}
  else
    {| headlines := ["Generic Ad"];
       descriptions := ["Generic description"];
       display_url := "example.com";
       final_url := "https://example.com";
       extensions := Some [];
       device_targeting := "all";
       ad_type := "search" |}.

Definition keyword_of_context (keyword match_type : string)
    (campaign_context : option CampaignContext) : KeywordData :=
  {| text := keyword; match_type := match_type;
     intent :=
       if truthy campaign_context
       then ctx_get campaign_context ctx_keyword_intent "informational"
       else "informational";
     competition :=
       if truthy campaign_context
       then ctx_get campaign_context ctx_competition_level "medium"
       else "medium" |}.

(** The fallback of the [except] branch. *)
Definition calculate_simple_quality_score (keyword match_type : string)
    (campaign_context : option CampaignContext)
    (ad_relevance_score landing_page_score : Q) : Z :=
  let base_qs := 5.0%Q in
  let relevance_modifier := ((ad_relevance_score - 0.5) * 4)%Q in
  let ctr_modifier :=
    if String.eqb match_type "exact" then 1.2%Q
    else if String.eqb match_type "phrase" then 1.0%Q
    else if String.eqb match_type "broad" then 0.8%Q
    else 1.0%Q in
  let lp_modifier := ((landing_page_score - 0.5) * 2)%Q in
  let goal_modifier :=
    if truthy campaign_context then
      let goal := ctx_get campaign_context ctx_goal "sales" in
      let reach_methods := ctx_get campaign_context ctx_reach_methods [] in
      if (String.eqb goal "sales" || String.eqb goal "leads")
         && existsb (String.eqb "Your business's website") reach_methods
      then 1.1%Q
      else if String.eqb goal "website_traffic" then 1.05%Q
      else 1.0%Q
    else 1.0%Q in
  let final_qs :=
    (base_qs + relevance_modifier + (ctr_modifier - 1.0) + lp_modifier)%Q in
  let final_qs := (final_qs * goal_modifier)%Q in
  let final_qs := py.max 1 (py.min 10 final_qs) in
  py.round_half_even final_qs.

(** With typed inputs the engine raises nothing, so the [try] branch is
    the whole function: [int(qs_components.final_score)]. *)
Definition calculate_enhanced_quality_score (e : QualityScoreEngine)
    (keyword match_type : string) (campaign_context : option CampaignContext)
    : Z * QualityScoreEngine :=
  let ad := ad_of_context campaign_context in
  let keyword_obj := keyword_of_context keyword match_type campaign_context in
  let '(qs_components, e') := calculate_quality_score e ad keyword_obj None in
  (py.int (final_score qs_components), e').

End enhanced_quality.

(** ** app/core/confidence_ranges.py *)

Module confidence_ranges.
Import campaign.
Open Scope string_scope.

Record ConfidenceRange := {
  lower_bound : Q;
  upper_bound : Q;
  confidence_level : Q;
  variance_percentage : Q
}.

Definition match_type_variance : gmap string Q :=
  list_to_map [("exact", 0.01%Q); ("phrase", 0.03%Q); ("broad", 0.05%Q)].

Definition base_confidence_factors : gmap string Q :=
  list_to_map [("volume", 0.02%Q); ("ctr", 0.03%Q); ("cvr", 0.04%Q);
               ("cpc", 0.05%Q); ("cost", 0.06%Q); ("revenue", 0.07%Q);
               ("roas", 0.08%Q)].

Definition _calculate_context_factor
    (campaign_context : option CampaignContext) : Q :=
  if negb (truthy campaign_context) then 0.0%Q
  else
    let factor := 0.0%Q in
    let lp_score := default 0.7%Q (campaign_context ≫= ctx_lp_score) in
    let factor :=
      if py.ltb lp_score 0.5 then (factor + 0.02)%Q
      else if py.ltb 0.9 lp_score then (factor - 0.01)%Q
      else factor in
    let goal := default "sales" (campaign_context ≫= ctx_goal) in
    let factor :=
      if String.eqb goal "brand_awareness" then (factor + 0.01)%Q
      else if String.eqb goal "sales" then (factor - 0.005)%Q
      else factor in
    let geo := default "US" (campaign_context ≫= ctx_geo) in
    let factor :=
      if negb (String.eqb geo "US") then (factor + 0.01)%Q else factor in
    factor.

Definition calculate_confidence_range (value : Q)
    (metric_type match_type : string) (confidence_level : Q)
    (campaign_context : option CampaignContext) : ConfidenceRange :=
  let base_variance := default 0.05%Q (base_confidence_factors !! metric_type) in
  let match_variance := default 0.03%Q (match_type_variance !! match_type) in
  let context_factor := _calculate_context_factor campaign_context in
  let total_variance := (match_variance + context_factor)%Q in
  let variance_amount := (value * total_variance)%Q in
  {| lower_bound := py.max 0 (value - variance_amount);
     upper_bound := (value + variance_amount)%Q;
     confidence_level := confidence_level;
     variance_percentage := total_variance |}.

End confidence_ranges.

(** ** app/api/simulate.py: per-keyword metrics and the budget constraint

    The rates come from [calculate_ctr] and [calculate_cvr]; the
    aggregation takes them as given, one pair for each keyword. *)

Module simulate.

(** What the loop over [keyword_stats] has at hand for one keyword. *)
Record KeywordStats := {
  ks_text : string;
  ks_match_type : string;
  ks_impressions : Z;
  ks_avg_position : Q;
  ks_avg_cpc : Q;
  ks_ctr : Q;
  ks_cvr : Q
}.

Record KeywordResult := {
  kr_text : string;
  kr_match_type : string;
  impressions : Z;
  clicks : Z;
  ctr : Q;
  avg_position : Q;
  avg_cpc : Q;
  cost : Q;
  conversions : Z;
  cvr : Q;
  cost_per_conversion : option Q
}.

Record Totals := {
  total_impressions : Z;
  total_clicks : Z;
  total_cost : Q;
  total_conversions : Z
}.

(** One round of the loop: the result that is appended, and the
    unrounded cost that goes into [total_cost]. *)
Definition keyword_metrics (s : KeywordStats) : KeywordResult * Q :=
  let clicks := py.int (inject_Z (ks_impressions s) * ks_ctr s)%Q in
  let cost := (inject_Z clicks * ks_avg_cpc s)%Q in
  let conversions := py.int (inject_Z clicks * ks_cvr s)%Q in
  let cost_per_conv :=
    if (0 <? conversions)%Z then Some (cost / inject_Z conversions)%Q else None in
  ({| kr_text := ks_text s; kr_match_type := ks_match_type s;
      impressions := ks_impressions s;
      clicks := clicks;
      ctr := py.round (ks_ctr s) 4;
      avg_position := py.round (ks_avg_position s) 2;
      avg_cpc := py.round (ks_avg_cpc s) 2;
      cost := py.round cost 2;
      conversions := conversions;
      cvr := py.round (ks_cvr s) 4;
      cost_per_conversion :=
        match cost_per_conv with
        | Some c => if Qeq_bool c 0 then None else Some (py.round c 2)
        | None => None
        end |}, cost).

Fixpoint accumulate (stats : list KeywordStats) (results : list KeywordResult)
    (t : Totals) : list KeywordResult * Totals :=
  match stats with
  | [] => (results, t)
  | s :: rest =>
      let '(r, cost) := keyword_metrics s in
      accumulate rest (results ++ [r])
        {| total_impressions := total_impressions t + impressions r;
           total_clicks := total_clicks t + clicks r;
           total_cost := (total_cost t + cost)%Q;
           total_conversions := total_conversions t + conversions r |}
  end.

Definition scale_result (scale_factor : Q) (r : KeywordResult) : KeywordResult :=
  {| kr_text := kr_text r; kr_match_type := kr_match_type r;
     impressions := impressions r;
     clicks := py.int (inject_Z (clicks r) * scale_factor)%Q;
     ctr := ctr r; avg_position := avg_position r; avg_cpc := avg_cpc r;
     cost := py.round (cost r * scale_factor)%Q 2;
     conversions := py.int (inject_Z (conversions r) * scale_factor)%Q;
     cvr := cvr r; cost_per_conversion := cost_per_conversion r |}.

(** [sum(...)] over the keyword results, from 0. *)
Definition sum_Z (f : KeywordResult -> Z) (l : list KeywordResult) : Z :=
  fold_left (fun acc r => acc + f r)%Z l 0%Z.
Definition sum_Q (f : KeywordResult -> Q) (l : list KeywordResult) : Q :=
  fold_left (fun acc r => acc + f r)%Q l 0%Q.

(** [# Apply budget constraints] *)
Definition apply_budget_constraints (daily_budget : Q)
    (keyword_results : list KeywordResult) (t : Totals)
    : option (list KeywordResult * Totals) :=
  if py.ltb daily_budget (total_cost t) then
    scale_factor ← py.div daily_budget (total_cost t);
    let keyword_results := map (scale_result scale_factor) keyword_results in
    Some (keyword_results,
          {| total_impressions := total_impressions t;
             total_clicks := sum_Z clicks keyword_results;
             total_cost := sum_Q cost keyword_results;
             total_conversions := sum_Z conversions keyword_results |})
  else Some (keyword_results, t).

Definition zero_totals : Totals :=
  {| total_impressions := 0; total_clicks := 0; total_cost := 0.0;
     total_conversions := 0 |}.

(** The sum of the unrounded costs, as the loop accumulates it. *)
Definition raw_total_cost (stats : list KeywordStats) : Q :=
  total_cost (accumulate stats [] zero_totals).2.


Definition aggregate (daily_budget : Q) (stats : list KeywordStats)
    : option (list KeywordResult * Totals) :=
  let '(keyword_results, t) :=
    accumulate stats []
      {| total_impressions := 0; total_clicks := 0; total_cost := 0.0;
         total_conversions := 0 |} in
  apply_budget_constraints daily_budget keyword_results t.

End simulate.

(** ** app/core/deterministic_cache.py *)

Module deterministic_cache.
Open Scope string_scope.

(** A configuration: what [json.dumps] accepts. A dictionary is the
    list of its items in insertion order; its keys are strings and, as
    in any [dict], pairwise different ([wf]). *)
Inductive config :=
| CNull
| CBool (b : bool)
| CInt (z : Z)
| CFloat (q : Q)
| CStr (s : string)
| CList (l : list config)
| CDict (items : list (string * config)).

Fixpoint wf (c : config) : Prop :=
  match c with
  | CList l =>
      (fix each l := match l with
                     | [] => True
                     | v :: l' => wf v /\ each l'
                     end) l
  | CDict items =>
      NoDup (map fst items) /\
      (fix each l := match l with
                     | [] => True
                     | (_, v) :: l' => wf v /\ each l'
                     end) items
  | _ => True
  end.

(** [sorted(...)] on strings and on items: a stable sort by increasing
    key, strings compared code point by code point. *)
Fixpoint insert_asc {A} (key : A -> string) (x : A) (l : list A) : list A :=
  match l with
  | [] => [x]
  | y :: l' => if String.ltb (key y) (key x) then y :: insert_asc key x l'
               else x :: y :: l'
  end.

Definition sorted_asc {A} (key : A -> string) (l : list A) : list A :=
  foldr (insert_asc key) [] l.

(** The order of strings, and the order that [sorted_asc]
    establishes. *)
Definition str_le (a b : string) : Prop := String.ltb b a = false.

Definition asc {A} (key : A -> string) : relation A :=
  fun a b => str_le (key a) (key b).

(** [obj[k]] *)
Fixpoint getitem {A} (items : list (string * A)) (k : string) : option A :=
  match items with
  | [] => None
  | (k', v) :: rest => if String.eqb k' k then Some v else getitem rest k
  end.

(** [{k: f(obj[k]) for k in sorted(obj.keys())}], the values already
    mapped. *)
Definition by_sorted_keys {A} (items : list (string * A)) : list (string * A) :=
  omap (fun k => v ← getitem items k; Some (k, v))
       (sorted_asc id (map fst items)).

Fixpoint _sort_config_recursive (obj : config) : config :=
  match obj with
  | CDict items =>
      CDict (by_sorted_keys
               (map (fun '(k, v) => (k, _sort_config_recursive v)) items))
  | CList l => CList (map _sort_config_recursive l)
  | _ => obj
  end.

(** The string escapes of [json.dumps] with [ensure_ascii]. *)
Definition quote : string := String (ascii_of_N 34) EmptyString.

Definition hex_digit (n : N) : ascii :=
  if (n <? 10)%N then ascii_of_N (48 + n) else ascii_of_N (87 + n).

Definition escape_char (c : ascii) : string :=
  let n := N_of_ascii c in
  if (n =? 34)%N then "\" ++ quote
  else if (n =? 92)%N then "\\"
  else if (n =? 10)%N then "\n"
  else if (n =? 13)%N then "\r"
  else if (n =? 9)%N then "\t"
  else if (n =? 8)%N then "\b"
  else if (n =? 12)%N then "\f"
  else if ((32 <=? n) && (n <=? 126))%N then String c EmptyString
  else "\u00" ++ String (hex_digit (n / 16)) (String (hex_digit (n mod 16)) EmptyString).

Fixpoint escape (s : string) : string :=
  match s with
  | EmptyString => EmptyString
  | String c s' => escape_char c ++ escape s'
  end.

Definition encode_basestring_ascii (s : string) : string :=
  quote ++ escape s ++ quote.

Section hashing.
(** [float.__repr__] and [hashlib.sha256(...).hexdigest()] are taken
    as given. *)
Variable float_repr : Q -> string.
Variable sha256_hexdigest : string -> string.

(** [json.dumps(obj, sort_keys=True, separators=(',', ':'))]. The
    encoder walks [sorted(dct.items())] and encodes each value in
    turn; here each value is encoded first and the encoded items are
    then put in the order of their keys, which is the same string. *)
Definition encode_item (kv : string * string) : string :=
  encode_basestring_ascii kv.1 ++ ":" ++ kv.2.

Fixpoint dumps (obj : config) : string :=
  match obj with
  | CNull => "null"
  | CBool true => "true"
  | CBool false => "false"
  | CInt z => pystr.of_Z z
  | CFloat q => float_repr q
  | CStr s => encode_basestring_ascii s
  | CList l => "[" ++ pystr.join "," (map dumps l) ++ "]"
  | CDict items =>
      "{" ++ pystr.join ","
               (map encode_item
                  (sorted_asc fst (map (fun '(k, v) => (k, dumps v)) items)))
          ++ "}"
  end.

(** The items of a dictionary with their values serialised. *)
Definition encoded (items : list (string * config)) : list (string * string) :=
  map (fun '(k, v) => (k, dumps v)) items.

Definition _generate_config_hash (config : config) : string :=
  let sorted_config := _sort_config_recursive config in
  let config_str := dumps sorted_config in
  sha256_hexdigest config_str.

(** *** The two tiers *)

Variable payload : Type.

(** A [datetime] is a number of microseconds. *)
Definition hours (n : Z) : Z := (n * 3600000000)%Z.

Record CacheEntry := {
  key : string;
  data : payload;
  created_at : Z;
  expires_at : option Z;
  hit_count : Z;
  last_accessed : option Z
}.

(** A file of the cache directory: a pickled entry, or bytes that
    [pickle.load] rejects. *)
Inductive file :=
| Pickled (e : CacheEntry)
| Corrupt.

Record Stats := {
  hits : Z;
  misses : Z;
  evictions : Z;
  total_requests : Z
}.

Record DeterministicCache := {
  ttl_hours : Z;
  memory_cache : gmap string CacheEntry;
  cache_dir : gmap string file;
  stats : Stats
}.

(** The successive readings of [datetime.now()] during one call. *)
Definition clock := nat -> Z.

Definition _is_expired (now : Z) (entry : CacheEntry) : bool :=
  match expires_at entry with
  | None => false
  | Some t => (t <? now)%Z
  end.

(** [entry.hit_count += 1; entry.last_accessed = datetime.now()] *)
Definition touch (now : Z) (e : CacheEntry) : CacheEntry :=
  {| key := key e; data := data e; created_at := created_at e;
     expires_at := expires_at e; hit_count := hit_count e + 1;
     last_accessed := Some now |}.

Definition count (dh dm de dr : Z) (s : Stats) : Stats :=
  {| hits := hits s + dh; misses := misses s + dm;
     evictions := evictions s + de;
     total_requests := total_requests s + dr |}.

(** The second half of [get]: the persistent tier. [n] readings of
    the clock have been made so far. *)
Definition get_persistent (c : DeterministicCache) (cache_key : string)
    (clk : clock) (n : nat) : option payload * DeterministicCache :=
  match cache_dir c !! cache_key with
  | Some (Pickled entry) =>
      if negb (_is_expired (clk n) entry) then
        (Some (data entry),
         {| ttl_hours := ttl_hours c;
            memory_cache :=
              <[cache_key := touch (clk (S n)) entry]> (memory_cache c);
            cache_dir := cache_dir c;
            stats := count 1 0 0 0 (stats c) |})
      else
        (None,
         {| ttl_hours := ttl_hours c; memory_cache := memory_cache c;
            cache_dir := delete cache_key (cache_dir c);
            stats := count 0 1 1 0 (stats c) |})
  | Some Corrupt =>
      (None,
       {| ttl_hours := ttl_hours c; memory_cache := memory_cache c;
          cache_dir := delete cache_key (cache_dir c);
          stats := count 0 1 0 0 (stats c) |})
  | None =>
      (None,
       {| ttl_hours := ttl_hours c; memory_cache := memory_cache c;
          cache_dir := cache_dir c;
          stats := count 0 1 0 0 (stats c) |})
  end.

Definition get (c : DeterministicCache) (config : config) (clk : clock)
    : option payload * DeterministicCache :=
  let cache_key := _generate_config_hash config in
  match memory_cache c !! cache_key with
  | Some entry =>
      if negb (_is_expired (clk 0%nat) entry) then
        (Some (data entry),
         {| ttl_hours := ttl_hours c;
            memory_cache :=
              <[cache_key := touch (clk 1%nat) entry]> (memory_cache c);
            cache_dir := cache_dir c;
            stats := count 1 0 0 1 (stats c) |})
      else
        get_persistent
          {| ttl_hours := ttl_hours c;
             memory_cache := delete cache_key (memory_cache c);
             cache_dir := cache_dir c;
             stats := count 0 0 1 1 (stats c) |}
          cache_key clk 1
  | None =>
      get_persistent
        {| ttl_hours := ttl_hours c; memory_cache := memory_cache c;
           cache_dir := cache_dir c;
           stats := count 0 0 0 1 (stats c) |}
        cache_key clk 0
  end.

(** How the write of the cache file ends: well, with [open] raising
    (the directory keeps what it had), or with [pickle.dump] raising
    (the file is left truncated). *)
Inductive write_outcome := WriteOk | OpenFails | DumpFails.

(** [custom_ttl_hours or self.ttl_hours] *)
Definition effective_ttl (c : DeterministicCache) (custom_ttl_hours : option Z) : Z :=
  match custom_ttl_hours with
  | Some t => if (t =? 0)%Z then ttl_hours c else t
  | None => ttl_hours c
  end.

Definition set (c : DeterministicCache) (config : config) (d : payload)
    (custom_ttl_hours : option Z) (clk : clock) (w : write_outcome)
    : string * DeterministicCache :=
  let cache_key := _generate_config_hash config in
  let ttl := effective_ttl c custom_ttl_hours in
  let expires := (clk 0%nat + hours ttl)%Z in
  let entry :=
    {| key := cache_key; data := d; created_at := clk 1%nat;
       expires_at := Some expires; hit_count := 0;
       last_accessed := Some (clk 2%nat) |} in
  (cache_key,
   {| ttl_hours := ttl_hours c;
      memory_cache := <[cache_key := entry]> (memory_cache c);
      cache_dir :=
        match w with
        | WriteOk => <[cache_key := Pickled entry]> (cache_dir c)
        | OpenFails => cache_dir c
        | DumpFails => <[cache_key := Corrupt]> (cache_dir c)
        end;
      stats := stats c |}).


(** The expiry time that [set] stamps on the entry. *)
Definition expiry (c : DeterministicCache)
    (custom_ttl_hours : option Z) (clk : clock) : Z :=
  (clk 0%nat + hours (effective_ttl c custom_ttl_hours))%Z.

End hashing.

(** Two configurations that differ in the order of the keys of their
    dictionaries, at any depth: the values under each key are related,
    and the items are permuted. *)
Inductive reorder : config -> config -> Prop :=
| reorder_same c : reorder c c
| reorder_list l l' : reorder_each l l' -> reorder (CList l) (CList l')
| reorder_dict items items' items'' :
    reorder_values items items' ->
    Permutation items' items'' ->
    reorder (CDict items) (CDict items'')
with reorder_each : list config -> list config -> Prop :=
| each_nil : reorder_each [] []
| each_cons c c' l l' :
    reorder c c' -> reorder_each l l' -> reorder_each (c :: l) (c' :: l')
with reorder_values : list (string * config) -> list (string * config) -> Prop :=
| values_nil : reorder_values [] []
| values_cons k c c' l l' :
    reorder c c' -> reorder_values l l' ->
    reorder_values ((k, c) :: l) ((k, c') :: l').

Scheme reorder_min := Minimality for reorder Sort Prop
  with reorder_each_min := Minimality for reorder_each Sort Prop
  with reorder_values_min := Minimality for reorder_values Sort Prop.
Combined Scheme reorder_mutual from
  reorder_min, reorder_each_min, reorder_values_min.

End deterministic_cache.

(** ** Concrete inputs *)

Module examples.
Open Scope string_scope.

(** A participant [{'keyword': kw, 'bid': bid, 'quality_score': qs}]. *)
Definition participant (kw : string) (bid qs : Q) : pydict :=
  <["keyword" := VStr kw]>
  (<["bid" := VNum bid]> (<["quality_score" := VNum qs]> ∅)).

Definition world_of (ads : list pydict) : world Z :=
  World 0%Z (list_to_map (zip (seq 0 (List.length ads)) ads)).

(** Scenario B: ad ranks 80 (quality score 8) and 40. *)
Definition scenario_B : world Z :=
  world_of [participant "plumber" 10 8; participant "rival" 5 8].




(** A context that only sets the goal. *)
Definition with_goal (goal : string) : campaign.CampaignContext :=
  {| campaign.ctx_ad_headline := None; campaign.ctx_ad_description := None;
     campaign.ctx_display_url := None; campaign.ctx_final_url := None;
     campaign.ctx_extensions := None; campaign.ctx_device_targeting := None;
     campaign.ctx_keyword_intent := None;
     campaign.ctx_competition_level := None;
     campaign.ctx_goal := Some goal; campaign.ctx_reach_methods := None;
     campaign.ctx_lp_score := None; campaign.ctx_geo := None;
     campaign.ctx_other_keys := false |}.

(** Scenario C: a computed cost of 50 against a budget of 10. *)
Definition scenario_C : list simulate.KeywordStats :=
  [ {| simulate.ks_text := "plumber"; simulate.ks_match_type := "exact";
       simulate.ks_impressions := 1000; simulate.ks_avg_position := 1.5;
       simulate.ks_avg_cpc := 0.5; simulate.ks_ctr := 0.05;
       simulate.ks_cvr := 0.1 |};
    {| simulate.ks_text := "dentist"; simulate.ks_match_type := "phrase";
       simulate.ks_impressions := 1000; simulate.ks_avg_position := 2;
       simulate.ks_avg_cpc := 0.5; simulate.ks_ctr := 0.05;
       simulate.ks_cvr := 0.1 |} ]%Q.

(** One keyword outside the static table. *)
Definition unknown_keyword : list pydict :=
  [<["text" := VStr "xyzzyfoobar123"]> (<["bid" := VNum 10]>
     (<["quality_score" := VNum 8]> (<["match_type" := VStr "broad"]> ∅)))].

(** Stand-ins for [float.__repr__] and for the digest, to run the
    model: every float prints as "0.0" and the digest is the
    serialised string itself. *)
Definition toy_repr (q : Q) : string := "0.0".
Definition toy_digest (s : string) : string := s.

Import deterministic_cache.

Definition config_a : config :=
  CDict [("seed", CInt 12345); ("geo", CStr "US");
         ("keywords", CList [CDict [("text", CStr "plumber"); ("bid", CInt 10)]])].

(** [config_a] with the keys of both dictionaries in another order. *)
Definition config_b : config :=
  CDict [("keywords", CList [CDict [("bid", CInt 10); ("text", CStr "plumber")]]);
         ("seed", CInt 12345); ("geo", CStr "US")].

Definition empty_cache : DeterministicCache Z :=
  {| ttl_hours := 24; memory_cache := ∅; cache_dir := ∅;
     stats := {| hits := 0; misses := 0; evictions := 0;
                 total_requests := 0 |} |}.

(** A cache whose directory holds an older entry for [config_a],
    valid for a thousand hours. *)
Definition stale_cache : DeterministicCache Z :=
  {| ttl_hours := 24; memory_cache := ∅;
     cache_dir :=
       {[ _generate_config_hash toy_repr toy_digest config_a :=
            Pickled Z {| key := _generate_config_hash toy_repr toy_digest config_a;
                         data := 7%Z; created_at := 0;
                         expires_at := Some (hours 1000);
                         hit_count := 0; last_accessed := Some 0%Z |} ]};
     stats := {| hits := 0; misses := 0; evictions := 0;
                 total_requests := 0 |} |}.

(** A clock that stands at [t]. *)
Definition at_time (t : Z) : clock := fun _ => t.
End examples.

(** ** app/core/auction.py: [simulate_multiple_auctions] *)

Module auction_sim.
Open Scope string_scope.

Section with_generator.
Context {G : Type} `{NumpyRandom G}.

(** [{'keyword': kw['text'], 'bid': kw['bid'],
      'quality_score': kw['quality_score']}] *)
Definition ad_of_keyword (kw : pydict) : option pydict :=
  text ← kw !! "text";
  bid ← kw !! "bid";
  quality_score ← kw !! "quality_score";
  Some (<["keyword" := text]>
        (<["bid" := bid]> (<["quality_score" := quality_score]> ∅))).

(** The dictionaries of one auction are new objects, as in
    [enhanced_auction.run_auction_on]. *)
Definition run_auction_on (ads : list pydict) (seed : Z)
    : rand G (list auction_engine.Winner) :=
  fun g =>
    '(winners, w) ← auction.run_auction (seq 0 (List.length ads)) seed
                       (World g (enhanced_auction.alloc ads));
    Some (winners, np_state w).

(** The body of [for auction_id in range(num_auctions)], from
    [auction_id] on, with [n] rounds left. *)
Fixpoint auctions_loop (keywords : list pydict) (seed : Z)
    (auction_id n : nat) : rand G (list auction_engine.Winner) :=
  match n with
  | O => rnd.ret []
  | S n' =>
      ads ← rnd.lift (mapM ad_of_keyword keywords);
      winners ← run_auction_on ads (seed + Z.of_nat auction_id);
      rest ← auctions_loop keywords seed (S auction_id) n';
      rnd.ret (winners ++ rest)%list
  end.

Definition simulate_multiple_auctions (keywords : list pydict)
    (num_auctions : Z) (seed : Z) : rand G (list auction_engine.Winner) :=
  _ ← rnd.seed seed;
  auctions_loop keywords seed 0 (Z.to_nat num_auctions).
End with_generator.
End auction_sim.

(** ** Vocabulary for the auction *)

Module auction_vocabulary.
Import auction_engine.
Open Scope string_scope.



(** What identifies a participant among the winners. *)
Definition ad_summary (ad : Ad) : option value * Q * Q :=
  (ad_keyword ad, ad_bid ad, ad_quality_score ad).
Definition winner_summary (w : Winner) : option value * Q * Q :=
  (Some (w_keyword w), w_bid w, w_quality_score w).

Definition has_rank (r : Q) {A} (rank : A -> Q) (x : A) : bool :=
  Qeq_bool (rank x) r.
End auction_vocabulary.

(** A generator that keeps to the ranges of its arguments:
    [randint(low, high)] lies in [low, high) and [uniform(low, high)]
    in [low, high]. *)
Class LawfulRandom (G : Type) `{NumpyRandom G} : Prop := {
  randint_range : forall low high g,
    (low < high)%Z ->
    (low <= (mt_randint low high g).1 < high)%Z;
  uniform_range : forall low high g,
    (low <= high)%Q ->
    (low <= (mt_uniform low high g).1 <= high)%Q
}.

(** ** Python sequences *)

Module pyseq.
(** [l[:n]]: a negative [n] counts from the end. *)
Definition slice_to {A} (n : Z) (l : list A) : list A :=
  if (n <? 0)%Z then take (Z.to_nat (Z.of_nat (List.length l) + n)) l
  else take (Z.to_nat n) l.
End pyseq.

(** ** app/core/volume_estimation.py: [get_keyword_suggestions] *)

Module volume_suggestions.
Import volume_estimation.
Open Scope string_scope.

(** [normalized_seed in keyword or keyword in normalized_seed] *)
Definition related (normalized_seed keyword : string) : bool :=
  pystr.contains normalized_seed keyword || pystr.contains keyword normalized_seed.

(** The table is walked in the order in which it was written down. *)
Definition get_keyword_suggestions (seed_keyword : string)
    (max_suggestions : Z) : list VolumeData :=
  let normalized_seed := normalize seed_keyword in
  let suggestions :=
    map snd (List.filter (fun kv => related normalized_seed kv.1)
               static_volume_rows) in
  let suggestions :=
    py.sorted_desc (fun x => inject_Z (monthly_searches x)) suggestions in
  pyseq.slice_to max_suggestions suggestions.

(** What every row of the static table satisfies. *)
Definition row_ok (v : VolumeData) : bool :=
  (String.eqb (competition v) "High" || String.eqb (competition v) "Medium"
   || String.eqb (competition v) "Low")
  && negb (Qle_bool (cpc_low v) 0) && Qle_bool (cpc_low v) (avg_cpc v)
  && Qle_bool (avg_cpc v) (cpc_high v) && Qle_bool 0.6 (avg_cpc v)
  && (0 <? monthly_searches v)%Z.

(** [self.match_type_modifiers.get(match_type, 0.5)] *)
Definition match_modifier (match_type : string) : Q :=
  default 0.5%Q (match_type_modifiers !! match_type).

(** The number of competitors that a competition level allows. *)
Definition competitor_range (level : string) : Z * Z :=
  default (2, 5)%Z (enhanced_auction.competitor_counts !! level).
End volume_suggestions.

(** ** Vocabulary for the Quality Score engine *)

Module quality_vocabulary.
Import quality_score_engine.


End quality_vocabulary.

(** ** app/core/confidence_ranges.py: error ranges *)

Module error_ranges.
Import campaign confidence_ranges.
Open Scope string_scope.

Record ErrorRange := {
  min_value : Q;
  max_value : Q;
  variance_percent : Q;
  er_match_type : string
}.

(** The call leaves [confidence_level] at its default, 0.95. *)
Definition calculate_error_range (value : Q) (metric_type match_type : string)
    (campaign_context : option CampaignContext) : ErrorRange :=
  let confidence_range :=
    calculate_confidence_range value metric_type match_type 0.95
      campaign_context in
  {| min_value := lower_bound confidence_range;
     max_value := upper_bound confidence_range;
     variance_percent := variance_percentage confidence_range;
     er_match_type := match_type |}.

Definition default_values : gmap string Q :=
  list_to_map [("impressions", 10000%Q); ("clicks", 500%Q);
               ("conversions", 25%Q); ("cost", 2500%Q); ("revenue", 5000%Q);
               ("ctr", 0.05%Q); ("cvr", 0.05%Q); ("cpc", 5.0%Q);
               ("cpa", 100.0%Q); ("roas", 2.0%Q)].

(** The dictionary [{'min': .., 'max': .., 'variance_percent': ..}] as
    a triple. *)
Definition simulate_error_range (metric match_type : string) : Q * Q * Q :=
  let value := default 1000%Q (default_values !! metric) in
  let error_range := calculate_error_range value metric match_type None in
  (min_value error_range, max_value error_range, variance_percent error_range).

Definition calculate_metric_confidence (value : Q)
    (metric_type match_type : string)
    (campaign_context : option CampaignContext) : Q * Q * Q :=
  let confidence_range :=
    calculate_confidence_range value metric_type match_type 0.95
      campaign_context in
  (lower_bound confidence_range, upper_bound confidence_range,
   variance_percentage confidence_range).

(** The context entries that [_calculate_context_factor] reads, with
    their defaults. *)
Definition lp_score_of (c : option CampaignContext) : Q :=
  default 0.7%Q (c ≫= ctx_lp_score).
Definition goal_of (c : option CampaignContext) : string :=
  default "sales" (c ≫= ctx_goal).
Definition geo_of (c : option CampaignContext) : string :=
  default "US" (c ≫= ctx_geo).

(** The one combination of inputs for which the variance is negative:
    exact match and a non-empty context with an excellent landing
    page, the goal 'sales' and the geography 'US'. *)
Definition narrowest (match_type : string) (c : option CampaignContext) : Prop :=
  match_type = "exact" /\ truthy c = true /\ (0.9 < lp_score_of c)%Q /\
  goal_of c = "sales" /\ geo_of c = "US".
End error_ranges.

(** ** app/core/deterministic_cache.py: the other operations of the cache *)

Module cache_ops.
Import deterministic_cache.
Open Scope string_scope.

Section ops.
Variable float_repr : Q -> string.
Variable sha256_hexdigest : string -> string.
Variable payload : Type.

Definition zero_stats : Stats :=
  {| hits := 0; misses := 0; evictions := 0; total_requests := 0 |}.

(** [__init__]: the directory keeps the files that earlier
    processes left in it. *)
Definition init (dir : gmap string (file payload)) (ttl_hours : Z)
    : DeterministicCache payload :=
  {| ttl_hours := ttl_hours; memory_cache := ∅; cache_dir := dir;
     stats := zero_stats |}.

Definition invalidate (c : DeterministicCache payload) (config : config)
    : bool * DeterministicCache payload :=
  let cache_key := _generate_config_hash float_repr sha256_hexdigest config in
  let in_memory := bool_decide (is_Some (memory_cache payload c !! cache_key)) in
  let on_disk := bool_decide (is_Some (cache_dir payload c !! cache_key)) in
  (in_memory || on_disk,
   {| ttl_hours := ttl_hours payload c;
      memory_cache := delete cache_key (memory_cache payload c);
      cache_dir := delete cache_key (cache_dir payload c);
      stats := stats payload c |}).

Definition clear (c : DeterministicCache payload) : DeterministicCache payload :=
  {| ttl_hours := ttl_hours payload c; memory_cache := ∅; cache_dir := ∅;
     stats := zero_stats |}.

(** [_cleanup_expired]: each entry is tested against a reading of
    the clock of its own, [now key]. *)
Definition _cleanup_expired (c : DeterministicCache payload)
    (now : string -> Z) : DeterministicCache payload :=
  let expired :=
    filter (fun kv => _is_expired payload (now kv.1) kv.2 = true)
      (memory_cache payload c) in
  {| ttl_hours := ttl_hours payload c;
     memory_cache :=
       filter (fun kv => _is_expired payload (now kv.1) kv.2 = false)
         (memory_cache payload c);
     cache_dir := cache_dir payload c;
     stats := count 0 0 (Z.of_nat (size expired)) 0 (stats payload c) |}.

Record CacheStats := {
  cs_hits : Z;
  cs_misses : Z;
  cs_evictions : Z;
  cs_total_requests : Z;
  hit_rate : Q;
  memory_entries : nat;
  persistent_files : nat
}.

Definition get_stats (c : DeterministicCache payload) : CacheStats :=
  let s := stats payload c in
  {| cs_hits := hits s; cs_misses := misses s; cs_evictions := evictions s;
     cs_total_requests := total_requests s;
     hit_rate :=
       if (0 <? total_requests s)%Z
       then (inject_Z (hits s) / inject_Z (total_requests s))%Q
       else 0%Q;
     memory_entries := size (memory_cache payload c);
     persistent_files := size (cache_dir payload c) |}.

(** The counters add up: every request was a hit or a miss. *)
Definition consistent (s : Stats) : Prop :=
  (hits s + misses s = total_requests s /\ 0 <= hits s /\ 0 <= misses s
   /\ 0 <= evictions s)%Z.

(** A call of one of the methods, with what it reads from outside:
    the clock and how the write of the file ends. *)
Inductive call :=
| CallGet (config : config) (clk : clock)
| CallSet (config : config) (d : payload) (custom_ttl_hours : option Z)
          (clk : clock) (w : write_outcome)
| CallInvalidate (config : config)
| CallClear
| CallCleanupExpired (now : string -> Z).

Definition step (c : DeterministicCache payload) (k : call)
    : DeterministicCache payload :=
  match k with
  | CallGet config clk => (get float_repr sha256_hexdigest payload c config clk).2
  | CallSet config d custom clk w =>
      (set float_repr sha256_hexdigest payload c config d custom clk w).2
  | CallInvalidate config => (invalidate c config).2
  | CallClear => clear c
  | CallCleanupExpired now => _cleanup_expired c now
  end.

(** The cache after a sequence of calls. *)
Definition run (c : DeterministicCache payload) (calls : list call)
    : DeterministicCache payload :=
  foldl step c calls.

(** [get(config)] once for each clock of the list, in turn. *)
Fixpoint gets (c : DeterministicCache payload) (config : config)
    (clks : list clock) : list (option payload) * DeterministicCache payload :=
  match clks with
  | [] => ([], c)
  | clk :: rest =>
      let '(r, c') := get float_repr sha256_hexdigest payload c config clk in
      let '(rs, c'') := gets c' config rest in
      (r :: rs, c'')
  end.
End ops.
End cache_ops.

(** ** app/core/matching.py *)

Module matching.
Open Scope string_scope.

Record MatchTypeModifiers := {
  volume_modifier : Q;
  cpc_impact : Q;
  ctr_boost : Q
}.

Definition exact : MatchTypeModifiers :=
  {| volume_modifier := 0.6; cpc_impact := 0.10; ctr_boost := 0.15 |}.
Definition phrase : MatchTypeModifiers :=
  {| volume_modifier := 0.8; cpc_impact := 0.0; ctr_boost := 0.05 |}.
Definition broad : MatchTypeModifiers :=
  {| volume_modifier := 1.2; cpc_impact := - 0.10; ctr_boost := - 0.05 |}.

Definition MATCH_TYPE_LOGIC : gmap string MatchTypeModifiers :=
  list_to_map [("exact", exact); ("phrase", phrase); ("broad", broad)].

(** [MATCH_TYPE_LOGIC.get(match_type.lower(), MATCH_TYPE_LOGIC['phrase'])] *)
Definition get_match_type_modifiers (match_type : string) : MatchTypeModifiers :=
  default phrase (MATCH_TYPE_LOGIC !! pystr.lower match_type).

Definition apply_volume_modifier (base_volume : Z) (match_type : string) : Z :=
  let modifiers := get_match_type_modifiers match_type in
  py.int (inject_Z base_volume * volume_modifier modifiers)%Q.

Definition apply_cpc_modifier (base_cpc : Q) (match_type : string) : Q :=
  let modifiers := get_match_type_modifiers match_type in
  (base_cpc * (1 + cpc_impact modifiers))%Q.

Definition apply_ctr_modifier (base_ctr : Q) (match_type : string) : Q :=
  let modifiers := get_match_type_modifiers match_type in
  (base_ctr * (1 + ctr_boost modifiers))%Q.

Definition get_ctr_boost (match_type : string) : Q :=
  ctr_boost (get_match_type_modifiers match_type).
End matching.

(** ** app/core/ctr_model.py

    [math.exp] is taken as given. *)

Module ctr_model.
Open Scope string_scope.

Section with_exp.
Variable exp : Q -> Q.

(** [extensions] is the list that the caller hands over;
    [if extensions:] skips the empty one. *)
Definition simulate_ctr (ad_rank : Q) (position : Z) (device_type : string)
    (extensions : list string) (match_type : string) : option Q :=
  sigmoid ← py.div 1 (1 + exp (- ad_rank))%Q;
  let base_ctr := (0.03 + sigmoid)%Q in
  let base_ctr :=
    if (position =? 1)%Z then (base_ctr + 0.05)%Q
    else if (position =? 2)%Z then (base_ctr + 0.03)%Q
    else if (position =? 3)%Z then (base_ctr + 0.01)%Q
    else base_ctr in
  let base_ctr :=
    if String.eqb device_type "mobile" then (base_ctr + 0.02)%Q
    else if String.eqb device_type "tablet" then (base_ctr + 0.01)%Q
    else base_ctr in
  let base_ctr :=
    match extensions with
    | [] => base_ctr
    | _ => (base_ctr + 0.01 * inject_Z (Z.of_nat (List.length extensions)))%Q
    end in
  let ctr_boost := matching.get_ctr_boost match_type in
  let base_ctr := (base_ctr * (1 + ctr_boost))%Q in
  Some (py.min base_ctr 0.25).

(** [extensions or []] is the list itself or the empty list. *)
Definition calculate_ctr (keyword match_type : string) (position : Z)
    (quality_score : Z) (device_type : string) (extensions : option (list string))
    : option Q :=
  let ad_rank := (inject_Z quality_score * 1.5)%Q in
  simulate_ctr ad_rank position device_type (default [] extensions) match_type.
End with_exp.

Definition base_cvr_by_objective : gmap string Q :=
  list_to_map [("sales", 0.08%Q); ("leads", 0.12%Q); ("traffic", 0.03%Q);
               ("website_traffic", 0.03%Q); ("brand_awareness", 0.02%Q)].

Definition simulate_cvr (campaign_objective : string) (lp_score : Q)
    (ad_rank : Q) (position : Z) : Q :=
  let base_cvr := default 0.05%Q (base_cvr_by_objective !! campaign_objective) in
  let cvr := (base_cvr * lp_score)%Q in
  let cvr :=
    if py.ltb 7 ad_rank then (cvr * 1.2)%Q
    else if py.ltb 5 ad_rank then (cvr * 1.1)%Q
    else if py.ltb ad_rank 3 then (cvr * 0.8)%Q
    else cvr in
  let cvr :=
    if (position =? 1)%Z then (cvr * 1.3)%Q
    else if (position =? 2)%Z then (cvr * 1.1)%Q
    else if (position =? 3)%Z then (cvr * 1.0)%Q
    else (cvr * 0.9)%Q in
  py.min cvr 1.0.

Definition calculate_cvr (campaign_objective : string) (lp_score : Q)
    (quality_score : Z) (position : Z) : Q :=
  let ad_rank := (inject_Z quality_score * 1.5)%Q in
  simulate_cvr campaign_objective lp_score ad_rank position.

Definition calculate_quality_score_enhanced (keyword match_type : string) : Z :=
  let base_qs := 5%Z in
  let base_qs :=
    if String.eqb match_type "exact" then (base_qs + 1)%Z
    else if String.eqb match_type "broad" then (base_qs - 1)%Z
    else base_qs in
  Z.max 1 (Z.min 10 base_qs).

(** [hour] is accepted and not read. *)
Definition calculate_impressions (hourly_budget avg_cpc avg_ctr : Q) (hour : Z) : Z :=
  if Qeq_bool avg_ctr 0 || Qeq_bool avg_cpc 0 then 0%Z
  else
    let expected_clicks := (hourly_budget / avg_cpc)%Q in
    let impressions := py.int (expected_clicks / avg_ctr)%Q in
    Z.max 0 impressions.
End ctr_model.

(** ** app/core/bidding.py

    The strategies are called with keyword arguments; an argument is a
    number or [None]. A call raises [TypeError] when a parameter
    without default is not given, and when [None] meets arithmetic or
    an ordering. *)

Module bidding.
Open Scope string_scope.

Inductive arg :=
| ANone
| ANum (q : Q).

Abbreviation kwargs := (gmap string arg).

Definition number (a : arg) : option Q :=
  match a with
  | ANum q => Some q
  | ANone => None
  end.

(** [a == 0] *)
Definition is_zero (a : arg) : bool :=
  match a with
  | ANum q => Qeq_bool q 0
  | ANone => false
  end.

Definition manual_cpc (k : kwargs) : option arg := k !! "base_bid".

Definition target_cpa (k : kwargs) : option Q :=
  target_cpa ← k !! "target_cpa";
  let historical_cvr := default (ANum 0.03) (k !! "historical_cvr") in
  let historical_cvr :=
    if is_zero historical_cvr then ANum 0.03 else historical_cvr in
  a ← number target_cpa;
  b ← number historical_cvr;
  Some (py.round (a * b)%Q 2).

Definition target_roas (k : kwargs) : option Q :=
  target_roas ← k !! "target_roas";
  conversion_value ← k !! "conversion_value";
  let historical_cvr := default (ANum 0.03) (k !! "historical_cvr") in
  if is_zero target_roas || is_zero historical_cvr then Some 1.0%Q
  else
    v ← number conversion_value;
    r ← number target_roas;
    q ← py.div v r;
    c ← number historical_cvr;
    Some (py.round (q * c)%Q 2).

Definition maximize_clicks (k : kwargs) : option Q :=
  daily_budget ← k !! "daily_budget";
  estimated_clicks ← k !! "estimated_clicks";
  let estimated_clicks :=
    if is_zero estimated_clicks then ANum 100 else estimated_clicks in
  b ← number daily_budget;
  c ← number estimated_clicks;
  q ← py.div b c;
  Some (py.round (py.max 0.10 (q * 1.2)%Q) 2).

Definition target_impression_share (k : kwargs) : option Q :=
  target_share ← k !! "target_share";
  avg_cpc ← k !! "avg_cpc";
  competitor_bid_estimate ←
    match default ANone (k !! "competitor_bid_estimate") with
    | ANone => c ← number avg_cpc; Some (c * 1.5)%Q
    | ANum e => Some e
    end;
  share ← number target_share;
  let multiplier :=
    if py.geb share 0.9 then 1.8%Q
    else if py.geb share 0.7 then 1.5%Q
    else if py.geb share 0.5 then 1.2%Q
    else 1.0%Q in
  Some (py.round (competitor_bid_estimate * multiplier)%Q 2).

(** [STRATEGY_FUNCTIONS.get(strategy, manual_cpc)], each function
    answering a number ([manual_cpc] hands back its [base_bid]). *)
Definition strategy_function (strategy : string) (k : kwargs) : option Q :=
  if String.eqb strategy "manual_cpc" then manual_cpc k ≫= number
  else if String.eqb strategy "target_cpa" then target_cpa k
  else if String.eqb strategy "target_roas" then target_roas k
  else if String.eqb strategy "maximize_clicks" then maximize_clicks k
  else if String.eqb strategy "target_impression_share"
       then target_impression_share k
  else manual_cpc k ≫= number.

(** [strategy_func(base_bid=base_bid, **strategy_params)]; the
    parameters cannot hold a ['base_bid'] of their own. *)
Definition apply_bidding_strategy (strategy : string) (base_bid : Q)
    (strategy_params : kwargs) : option Q :=
  strategy_function strategy (<["base_bid" := ANum base_bid]> strategy_params).

(** The call in [run_simulation]. *)
Definition option_arg (o : option Q) : arg :=
  match o with
  | Some q => ANum q
  | None => ANone
  end.

Definition run_simulation_params (target_cpa target_roas conversion_value : option Q)
    (daily_budget : Q) (num_auctions : Z) (bid base_cvr : Q) : kwargs :=
  <["target_cpa" := option_arg target_cpa]>
  (<["target_roas" := option_arg target_roas]>
  (<["conversion_value" := option_arg conversion_value]>
  (<["daily_budget" := ANum daily_budget]>
  (<["estimated_clicks" := ANum (inject_Z (num_auctions / 10)%Z)]>
  (<["avg_cpc" := ANum bid]>
  (<["historical_cvr" := ANum base_cvr]> ∅)))))).

(** [kw_data['bid']] after the loop over [keywords_data]. *)
Definition adjusted_bid (bidding_strategy : string)
    (target_cpa target_roas conversion_value : option Q)
    (daily_budget : Q) (num_auctions : Z) (base_cvr : Q) (bid : Q) : option Q :=
  if negb (String.eqb bidding_strategy "manual_cpc") then
    apply_bidding_strategy bidding_strategy bid
      (run_simulation_params target_cpa target_roas conversion_value
         daily_budget num_auctions bid base_cvr)
  else Some bid.
End bidding.

(** ** app/core/pacing.py *)

Module pacing.
Definition HOURLY_PACING : list Q :=
  [0.01; 0.01; 0.01; 0.01; 0.02; 0.03;
   0.05; 0.07; 0.08; 0.08; 0.07; 0.07;
   0.06; 0.06; 0.06; 0.07; 0.08; 0.07;
   0.06; 0.05; 0.04; 0.03; 0.02; 0.01]%Q.

Definition sum (l : list Q) : Q := fold_left Qplus l 0%Q.

(** [custom_pacing if custom_pacing else HOURLY_PACING]: an empty list
    counts as none. *)
Definition pacing_of (custom_pacing : option (list Q)) : list Q :=
  match custom_pacing with
  | Some (p :: l) => p :: l
  | _ => HOURLY_PACING
  end.

Definition distribute_budget_by_hour (daily_budget : Q)
    (custom_pacing : option (list Q)) : option (list Q) :=
  let pacing := pacing_of custom_pacing in
  let total_pacing := sum pacing in
  pacing ←
    (if negb (Qeq_bool total_pacing 1.0)
     then mapM (fun p => py.div p total_pacing) pacing
     else Some pacing);
  Some (map (fun p => daily_budget * p)%Q pacing).

Definition apply_pacing_modifier (impressions : Z) (hour : Z)
    (pacing_type : string) : Z :=
  let modifier :=
    if String.eqb pacing_type "accelerated" then 1.3%Q
    else if String.eqb pacing_type "conservative" then 0.8%Q
    else 1.0%Q in
  py.int (inject_Z impressions * modifier)%Q.
End pacing.

(** ** Further inputs to run the model on *)

Module more_examples.
Open Scope string_scope.

(** A keyword [{'text': text, 'bid': bid, 'quality_score': qs}]. *)
Definition keyword (text : string) (bid qs : Q) : pydict :=
  <["text" := VStr text]>
  (<["bid" := VNum bid]> (<["quality_score" := VNum qs]> ∅)).

Definition two_keywords : list pydict :=
  [keyword "plumber" 10 8; keyword "rival" 5 8].

(** The ads that [simulate_multiple_auctions] builds from them. *)
Definition two_ads : list pydict :=
  [examples.participant "plumber" 10 8; examples.participant "rival" 5 8].

(** The competitor that seed 0 gives for a long-tail keyword. *)
Definition competitor_0 : pydict :=
  <["keyword" := VStr "competitor_0"]>
  (<["match_type" := VStr "exact"]>
  (<["bid" := VNum 5.44]> (<["quality_score" := VNum 6]> ∅))).
End more_examples.

Module confidence_examples.
Open Scope string_scope.

(** A context with an excellent landing page and nothing else. *)
Definition excellent_page : campaign.CampaignContext :=
  {| campaign.ctx_ad_headline := None; campaign.ctx_ad_description := None;
     campaign.ctx_display_url := None; campaign.ctx_final_url := None;
     campaign.ctx_extensions := None; campaign.ctx_device_targeting := None;
     campaign.ctx_keyword_intent := None;
     campaign.ctx_competition_level := None;
     campaign.ctx_goal := None; campaign.ctx_reach_methods := None;
     campaign.ctx_lp_score := Some 0.95%Q; campaign.ctx_geo := None;
     campaign.ctx_other_keys := false |}.
End confidence_examples.

Module ctr_examples.
(** A stand-in for [math.exp] to run the model: positive, increasing,
    1 at 0. *)
Definition toy_exp (x : Q) : Q :=
  if Qle_bool x 0 then (1 / (1 - x))%Q else (1 + x)%Q.
End ctr_examples.

(** * Properties *)

(** ** Python numerics *)

Section numerics.
Open Scope Q_scope.

Lemma ltb_lt x y : py.ltb x y = true <-> x < y.
Proof.
  unfold py.ltb. rewrite negb_true_iff, <- not_true_iff_false, Qle_bool_iff.
  split; [apply Qnot_le_lt | apply Qlt_not_le].
Qed.

Lemma ltb_ge x y : py.ltb x y = false <-> y <= x.
Proof.
  unfold py.ltb. rewrite negb_false_iff. apply Qle_bool_iff.
Qed.

Lemma geb_le x y : py.geb x y = true <-> y <= x.
Proof. apply Qle_bool_iff. Qed.

Lemma div_Some x y q : py.div x y = Some q -> ~ y == 0 /\ q = x / y.
Proof.
  unfold py.div. destruct (Qeq_bool y 0) eqn:E; [discriminate|].
  intros [= <-]. split; [|reflexivity].
  intros Hy. apply Qeq_bool_iff in Hy. congruence.
Qed.

Lemma div_nonzero x y : ~ y == 0 -> py.div x y = Some (x / y).
Proof.
  intros Hy. unfold py.div. destruct (Qeq_bool y 0) eqn:E; [|reflexivity].
  apply Qeq_bool_iff in E. contradiction.
Qed.

Lemma max_spec a b : a <= py.max a b /\ b <= py.max a b.
Proof.
  unfold py.max. destruct (py.ltb a b) eqn:E.
  - apply ltb_lt in E. lra.
  - apply ltb_ge in E. lra.
Qed.

Lemma min_spec a b : py.min a b <= a /\ py.min a b <= b.
Proof.
  unfold py.min. destruct (py.ltb b a) eqn:E.
  - apply ltb_lt in E. lra.
  - apply ltb_ge in E. lra.
Qed.


Lemma round_half_even_floor x :
  py.round_half_even x = Qfloor x \/ py.round_half_even x = (Qfloor x + 1)%Z.
Proof.
  unfold py.round_half_even.
  destruct (_ ?= _); [destruct (Z.even _)|..]; auto.
Qed.

Lemma round_half_even_mono x y :
  x <= y -> (py.round_half_even x <= py.round_half_even y)%Z.
Proof.
  intros Hxy. pose proof (Qfloor_resp_le _ _ Hxy) as Hf.
  destruct (Z.eq_dec (Qfloor x) (Qfloor y)) as [E|N].
  - unfold py.round_half_even. rewrite <- E.
    destruct (Qcompare_spec (x - inject_Z (Qfloor x)) (1 # 2)) as [Ex|Ex|Ex];
      destruct (Qcompare_spec (y - inject_Z (Qfloor x)) (1 # 2)) as [Ey|Ey|Ey];
      try destruct (Z.even (Qfloor x)); try lia; lra.
  - destruct (round_half_even_floor x) as [-> | ->],
             (round_half_even_floor y) as [-> | ->]; lia.
Qed.

Lemma round_mono x y n : x <= y -> py.round x n <= py.round y n.
Proof.
  intros Hxy. destruct n as [|n]; simpl.
  - rewrite <- Zle_Qle. by apply round_half_even_mono.
  - set (s := Pos.pow 10 _).
    assert (Hs : x * inject_Z (Z.pos s) <= y * inject_Z (Z.pos s)).
    { apply Qmult_le_compat_r; [done|]. unfold Qle; simpl; lia. }
    apply round_half_even_mono in Hs. unfold Qle; simpl. nia.
Qed.


End numerics.

(** ** The stable sort by decreasing key *)

Section sorting.
Context {A : Type} (key : A -> Q).

Lemma insert_desc_perm x l : py.insert_desc key x l ≡ₚ x :: l.
Proof.
  induction l as [|y l IH]; simpl; [done|].
  destruct (py.ltb _ _); [|done].
  rewrite IH. apply perm_swap.
Qed.

Lemma sorted_desc_perm l : py.sorted_desc key l ≡ₚ l.
Proof.
  induction l as [|x l IH]; simpl; [done|].
  rewrite insert_desc_perm. by rewrite IH.
Qed.

Lemma insert_desc_sorted x l :
  StronglySorted (py.desc key) l -> StronglySorted (py.desc key) (py.insert_desc key x l).
Proof.
  induction 1 as [|y l Hl IH Hy]; simpl.
  - repeat constructor.
  - destruct (py.ltb (key x) (key y)) eqn:E.
    + apply ltb_lt in E. constructor; [done|].
      rewrite insert_desc_perm. constructor; [|done].
      unfold py.desc. lra.
    + apply ltb_ge in E. constructor; [by constructor|].
      constructor; [done|].
      eapply Forall_impl; [exact Hy|]. unfold py.desc. intros z Hz. simpl in Hz. lra.
Qed.

Lemma sorted_desc_sorted l : StronglySorted (py.desc key) (py.sorted_desc key l).
Proof.
  induction l as [|x l IH]; simpl; [constructor|].
  by apply insert_desc_sorted.
Qed.


End sorting.

(** ** The auction *)

Section auction_facts.
Import constants auction_engine.
Open Scope string_scope.

Lemma set_ad_rank_Some h ad h' :
  set_ad_rank h ad = Some h' ->
  exists d bid qs,
    h !! ad = Some d /\ as_num (d !! "bid") = Some bid /\
    as_num (d !! "quality_score") = Some qs /\
    h' = <[ad := ranked d bid qs]> h.
Proof.
  unfold set_ad_rank. intros Hs.
  destruct (h !! ad) as [d|] eqn:Hd; simpl in Hs; [|done].
  destruct (as_num (d !! "bid")) as [bid|] eqn:Hb; simpl in Hs; [|done].
  destruct (as_num (d !! "quality_score")) as [qs|] eqn:Hq; simpl in Hs; [|done].
  injection Hs as <-. by exists d, bid, qs.
Qed.

Lemma ranked_bid d bid qs : ranked d bid qs !! "bid" = d !! "bid".
Proof. unfold ranked. by rewrite lookup_insert_ne. Qed.

Lemma ranked_quality_score d bid qs :
  ranked d bid qs !! "quality_score" = d !! "quality_score".
Proof. unfold ranked. by rewrite lookup_insert_ne. Qed.

Lemma ranked_twice d bid qs : ranked (ranked d bid qs) bid qs = ranked d bid qs.
Proof. unfold ranked. by rewrite insert_insert_eq. Qed.

(** The first loop: every listed dictionary receives its rank, all
    other objects stay as they were. *)
Lemma rank_all_spec ads : forall h h',
  rank_all ads h = Some h' ->
  forall l,
    (l ∈ ads ->
     exists d bid qs,
       h !! l = Some d /\ as_num (d !! "bid") = Some bid /\
       as_num (d !! "quality_score") = Some qs /\
       h' !! l = Some (ranked d bid qs)) /\
    (l ∉ ads -> h' !! l = h !! l).
Proof.
  induction ads as [|a ads IH]; intros h h' Hr l; simpl in Hr.
  - injection Hr as <-. split; [by intros ?%elem_of_nil | done].
  - destruct (set_ad_rank h a) as [h1|] eqn:Hs; simpl in Hr; [|done].
    apply set_ad_rank_Some in Hs as (d & bid & qs & Hd & Hb & Hq & ->).
    specialize (IH _ _ Hr).
    destruct (decide (l = a)) as [->|Hne].
    + split; [intros _ | intros Hn; exfalso; apply Hn, elem_of_cons; by left].
      exists d, bid, qs. split_and!; try done.
      destruct (decide (a ∈ ads)) as [Hin|Hout].
      * destruct (IH a) as [(d1 & b1 & q1 & Hd1 & Hb1 & Hq1 & Hh') _]; [done|].
        rewrite lookup_insert_eq in Hd1. injection Hd1 as <-.
        rewrite ranked_bid in Hb1. rewrite ranked_quality_score in Hq1.
        rewrite Hh'. f_equal.
        assert (b1 = bid) as -> by congruence.
        assert (q1 = qs) as -> by congruence.
        apply ranked_twice.
      * destruct (IH a) as [_ Ho]. rewrite (Ho Hout). by rewrite lookup_insert_eq.
    + destruct (IH l) as [Hin Hout]. split.
      * intros [?|Hl]%elem_of_cons; [done|].
        destruct (Hin Hl) as (d1 & b1 & q1 & Hd1 & ?).
        rewrite lookup_insert_ne in Hd1 by done. by exists d1, b1, q1.
      * intros Hl. rewrite Hout, lookup_insert_ne; [done|done|].
        intros ?. apply Hl, elem_of_cons. by right.
Qed.

Lemma read_ad_ranked d bid qs :
  as_num (d !! "bid") = Some bid -> as_num (d !! "quality_score") = Some qs ->
  read_ad (ranked d bid qs) =
    Some {| ad_keyword := ranked d bid qs !! "keyword";
            ad_match_type := ranked d bid qs !! "match_type";
            ad_bid := bid; ad_quality_score := qs;
            ad_rank := (bid * qs)%Q |}.
Proof.
  intros Hb Hq. unfold read_ad.
  assert (Hr : ranked d bid qs !! "ad_rank" = Some (VNum (bid * qs)%Q))
    by apply lookup_insert_eq.
  by rewrite ranked_bid, ranked_quality_score, Hb, Hq, Hr.
Qed.

(** After the first loop every participant can be read, and its rank
    is the product of its bid and its quality score. *)
Lemma view_after_rank_all ads h h' :
  rank_all ads h = Some h' ->
  exists participants,
    view h' ads = Some participants /\ Forall rank_is_product participants.
Proof.
  intros Hr. pose proof (rank_all_spec _ _ _ Hr) as Hspec.
  assert (Hall : Forall (fun l => exists ad,
             (h' !! l ≫= read_ad) = Some ad /\ rank_is_product ad) ads).
  { apply Forall_forall. intros l Hl.
    destruct (Hspec l) as [(d & bid & qs & _ & Hb & Hq & Hh') _]; [done|].
    rewrite Hh'. simpl. rewrite (read_ad_ranked _ _ _ Hb Hq).
    eexists; split; [reflexivity|]. reflexivity. }
  clear Hr Hspec. unfold view.
  induction Hall as [|l ads (ad & Had & Hp) _ (ps & Hps & HF)].
  - by exists [].
  - exists (ad :: ps). split; [|by constructor].
    apply mapM_Some_2. constructor; [done|]. by apply mapM_Some_1.
Qed.


Lemma eligible_rank participants ad :
  ad ∈ eligible_ads (sorted_ads participants) -> (MIN_AD_RANK <= ad_rank ad)%Q.
Proof.
  intros [_ H]%list_elem_of_In%filter_In. by apply geb_le in H.
Qed.

(** The winners are the leading eligible participants, one for one. *)
Lemma assign_positions_lookup flag eligible slice : forall position ws,
  assign_positions flag eligible position slice = Some ws ->
  length ws = length slice /\
  forall i win, ws !! i = Some win ->
    exists ad, slice !! i = Some ad /\
               make_winner flag eligible (position + i) ad = Some win.
Proof.
  induction slice as [|ad slice IH]; intros position ws Ha; simpl in Ha.
  - injection Ha as <-. split; [done|]. intros i win Hi. by rewrite lookup_nil in Hi.
  - destruct (make_winner flag eligible position ad) as [w|] eqn:Hw;
      simpl in Ha; [|done].
    destruct (assign_positions flag eligible (S position) slice) as [ws'|] eqn:Hws;
      simpl in Ha; [|done].
    injection Ha as <-. destruct (IH _ _ Hws) as [Hlen Hlk]. split.
    + simpl. by rewrite Hlen.
    + intros [|i] win Hi; simpl in Hi.
      * injection Hi as <-. exists ad. by rewrite Nat.add_0_r.
      * destruct (Hlk _ _ Hi) as (ad' & ? & ?). exists ad'.
        by rewrite Nat.add_succ_r.
Qed.

Lemma make_winner_Some flag eligible position ad win :
  make_winner flag eligible position ad = Some win ->
  ~ (ad_quality_score ad == 0)%Q /\
  w_position win = position /\ w_ad_rank win = ad_rank ad /\
  w_quality_score win = ad_quality_score ad /\ w_bid win = ad_bid ad /\
  ad_keyword ad = Some (w_keyword win) /\
  w_cpc win =
    match eligible !! position with
    | Some next_ad => py.round (ad_rank next_ad / ad_quality_score ad + 0.01) 2
    | None => py.round (MIN_AD_RANK / ad_quality_score ad + 0.01) 2
    end.
Proof.
  unfold make_winner, price. intros Hm.
  destruct (eligible !! position) as [next_ad|].
  - destruct (py.div _ _) as [q|] eqn:Hq; simpl in Hm; [|done].
    apply div_Some in Hq as [Hnz ->].
    destruct (ad_keyword ad) as [kw|]; simpl in Hm; [|done].
    by injection Hm as <-.
  - destruct (py.div _ _) as [q|] eqn:Hq; simpl in Hm; [|done].
    apply div_Some in Hq as [Hnz ->].
    destruct (ad_keyword ad) as [kw|]; simpl in Hm; [|done].
    by injection Hm as <-.
Qed.

(** What a call that returns has computed. *)
Lemma run_auction_Some {G} `{NumpyRandom G} flag ads seed (w : world G) ws w' :
  run_auction flag ads seed w = Some (ws, w') ->
  exists g participants,
    np_random.seed seed = Some g /\
    rank_all ads (objects w) = Some (objects w') /\
    np_state w' = g /\
    view (objects w') ads = Some participants /\
    Forall rank_is_product participants /\
    assign_positions flag (eligible_ads (sorted_ads participants)) 1
      (take MAX_POSITION (eligible_ads (sorted_ads participants))) = Some ws.
Proof.
  unfold run_auction. intros Hr.
  destruct (np_random.seed seed) as [g|]; simpl in Hr; [|done].
  destruct (rank_all ads (objects w)) as [h|] eqn:Hh; simpl in Hr; [|done].
  destruct (view_after_rank_all _ _ _ Hh) as (ps & Hv & HF).
  rewrite Hv in Hr. simpl in Hr.
  destruct (assign_positions _ _ _ _) as [ws'|] eqn:Ha; simpl in Hr; [|done].
  injection Hr as <- <-. by exists g, ps.
Qed.

End auction_facts.

Section auction_claims.
Import constants auction_engine.
Open Scope string_scope.

Lemma as_num_Some (v : option value) q : as_num v = Some q -> v = Some (VNum q).
Proof. destruct v as [[]|]; simpl; congruence. Qed.

Lemma winner_of_eligible {G} `{NumpyRandom G} flag ads seed (w : world G) ws w' :
  run_auction flag ads seed w = Some (ws, w') ->
  exists participants,
    view (objects w') ads = Some participants /\
    Forall rank_is_product participants /\
    let eligible := eligible_ads (sorted_ads participants) in
    length ws = Nat.min MAX_POSITION (length eligible) /\
    forall i win, ws !! i = Some win ->
      exists ad, eligible !! i = Some ad /\
                 make_winner flag eligible (S i) ad = Some win.
Proof.
  intros Hr. apply run_auction_Some in Hr as (g & ps & _ & _ & _ & Hv & HF & Ha).
  exists ps. split; [done|]. split; [done|]. simpl.
  apply assign_positions_lookup in Ha as [Hlen Hlk]. split.
  - by rewrite Hlen, length_take.
  - intros i win Hi. destruct (Hlk _ _ Hi) as (ad & Hs & Hm).
    exists ad. split; [|done].
    apply lookup_take_Some in Hs. tauto.
Qed.

(** C10. [run_auction] (both copies) updates its argument in place: a
    call that returns has written ['ad_rank'], the product of ['bid']
    and ['quality_score'], into every dictionary of [ads], has left
    every other key of these dictionaries as it was, and has left all
    other objects untouched. *)
Theorem run_auction_writes_ad_rank {G} `{NumpyRandom G}
    flag ads seed (w : world G) ws w' :
  run_auction flag ads seed w = Some (ws, w') ->
  forall l,
    (l ∈ ads ->
     exists d d' bid qs,
       objects w !! l = Some d /\
       d !! "bid" = Some (VNum bid) /\
       d !! "quality_score" = Some (VNum qs) /\
       objects w' !! l = Some d' /\
       d' !! "ad_rank" = Some (VNum (bid * qs)%Q) /\
       forall k, k <> "ad_rank" -> d' !! k = d !! k) /\
    (l ∉ ads -> objects w' !! l = objects w !! l).
Proof.
  intros Hr l.
  apply run_auction_Some in Hr as (g & ps & _ & Hrank & _).
  destruct (rank_all_spec _ _ _ Hrank l) as [Hin Hout]. split; [|done].
  intros Hl. destruct (Hin Hl) as (d & bid & qs & Hd & Hb & Hq & Hd').
  exists d, (ranked d bid qs), bid, qs.
  split_and!; try done; try by apply as_num_Some.
  - apply lookup_insert_eq.
  - intros k Hk. unfold ranked. by rewrite lookup_insert_ne.
Qed.



End auction_claims.

Section auction_returns.
Import constants auction_engine.
Open Scope string_scope.

Lemma ranked_well_formed d bid qs :
  well_formed_ad d -> well_formed_ad (ranked d bid qs).
Proof.
  unfold well_formed_ad, ranked. by rewrite !lookup_insert_ne.
Qed.

Lemma rank_all_returns ads : forall h,
  (forall l, l ∈ ads -> exists d, h !! l = Some d /\ well_formed_ad d) ->
  exists h', rank_all ads h = Some h'.
Proof.
  induction ads as [|a ads IH]; intros h Hwf; [by eexists|].
  destruct (Hwf a) as (d & Hd & Hb & Hq & Hk); [by left|].
  destruct Hb as [bid Hb], Hq as [qs Hq].
  cbn [rank_all]. unfold set_ad_rank. rewrite Hd. cbn. rewrite Hb, Hq. cbn.
  apply IH. intros l Hl. destruct (decide (l = a)) as [->|Hne].
  - rewrite lookup_insert_eq. eexists. split; [done|].
    by apply (ranked_well_formed d bid qs).
  - rewrite lookup_insert_ne by done. apply Hwf. by right.
Qed.

Lemma eligible_quality_score_nonzero ad :
  rank_is_product ad -> (MIN_AD_RANK <= ad_rank ad)%Q ->
  ~ (ad_quality_score ad == 0)%Q.
Proof.
  unfold rank_is_product, MIN_AD_RANK. intros -> Hrank Hz.
  rewrite Hz in Hrank. lra.
Qed.

Lemma assign_positions_returns flag eligible slice : forall position,
  Forall (fun ad => ~ (ad_quality_score ad == 0)%Q /\ is_Some (ad_keyword ad))
    slice ->
  exists ws, assign_positions flag eligible position slice = Some ws.
Proof.
  induction slice as [|ad slice IH]; intros position Hall; [by eexists|].
  apply Forall_cons in Hall as [[Hq [kw Hk]] Hall].
  destruct (IH (S position) Hall) as [ws Hws].
  cbn [assign_positions]. rewrite Hws.
  unfold make_winner, price.
  destruct (eligible !! position); rewrite (div_nonzero _ _ Hq), Hk;
    by eexists.
Qed.

(** With a valid seed and well-formed participants the call returns. *)
Lemma run_auction_returns {G} `{NumpyRandom G} flag ads seed (w : world G) :
  (0 <= seed < 2 ^ 32)%Z ->
  (forall l, l ∈ ads -> exists d, objects w !! l = Some d /\ well_formed_ad d) ->
  exists ws w', run_auction flag ads seed w = Some (ws, w').
Proof.
  intros Hseed Hwf. unfold run_auction, np_random.seed.
  assert (((0 <=? seed) && (seed <? 2 ^ 32))%Z = true) as -> by lia.
  destruct (rank_all_returns ads (objects w) Hwf) as [h Hh].
  rewrite Hh. cbn [mbind option_bind].
  destruct (view_after_rank_all _ _ _ Hh) as (ps & Hv & HF).
  rewrite Hv. cbn [mbind option_bind].
  assert (Hkw : Forall (fun ad => is_Some (ad_keyword ad)) ps).
  { apply mapM_Some_1 in Hv.
    pose proof (rank_all_spec _ _ _ Hh) as Hspec.
    apply Forall_forall. intros ad [i Hi]%list_elem_of_lookup.
    destruct (Forall2_lookup_r _ _ _ _ _ Hv Hi) as (l & Hl & Hread).
    apply list_elem_of_lookup_2 in Hl.
    destruct (Hspec l) as [(d & bid & qs & Hd & Hb & Hq & Hh') _]; [done|].
    destruct (Hwf l Hl) as (d0 & Hd0 & _ & _ & Hk).
    assert (d0 = d) as -> by congruence.
    rewrite Hh' in Hread. cbn in Hread.
    rewrite (read_ad_ranked _ _ _ Hb Hq) in Hread. injection Hread as <-.
    cbn [ad_keyword]. unfold ranked. by rewrite lookup_insert_ne. }
  set (eligible := eligible_ads (sorted_ads ps)).
  destruct (assign_positions_returns flag eligible
              (take MAX_POSITION eligible) 1) as [ws Hws].
  { apply Forall_forall. intros ad Had.
    assert (Hel : ad ∈ eligible) by (by eapply subseteq_take).
    assert (Hps : ad ∈ ps).
    { apply list_elem_of_In, filter_In in Hel as [Hel _].
      apply list_elem_of_In in Hel. unfold sorted_ads in Hel.
      by rewrite sorted_desc_perm in Hel. }
    rewrite Forall_forall in HF, Hkw. split; [|by apply Hkw].
    apply eligible_quality_score_nonzero; [by apply HF|].
    by apply (eligible_rank ps). }
  rewrite Hws. by eexists _, _.
Qed.
End auction_returns.

Section auction_examples.
Import constants auction_engine examples.
Open Scope string_scope.

(** Scenario B, run: the winner at position 1 pays 5.01. *)
Example scenario_B_winners :
  (fun r => map (fun w => (w_position w, w_ad_rank w, w_cpc w)) r.1)
    <$> auction.run_auction [0; 1]%nat 12345 scenario_B
  = Some [(1%nat, 10 * 8, 5.01); (2%nat, 5 * 8, 0.14)]%Q.
Proof. vm_compute. reflexivity. Qed.

Lemma run_auction_writes_ad_rank_witness :
  exists ws w',
    auction.run_auction [0; 1]%nat 12345 scenario_B = Some (ws, w') /\
    forall l,
      (l ∈ [0; 1]%nat ->
       exists d d' bid qs,
         objects scenario_B !! l = Some d /\
         d !! "bid" = Some (VNum bid) /\
         d !! "quality_score" = Some (VNum qs) /\
         objects w' !! l = Some d' /\
         d' !! "ad_rank" = Some (VNum (bid * qs)%Q) /\
         forall k, k <> "ad_rank" -> d' !! k = d !! k) /\
      (l ∉ [0; 1]%nat -> objects w' !! l = objects scenario_B !! l).
Proof.
  eexists _, _. split; [vm_compute; reflexivity|].
  eapply (run_auction_writes_ad_rank false [0; 1]%nat 12345 scenario_B).
  vm_compute; reflexivity.
Defined.




End auction_examples.

(** ** Volume estimation *)

Section volume_claims.
Import volume_estimation.
Open Scope string_scope.






Example scenario_E :
  estimate_daily_auctions "xyzzyfoobar123" "broad" "ZZ" =
    Some {| ae_keyword := "xyzzyfoobar123"; ae_match_type := "broad";
            daily_auctions := 3; volume_source := "estimated";
            confidence := 0.6 |}.
Proof. vm_compute. reflexivity. Qed.

(** A keyword of white space only: the estimator reads the first
    character of the empty string and raises. *)
Example blank_keyword_raises :
  estimate_daily_auctions "   " "phrase" "US" = None.
Proof. vm_compute. reflexivity. Qed.


End volume_claims.

(** ** Determinism of the simulation *)

Section determinism.
Import enhanced_auction.
Context {G : Type} `{NumpyRandom G}.

(** Seeding forgets the state of the generator. *)
Lemma seed_forgets (s : Z) (g g' : G) : rnd.seed s g = rnd.seed s g'.
Proof. reflexivity. Qed.

(** What follows a call of [np.random.seed] does not depend on the
    state before it. *)
Lemma seeded_forgets {A} (s : Z) (k : unit -> rand G A) (g g' : G) :
  (rnd.seed s ≫= k) g = (rnd.seed s ≫= k) g'.
Proof.
  unfold mbind, rand_bind. by rewrite (seed_forgets s g g').
Qed.

Lemma _generate_competitor_ads_forgets keyword match_type geo seed (g g' : G) :
  _generate_competitor_ads keyword match_type geo seed g =
  _generate_competitor_ads keyword match_type geo seed g'.
Proof. apply seeded_forgets. Qed.

(** C1. The result of [simulate_volume_based_auctions], and of
    [_generate_competitor_ads], is a function of the arguments alone:
    whatever the state of the global generator at the call, the same
    list comes back (and the generator is left in the same state), or
    the same call raises. In particular a second call in the same
    process repeats the first. *)
Theorem simulate_volume_based_auctions_deterministic {Ctx : Type}
    keywords geo (campaign_context : Ctx) seed (g g' : G) :
  simulate_volume_based_auctions keywords geo campaign_context seed g =
    simulate_volume_based_auctions keywords geo campaign_context seed g' /\
  (forall keyword match_type,
     _generate_competitor_ads keyword match_type geo seed g =
     _generate_competitor_ads keyword match_type geo seed g') /\
  (forall results g1,
     simulate_volume_based_auctions keywords geo campaign_context seed g =
       Some (results, g1) ->
     simulate_volume_based_auctions keywords geo campaign_context seed g1 =
       Some (results, g1)).
Proof.
  assert (Hsim : forall a b : G,
    simulate_volume_based_auctions keywords geo campaign_context seed a =
    simulate_volume_based_auctions keywords geo campaign_context seed b).
  { intros a b. apply seeded_forgets. }
  split; [apply Hsim|]. split.
  - intros keyword match_type. apply _generate_competitor_ads_forgets.
  - intros results g1 Hrun. by rewrite (Hsim g1 g).
Qed.
End determinism.

Section determinism_examples.
Import enhanced_auction.
Open Scope string_scope.

(** One keyword outside the static table, three auctions a day. *)
Example simulate_twice :
  let keywords := examples.unknown_keyword in
  (List.length <$>
     (fst <$> simulate_volume_based_auctions keywords "ZZ" tt 12345 0%Z))
    = Some 3%nat /\
  fst <$> simulate_volume_based_auctions keywords "ZZ" tt 12345 0%Z =
  fst <$> simulate_volume_based_auctions keywords "ZZ" tt 12345 987654321%Z.
Proof. split; vm_compute; reflexivity. Qed.
End determinism_examples.

(** ** Quality Score *)

Section quality_claims.
Import campaign quality_score_engine enhanced_quality.
Open Scope string_scope.
Open Scope Q_scope.

Lemma max_cases a b : py.max a b = a \/ py.max a b = b.
Proof. unfold py.max. destruct (py.ltb a b); auto. Qed.


Lemma clamp_range x : (1 <= py.max 1 (py.min 10 x) <= 10)%Q.
Proof.
  pose proof (max_spec 1 (py.min 10 x)) as [H1 _].
  pose proof (min_spec 10 x) as [H2 _].
  split; [done|].
  destruct (max_cases 1 (py.min 10 x)) as [-> | ->]; [lra | done].
Qed.

(** The fallback clamps: its result is an integer from 1 to 10. *)
Lemma calculate_simple_quality_score_range
    keyword match_type campaign_context ad_relevance_score landing_page_score :
  (1 <= calculate_simple_quality_score keyword match_type campaign_context
          ad_relevance_score landing_page_score <= 10)%Z.
Proof.
  unfold calculate_simple_quality_score.
  match goal with |- (_ <= py.round_half_even (py.max 1 (py.min 10 ?x)) <= _)%Z =>
    generalize x end.
  intros x. destruct (clamp_range x) as [Hlo Hhi].
  apply round_half_even_mono in Hlo, Hhi.
  change (py.round_half_even 1) with 1%Z in Hlo.
  change (py.round_half_even 10) with 10%Z in Hhi. lia.
Qed.

(** The fallback, on the input used below with its default scores. *)
Example simple_quality_score_of_plumber :
  calculate_simple_quality_score "plumber" "exact" None 0.7 0.7 = 6%Z.
Proof. vm_compute. reflexivity. Qed.

(** C5 fails on the code. With no campaign context, keyword
    "plumber" and exact match, the engine computes
    0.06 * 0.5 * 0.7 * 1.0 * 10 = 0.21, caps it at 10 and rounds it
    to 0.2, with no lower clamp; [calculate_enhanced_quality_score]
    truncates that to 0. Neither value lies in the range 1..10, and
    the first is not an integer. *)
Theorem calculate_enhanced_quality_score_below_range :
  let components :=
    (calculate_quality_score offline_engine (ad_of_context None)
       (keyword_of_context "plumber" "exact" None) None).1 in
  raw_score components = (0.03 + 0.01 + 0.02) * 0.5 * 0.70 * 1.0 * 10 /\
  final_score components = 0.2 /\
  ~ (1 <= final_score components) /\
  (calculate_enhanced_quality_score offline_engine "plumber" "exact" None).1
    = 0%Z.
Proof.
  cbv zeta. split; [vm_compute; reflexivity|].
  split; [vm_compute; reflexivity|]. split; [|vm_compute; reflexivity].
  intros Hle. vm_compute in Hle. by apply Hle.
Qed.
End quality_claims.

(** ** Confidence ranges *)

Section confidence_claims.
Import campaign confidence_ranges examples.
Open Scope string_scope.
Open Scope Q_scope.

(** C9 (amended). The variance is the match-type variance (0.01,
    0.03, 0.05; 0.03 for another match type) plus, when there is a
    non-empty context, three adjustments: +0.02 for a landing page
    score below 0.5 and -0.01 above 0.9; +0.01 for the goal
    "brand_awareness" and -0.005 for the goal "sales" (the default),
    nothing for any other goal; +0.01 for a geography other than
    "US". The bounds are [max(0, v - v * variance)] and
    [v + v * variance], and the lower bound is never negative. *)
Theorem calculate_confidence_range_variance
    value metric_type match_type level campaign_context :
  let r := calculate_confidence_range value metric_type match_type level
             campaign_context in
  let lp_score := default 0.7 (campaign_context ≫= ctx_lp_score) in
  let goal := default "sales" (campaign_context ≫= ctx_goal) in
  let geo := default "US" (campaign_context ≫= ctx_geo) in
  exists base lp_adj goal_adj geo_adj,
    variance_percentage r ==
      base + (if truthy campaign_context then lp_adj + goal_adj + geo_adj else 0) /\
    (match_type = "exact" -> base = 0.01) /\
    (match_type = "phrase" -> base = 0.03) /\
    (match_type = "broad" -> base = 0.05) /\
    (match_type ∉ ["exact"; "phrase"; "broad"] -> base = 0.03) /\
    (lp_score < 0.5 -> lp_adj = 0.02) /\
    (0.9 < lp_score -> lp_adj = - 0.01) /\
    (0.5 <= lp_score <= 0.9 -> lp_adj = 0) /\
    (goal = "brand_awareness" -> goal_adj = 0.01) /\
    (goal = "sales" -> goal_adj = - 0.005) /\
    (goal <> "brand_awareness" -> goal <> "sales" -> goal_adj = 0) /\
    (geo <> "US" -> geo_adj = 0.01) /\
    (geo = "US" -> geo_adj = 0) /\
    lower_bound r = py.max 0 (value - value * variance_percentage r) /\
    upper_bound r = value + value * variance_percentage r /\
    0 <= lower_bound r.
Proof.
  cbv zeta.
  set (lp_score := default 0.7 (campaign_context ≫= ctx_lp_score)).
  set (goal := default "sales" (campaign_context ≫= ctx_goal)).
  set (geo := default "US" (campaign_context ≫= ctx_geo)).
  exists (default 0.03 (match_type_variance !! match_type)),
    (if py.ltb lp_score 0.5 then 0.02
     else if py.ltb 0.9 lp_score then - 0.01 else 0),
    (if String.eqb goal "brand_awareness" then 0.01
     else if String.eqb goal "sales" then - 0.005 else 0),
    (if negb (String.eqb geo "US") then 0.01 else 0).
  split.
  { unfold calculate_confidence_range, _calculate_context_factor.
    cbn [variance_percentage]. fold lp_score goal geo.
    destruct (truthy campaign_context); cbn [negb]; [|lra].
    destruct (py.ltb lp_score 0.5), (py.ltb 0.9 lp_score),
      (String.eqb goal "brand_awareness"), (String.eqb goal "sales"),
      (negb (String.eqb geo "US")); lra. }
  split; [intros ->; vm_compute; reflexivity|].
  split; [intros ->; vm_compute; reflexivity|].
  split; [intros ->; vm_compute; reflexivity|].
  split.
  { intros Hmt.
    assert (Hn : match_type_variance !! match_type = None).
    { apply not_elem_of_list_to_map_1. exact Hmt. }
    by rewrite Hn. }
  split.
  { intros Hlt. apply ltb_lt in Hlt. by rewrite Hlt. }
  split.
  { intros Hgt. destruct (py.ltb lp_score 0.5) eqn:E.
    - apply ltb_lt in E. lra.
    - apply ltb_lt in Hgt. by rewrite Hgt. }
  split.
  { intros [Hlo Hhi]. apply ltb_ge in Hlo, Hhi. by rewrite Hlo, Hhi. }
  split; [by intros ->|].
  split; [by intros ->|].
  split.
  { intros H1 H2. apply String.eqb_neq in H1, H2. by rewrite H1, H2. }
  split.
  { intros Hg. apply String.eqb_neq in Hg. by rewrite Hg. }
  split; [by intros ->|].
  split; [reflexivity|]. split; [reflexivity|].
  unfold calculate_confidence_range. cbn [lower_bound].
  apply max_spec.
Qed.

(** C9, as stated, fails: "leads" is not the goal "sales" and adds
    nothing, and the goal "sales" takes 0.005 off. *)
Lemma calculate_confidence_range_counterexample :
  let leads := calculate_confidence_range 100 "ctr" "exact" 0.95
                 (Some (with_goal "leads")) in
  let sales := calculate_confidence_range 100 "ctr" "exact" 0.95
                 (Some (with_goal "sales")) in
  variance_percentage leads == 0.01 /\
  ~ variance_percentage leads == 0.01 + 0.01 /\
  variance_percentage sales == 0.005 /\
  ~ variance_percentage sales == 0.01.
Proof.
  cbv zeta. split; [vm_compute; reflexivity|].
  split; [intros E; vm_compute in E; discriminate|].
  split; [vm_compute; reflexivity|].
  intros E; vm_compute in E; discriminate.
Qed.
End confidence_claims.

(** ** The budget constraint *)

Section budget_claims.
Import simulate examples.
Open Scope Q_scope.








Example scenario_C_scaled :
  raw_total_cost scenario_C == 50 /\
  (fun p => (map (fun r => (clicks r, cost r, conversions r)) p.1,
             total_clicks p.2, total_cost p.2, total_conversions p.2))
    <$> aggregate 10 scenario_C
  = Some ([(10%Z, 5.00, 1%Z); (10%Z, 5.00, 1%Z)], 20%Z, 0 + 5.00 + 5.00, 2%Z).
Proof. split; vm_compute; reflexivity. Qed.

End budget_claims.

(** ** The order of strings *)

Section string_order.
Import deterministic_cache.
Open Scope string_scope.

Lemma ascii_compare_trans x y z :
  Ascii.compare x y = Lt -> Ascii.compare y z = Lt -> Ascii.compare x z = Lt.
Proof.
  unfold Ascii.compare. rewrite !N.compare_lt_iff. lia.
Qed.

Lemma compare_lt_trans a : forall b c,
  (a ?= b) = Lt -> (b ?= c) = Lt -> (a ?= c) = Lt.
Proof.
  induction a as [|x a IH]; intros [|y b] [|z c]; simpl; try congruence.
  intros Hab Hbc.
  destruct (Ascii.compare x y) eqn:Hxy; [| |congruence];
    (destruct (Ascii.compare y z) eqn:Hyz; [| |congruence]).
  - apply Ascii.compare_eq_iff in Hxy, Hyz. subst.
    destruct (Ascii.compare z z) eqn:Hzz.
    + by apply (IH b c).
    + done.
    + pose proof Hzz as Hz'. rewrite Ascii.compare_antisym, Hzz in Hz'.
      discriminate.
  - apply Ascii.compare_eq_iff in Hxy. subst. by rewrite Hyz.
  - apply Ascii.compare_eq_iff in Hyz. subst. by rewrite Hxy.
  - by rewrite (ascii_compare_trans _ _ _ Hxy Hyz).
Qed.

Lemma compare_refl a : (a ?= a) = Eq.
Proof.
  destruct (a ?= a) eqn:E; [done|..];
    pose proof E as E'; rewrite String.compare_antisym, E in E';
    discriminate.
Qed.

Lemma ltb_lt_iff a b : String.ltb a b = true <-> (a ?= b) = Lt.
Proof. unfold String.ltb. destruct (a ?= b); intuition congruence. Qed.

Lemma str_le_cases a b : str_le a b <-> a = b \/ (a ?= b) = Lt.
Proof.
  unfold str_le, String.ltb. rewrite String.compare_antisym.
  destruct (a ?= b) eqn:E; simpl.
  - apply String.compare_eq_iff in E. intuition.
  - intuition.
  - split; [discriminate|]. intros [->|?]; [|discriminate].
    rewrite compare_refl in E. discriminate.
Qed.

Lemma str_le_trans a b c : str_le a b -> str_le b c -> str_le a c.
Proof.
  rewrite !str_le_cases. intros [->|Hab] [->|Hbc]; auto.
  right. by eapply compare_lt_trans.
Qed.

Lemma str_le_antisym a b : str_le a b -> str_le b a -> a = b.
Proof.
  rewrite !str_le_cases. intros [->|Hab] [E|Hba]; auto.
  rewrite String.compare_antisym, Hab in Hba. discriminate.
Qed.

Lemma ltb_str_le a b : String.ltb a b = true -> str_le a b.
Proof.
  rewrite ltb_lt_iff, str_le_cases. auto.
Qed.
End string_order.

(** ** The stable sort by increasing key *)

Section sorted_asc.
Import deterministic_cache.
Context {A : Type} (key : A -> string).

Lemma insert_asc_perm x l : insert_asc key x l ≡ₚ x :: l.
Proof.
  induction l as [|y l IH]; simpl; [done|].
  destruct (String.ltb _ _); [|done].
  rewrite IH. apply perm_swap.
Qed.

Lemma sorted_asc_perm l : sorted_asc key l ≡ₚ l.
Proof.
  induction l as [|x l IH]; simpl; [done|].
  rewrite insert_asc_perm. by rewrite IH.
Qed.

Lemma insert_asc_sorted x l :
  StronglySorted (asc key) l -> StronglySorted (asc key) (insert_asc key x l).
Proof.
  induction 1 as [|y l Hl IH Hy]; simpl.
  - repeat constructor.
  - destruct (String.ltb (key y) (key x)) eqn:E.
    + constructor; [done|]. rewrite insert_asc_perm.
      constructor; [|done]. by apply ltb_str_le.
    + constructor; [by constructor|]. constructor; [done|].
      eapply Forall_impl; [exact Hy|]. intros z Hz.
      by apply (str_le_trans _ (key y)).
Qed.

Lemma sorted_asc_sorted l : StronglySorted (asc key) (sorted_asc key l).
Proof.
  induction l as [|x l IH]; simpl; [constructor|].
  by apply insert_asc_sorted.
Qed.

Lemma NoDup_key_inj l x y :
  NoDup (map key l) -> x ∈ l -> y ∈ l -> key x = key y -> x = y.
Proof.
  induction l as [|z l IH]; intros Hnd Hx Hy Hk; [by apply elem_of_nil in Hx|].
  apply NoDup_cons in Hnd as [Hz Hnd].
  apply elem_of_cons in Hx as [->|Hx], Hy as [->|Hy]; [done|..].
  - exfalso. apply Hz. rewrite Hk. by apply list_elem_of_fmap_2.
  - exfalso. apply Hz. rewrite <- Hk. by apply list_elem_of_fmap_2.
  - by apply IH.
Qed.

(** With pairwise different keys the sorted list does not depend on
    the order of the input. *)
Lemma sorted_asc_unique l l' :
  NoDup (map key l) -> l ≡ₚ l' -> sorted_asc key l = sorted_asc key l'.
Proof.
  intros Hnd Hp.
  apply (StronglySorted_unique_strong (asc key));
    [|apply sorted_asc_sorted..|by rewrite !sorted_asc_perm].
  intros x1 x2 H1 H2 H12 H21.
  rewrite sorted_asc_perm in H1. rewrite sorted_asc_perm, <- Hp in H2.
  eapply NoDup_key_inj; [done..|]. by apply str_le_antisym.
Qed.

(** A sorted list is its own sort. *)
Lemma sorted_asc_id l : StronglySorted (asc key) l -> sorted_asc key l = l.
Proof.
  induction 1 as [|x l Hl IH Hx]; simpl; [done|].
  rewrite IH. destruct l as [|y l]; simpl; [done|].
  apply Forall_cons in Hx as [Hxy _]. unfold asc, str_le in Hxy.
  by rewrite Hxy.
Qed.
End sorted_asc.

(** ** The cache key *)

Section cache_key.
Import deterministic_cache.
Open Scope string_scope.

(** Induction on configurations, through lists and items. *)
Lemma config_nested_ind (P : config -> Prop) :
  P CNull -> (forall b, P (CBool b)) -> (forall z, P (CInt z)) ->
  (forall q, P (CFloat q)) -> (forall s, P (CStr s)) ->
  (forall l, Forall P l -> P (CList l)) ->
  (forall items, Forall (fun kv => P kv.2) items -> P (CDict items)) ->
  forall c, P c.
Proof.
  intros Hnull Hbool Hint Hfloat Hstr Hlist Hdict.
  fix IH 1. intros [|b|z|q|s|l|items];
    [exact Hnull | apply Hbool | apply Hint | apply Hfloat | apply Hstr | |].
  - apply Hlist. induction l as [|c l IHl]; constructor; [apply IH | exact IHl].
  - apply Hdict. induction items as [|[k c] items IHl]; constructor;
      [apply IH | exact IHl].
Qed.

Lemma wf_list l : wf (CList l) <-> Forall wf l.
Proof.
  simpl. induction l as [|c l IH]; [by split; [constructor|]|].
  rewrite Forall_cons, <- IH. done.
Qed.

Lemma wf_dict items :
  wf (CDict items) <-> NoDup (map fst items) /\ Forall (fun kv => wf kv.2) items.
Proof.
  simpl. apply and_iff_compat_l.
  induction items as [|[k c] items IH]; [by split; [constructor|]|].
  rewrite Forall_cons, <- IH. done.
Qed.

(** *** Sorting and looking up *)

Lemma sorted_asc_fmap {A B} (f : A -> B) (key : B -> string) (l : list A) :
  sorted_asc key (map f l) = map f (sorted_asc (fun x => key (f x)) l).
Proof.
  induction l as [|x l IH]; simpl; [done|]. rewrite IH.
  generalize (sorted_asc (fun x => key (f x)) l). intros s.
  induction s as [|y s IHs]; simpl; [done|].
  destruct (String.ltb _ _); simpl; [by rewrite IHs | done].
Qed.

Lemma getitem_NoDup {A} (items : list (string * A)) k v :
  NoDup (map fst items) -> (k, v) ∈ items -> getitem items k = Some v.
Proof.
  induction items as [|[k' v'] items IH]; intros Hnd Hin;
    [by apply elem_of_nil in Hin|].
  apply NoDup_cons in Hnd as [Hk Hnd]. simpl.
  apply elem_of_cons in Hin as [[= -> ->]|Hin].
  - by rewrite String.eqb_refl.
  - destruct (String.eqb_spec k' k) as [->|_]; [|by apply IH].
    exfalso. apply Hk. by apply (list_elem_of_fmap_2 fst _ (k, v)).
Qed.

Lemma by_sorted_keys_sorted {A} (items : list (string * A)) :
  NoDup (map fst items) -> by_sorted_keys items = sorted_asc fst items.
Proof.
  intros Hnd. unfold by_sorted_keys.
  rewrite (sorted_asc_fmap fst id items).
  assert (Hsub : forall kv, kv ∈ sorted_asc fst items -> kv ∈ items)
    by (intros kv; by rewrite sorted_asc_perm).
  change (fun x : string * A => id x.1) with (@fst string A).
  induction (sorted_asc fst items) as [|[k v] s IH]; [done|].
  cbn [map omap list_omap fst].
  rewrite (getitem_NoDup items k v Hnd) by (apply Hsub; left).
  cbn. f_equal. apply IH. intros kv Hkv. apply Hsub. by right.
Qed.

Section with_repr.
Variable float_repr : Q -> string.
Variable sha256_hexdigest : string -> string.

Lemma encoded_keys items : map fst (encoded float_repr items) = map fst items.
Proof.
  unfold encoded. rewrite map_map. apply map_ext. by intros [k v].
Qed.

Lemma dumps_dict items :
  dumps float_repr (CDict items) =
    "{" ++ pystr.join "," (map (encode_item) (sorted_asc fst (encoded float_repr items)))
        ++ "}".
Proof. reflexivity. Qed.

Lemma dumps_list l :
  dumps float_repr (CList l) = "[" ++ pystr.join "," (map (dumps float_repr) l) ++ "]".
Proof. reflexivity. Qed.

(** Reordering keeps well-formedness and the serialisation. *)
Lemma reorder_dumps :
  (forall c c', reorder c c' -> wf c -> dumps float_repr c = dumps float_repr c' /\ wf c') /\
  (forall l l', reorder_each l l' -> Forall wf l ->
     map (dumps float_repr) l = map (dumps float_repr) l' /\ Forall wf l') /\
  (forall items items', reorder_values items items' ->
     Forall (fun kv => wf kv.2) items ->
     encoded float_repr items = encoded float_repr items' /\ map fst items = map fst items' /\
     Forall (fun kv => wf kv.2) items').
Proof.
  apply reorder_mutual.
  - done.
  - intros l l' _ IH Hwf. apply wf_list in Hwf.
    destruct (IH Hwf) as [Hd Hwf']. split; [|by apply wf_list].
    by rewrite !dumps_list, Hd.
  - intros items items' items'' _ IH Hperm Hwf.
    apply wf_dict in Hwf as [Hnd Hwf].
    destruct (IH Hwf) as (Henc & Hkeys & Hwf'). split.
    + rewrite !dumps_dict, Henc.
      rewrite (sorted_asc_unique fst (encoded float_repr items') (encoded float_repr items''));
        [done| |].
      * by rewrite encoded_keys, <- Hkeys.
      * unfold encoded. by apply Permutation_map.
    + apply wf_dict. split.
      * rewrite <- Hperm, <- Hkeys. done.
      * by rewrite <- Hperm.
  - done.
  - intros c c' l l' _ IHc _ IHl Hwf.
    apply Forall_cons in Hwf as [Hc Hl].
    destruct (IHc Hc) as [Hd Hc']. destruct (IHl Hl) as [Hm Hl'].
    split; [|by constructor]. simpl. by rewrite Hd, Hm.
  - done.
  - intros k c c' l l' _ IHc _ IHl Hwf.
    apply Forall_cons in Hwf as [Hc Hl]. simpl in Hc.
    destruct (IHc Hc) as [Hd Hc']. destruct (IHl Hl) as (Hm & Hk & Hl').
    split; [|split]; [| |by constructor].
    + unfold encoded in *. simpl. by rewrite Hd, Hm.
    + simpl. by rewrite Hk.
Qed.

(** [_sort_config_recursive] only reorders. *)
Lemma sort_reorders c : wf c -> reorder c (_sort_config_recursive c).
Proof.
  induction c as [| | | | |l IH|items IH] using config_nested_ind;
    intros Hwf; try apply reorder_same.
  - apply wf_list in Hwf. simpl. apply reorder_list.
    induction l as [|c l IHl]; [constructor|].
    apply Forall_cons in IH as [IHc IH], Hwf as [Hc Hwf].
    constructor; [by apply IHc | by apply IHl].
  - apply wf_dict in Hwf as [Hnd Hwf]. simpl.
    set (items' := map (fun '(k, v) => (k, _sort_config_recursive v)) items).
    assert (Hkeys : map fst items' = map fst items).
    { unfold items'. rewrite map_map. apply map_ext. by intros [k v]. }
    rewrite by_sorted_keys_sorted by (by rewrite Hkeys).
    apply (reorder_dict _ items'); [|by rewrite sorted_asc_perm].
    clear Hnd Hkeys. subst items'.
    induction items as [|[k c] items IHl]; [constructor|].
    apply Forall_cons in IH as [IHc IH], Hwf as [Hc Hwf].
    simpl. constructor; [by apply IHc | by apply IHl].
Qed.

(** C2. Two well-formed configurations that differ only in the
    order of the keys of their dictionaries, at any depth, have the
    same cache key. *)
Theorem _generate_config_hash_order_invariant c c' :
  wf c -> reorder c c' ->
  _generate_config_hash float_repr sha256_hexdigest c =
  _generate_config_hash float_repr sha256_hexdigest c'.
Proof.
  intros Hwf Hre. unfold _generate_config_hash. f_equal.
  destruct reorder_dumps as [Hd _].
  destruct (Hd _ _ Hre Hwf) as [Hcc' Hwf'].
  destruct (Hd _ _ (sort_reorders c Hwf) Hwf) as [<- _].
  destruct (Hd _ _ (sort_reorders c' Hwf') Hwf') as [<- _].
  exact Hcc'.
Qed.
End with_repr.
End cache_key.

Section cache_examples.
Import deterministic_cache examples.
Open Scope string_scope.

Lemma config_b_reorders_a : reorder config_a config_b.
Proof.
  unfold config_a, config_b.
  eapply (reorder_dict _
    [("seed", CInt 12345); ("geo", CStr "US");
     ("keywords", CList [CDict [("bid", CInt 10); ("text", CStr "plumber")]])]).
  - constructor; [apply reorder_same|].
    constructor; [apply reorder_same|].
    constructor; [|constructor].
    apply reorder_list. constructor; [|constructor].
    eapply (reorder_dict _ [("text", CStr "plumber"); ("bid", CInt 10)]).
    + repeat constructor.
    + apply perm_swap.
  - symmetry. apply (Permutation_cons_append [_; _]).
Qed.

Lemma wf_config_a : wf config_a.
Proof.
  simpl. split_and!; try exact I;
    repeat (apply NoDup_cons_2;
            [rewrite ?elem_of_cons, elem_of_nil; intuition discriminate|]);
    apply NoDup_nil_2.
Qed.

Example config_a_key :
  _generate_config_hash toy_repr toy_digest config_a =
  "{" ++ quote ++ "geo" ++ quote ++ ":" ++ quote ++ "US" ++ quote ++ ","
      ++ quote ++ "keywords" ++ quote ++ ":[{"
      ++ quote ++ "bid" ++ quote ++ ":10,"
      ++ quote ++ "text" ++ quote ++ ":" ++ quote ++ "plumber" ++ quote ++ "}],"
      ++ quote ++ "seed" ++ quote ++ ":12345}".
Proof. vm_compute. reflexivity. Qed.

Lemma _generate_config_hash_order_invariant_witness :
  wf config_a /\ reorder config_a config_b /\
  _generate_config_hash toy_repr toy_digest config_a =
  _generate_config_hash toy_repr toy_digest config_b.
Proof.
  split; [exact wf_config_a|]. split; [exact config_b_reorders_a|].
  apply (_generate_config_hash_order_invariant toy_repr toy_digest
           config_a config_b wf_config_a config_b_reorders_a).
Defined.
End cache_examples.

(** ** The two tiers of the cache *)

Section cache_tiers.
Import deterministic_cache.
Open Scope string_scope.
Variable float_repr : Q -> string.
Variable sha256_hexdigest : string -> string.
Variable payload : Type.

Lemma set_memory c config d custom clk w :
  memory_cache payload
    (set float_repr sha256_hexdigest payload c config d custom clk w).2
    !! _generate_config_hash float_repr sha256_hexdigest config =
    Some {| key := _generate_config_hash float_repr sha256_hexdigest config;
            data := d; created_at := clk 1%nat;
            expires_at := Some (expiry payload c custom clk); hit_count := 0;
            last_accessed := Some (clk 2%nat) |}.
Proof. unfold set. cbn [snd memory_cache]. apply lookup_insert_eq. Qed.

End cache_tiers.

Section cache_tier_examples.
Import deterministic_cache examples.
Open Scope string_scope.


(** Why the write must have opened the file: when [open] raises, an
    older file for the same key stays in the directory, and once the
    new entry has expired in memory the older payload is served. *)
Example stale_file_is_served :
  let c1 := (set toy_repr toy_digest Z stale_cache config_a 42%Z None
               (at_time 0) OpenFails).2 in
  (get toy_repr toy_digest Z c1 config_a (at_time (hours 24 + 1))).1 = Some 7%Z.
Proof. vm_compute. reflexivity. Qed.
End cache_tier_examples.

(** * Further properties *)

(** ** The auction: winners, eligibility, repetition *)

Section auction_more.
Import constants auction_engine auction_vocabulary.
Open Scope string_scope.

Lemma valid_seed {G} `{NumpyRandom G} (s : Z) :
  (0 <= s < 2 ^ 32)%Z -> np_random.seed s = Some (mt_seed s).
Proof.
  intros Hs. unfold np_random.seed.
  by assert (((0 <=? s) && (s <? 2 ^ 32))%Z = true) as -> by lia.
Qed.

(** The winners and the updated store are computed from the store
    alone: the seed only has to be valid. *)
Lemma run_auction_of_store {G} `{NumpyRandom G} flag ads s (w : world G) ws w' :
  run_auction flag ads s w = Some (ws, w') ->
  forall s2 (g2 : G), (0 <= s2 < 2 ^ 32)%Z ->
    run_auction flag ads s2 (World g2 (objects w)) =
      Some (ws, World (mt_seed s2) (objects w')).
Proof.
  intros Hr s2 g2 Hs2.
  apply run_auction_Some in Hr as (g & ps & _ & Hrank & _ & Hv & _ & Ha).
  unfold run_auction. rewrite (valid_seed s2 Hs2). cbn [mbind option_bind objects].
  rewrite Hrank. cbn [mbind option_bind]. rewrite Hv. cbn [mbind option_bind].
  by rewrite Ha.
Qed.

Lemma set_ad_rank_ranked h l d bid qs :
  h !! l = Some d -> as_num (d !! "bid") = Some bid ->
  as_num (d !! "quality_score") = Some qs ->
  d !! "ad_rank" = Some (VNum (bid * qs)%Q) ->
  set_ad_rank h l = Some h.
Proof.
  intros Hd Hb Hq Hr. unfold set_ad_rank. rewrite Hd. cbn.
  rewrite Hb, Hq. cbn. f_equal. unfold calculate_ad_rank.
  rewrite (insert_id d) by done. by apply insert_id.
Qed.

Lemma rank_all_ranked ads h :
  (forall l, l ∈ ads -> exists d bid qs,
      h !! l = Some d /\ as_num (d !! "bid") = Some bid /\
      as_num (d !! "quality_score") = Some qs /\
      d !! "ad_rank" = Some (VNum (bid * qs)%Q)) ->
  rank_all ads h = Some h.
Proof.
  induction ads as [|a ads IH]; intros Hall; [done|].
  destruct (Hall a) as (d & bid & qs & Hd & Hb & Hq & Hr);
    [apply elem_of_cons; by left|].
  cbn [rank_all]. rewrite (set_ad_rank_ranked h a d bid qs) by done.
  cbn. apply IH. intros l Hl. apply Hall, elem_of_cons. by right.
Qed.

(** The first loop has nothing left to do on its own result. *)
Lemma rank_all_again ads h h' :
  rank_all ads h = Some h' -> rank_all ads h' = Some h'.
Proof.
  intros Hr. apply rank_all_ranked. intros l Hl.
  destruct (rank_all_spec _ _ _ Hr l) as [(d & bid & qs & _ & Hb & Hq & Hh') _];
    [done|].
  exists (ranked d bid qs), bid, qs.
  rewrite ranked_bid, ranked_quality_score. split_and!; try done.
  apply lookup_insert_eq.
Qed.

Lemma eligible_length ps :
  length (eligible_ads (sorted_ads ps)) <= length ps.
Proof.
  unfold eligible_ads, sorted_ads.
  etransitivity; [apply filter_length_le|].
  by rewrite (Permutation_length (sorted_desc_perm ad_rank ps)).
Qed.

(** X1. What [run_auction] returns: at most [MAX_POSITION] winners
    and no more than there are participants; the winner at index [i]
    has position [i + 1]; every winner is eligible, and its ad rank
    is its bid times its quality score. *)
Theorem run_auction_winner_invariants {G} `{NumpyRandom G}
    flag ads seed (w : world G) ws w' :
  run_auction flag ads seed w = Some (ws, w') ->
  length ws <= MAX_POSITION /\ length ws <= length ads /\
  forall i win, ws !! i = Some win ->
    w_position win = S i /\
    (MIN_AD_RANK <= w_ad_rank win)%Q /\
    w_ad_rank win = (w_bid win * w_quality_score win)%Q.
Proof.
  intros Hr.
  destruct (winner_of_eligible _ _ _ _ _ _ Hr) as (ps & Hv & HF & Hlen & Hw).
  cbv zeta in Hlen, Hw.
  assert (Hps : length ps = length ads).
  { unfold view in Hv. symmetry. by eapply length_mapM. }
  pose proof (eligible_length ps) as Hel.
  split; [lia|]. split; [lia|].
  intros i win Hi. destruct (Hw _ _ Hi) as (ad & Hel_i & Hm).
  apply make_winner_Some in Hm as (_ & Hp & Hrk & Hq & Hb & _).
  assert (Hin : ad ∈ eligible_ads (sorted_ads ps))
    by (by eapply list_elem_of_lookup_2).
  split; [done|]. split.
  - rewrite Hrk. by eapply eligible_rank.
  - rewrite Hrk, Hb, Hq.
    apply list_elem_of_In, filter_In in Hin as [Hin _].
    apply list_elem_of_In in Hin. unfold sorted_ads in Hin.
    rewrite sorted_desc_perm in Hin.
    rewrite Forall_forall in HF. by apply HF.
Qed.

Lemma run_auction_winner_invariants_witness :
  exists ws w',
    auction.run_auction [0; 1]%nat 12345 examples.scenario_B = Some (ws, w') /\
    length ws <= MAX_POSITION /\ length ws <= length [0; 1]%nat /\
    forall i win, ws !! i = Some win ->
      w_position win = S i /\
      (MIN_AD_RANK <= w_ad_rank win)%Q /\
      w_ad_rank win = (w_bid win * w_quality_score win)%Q.
Proof.
  eexists _, _. split; [vm_compute; reflexivity|].
  eapply (run_auction_winner_invariants false [0; 1]%nat 12345
            examples.scenario_B).
  vm_compute; reflexivity.
Defined.





(** X3. A second call on the same participants changes nothing
    further: it returns the same winners and leaves every dictionary
    as the first call left it. *)
Theorem run_auction_twice {G} `{NumpyRandom G}
    flag ads seed (w : world G) ws w' seed2 :
  run_auction flag ads seed w = Some (ws, w') ->
  (0 <= seed2 < 2 ^ 32)%Z ->
  exists w'',
    run_auction flag ads seed2 w' = Some (ws, w'') /\
    objects w'' = objects w'.
Proof.
  intros Hr Hs2. exists (World (mt_seed seed2) (objects w')). split; [|done].
  pose proof Hr as Hr0.
  apply run_auction_Some in Hr as (g & ps & _ & Hrank & _ & Hv & _ & Ha).
  unfold run_auction. rewrite (valid_seed seed2 Hs2).
  cbn [mbind option_bind]. rewrite (rank_all_again _ _ _ Hrank).
  cbn [mbind option_bind]. rewrite Hv. cbn [mbind option_bind].
  by rewrite Ha.
Qed.

Lemma run_auction_twice_witness :
  exists ws w',
    auction.run_auction [0; 1]%nat 12345 examples.scenario_B = Some (ws, w') /\
    (0 <= 7 < 2 ^ 32)%Z /\
    exists w'',
      auction.run_auction [0; 1]%nat 7 w' = Some (ws, w'') /\
      objects w'' = objects w'.
Proof.
  eexists _, _. split; [vm_compute; reflexivity|]. split; [lia|].
  eapply (run_auction_twice false [0; 1]%nat 12345 examples.scenario_B).
  - vm_compute; reflexivity.
  - lia.
Defined.
End auction_more.

(** ** [auction.simulate_multiple_auctions] *)

Section auction_sim_more.
Import constants auction_engine auction_sim.
Open Scope string_scope.

Context {G : Type} `{NumpyRandom G}.

Lemma run_auction_on_any_seed ads s (g : G) ws g' :
  run_auction_on ads s g = Some (ws, g') ->
  forall s2 (g2 : G), (0 <= s2 < 2 ^ 32)%Z ->
    run_auction_on ads s2 g2 = Some (ws, mt_seed s2).
Proof.
  unfold run_auction_on. intros Hr s2 g2 Hs2.
  destruct (auction.run_auction _ s _) as [[ws0 w0]|] eqn:Ha; [|done].
  cbn in Hr. injection Hr as <- <-.
  unfold auction.run_auction in *.
  pose proof (run_auction_of_store _ _ _ _ _ _ Ha s2 g2 Hs2) as Hb.
  cbn [objects] in Hb. by rewrite Hb.
Qed.

Lemma auctions_loop_repeats keywords seed ads ws n :
  mapM ad_of_keyword keywords = Some ads ->
  (forall s2 (g2 : G), (0 <= s2 < 2 ^ 32)%Z ->
     run_auction_on ads s2 g2 = Some (ws, mt_seed s2)) ->
  forall i (g : G),
    (0 <= seed)%Z -> (seed + Z.of_nat i + Z.of_nat n <= 2 ^ 32)%Z ->
    exists g',
      auctions_loop keywords seed i n g = Some (concat (replicate n ws), g').
Proof.
  intros Hads Hrun. induction n as [|n IH]; intros i g Hs Hn.
  - by eexists.
  - cbn [auctions_loop]. unfold mbind, rand_bind, rnd.lift. rewrite Hads. cbn.
    rewrite Hrun by lia.
    destruct (IH (S i) (mt_seed (seed + Z.of_nat i))) as [g' ->]; [lia|lia|].
    by eexists.
Qed.

(** X4. [simulate_multiple_auctions] holds the same auction
    [num_auctions] times: when one auction on the keywords' ads
    returns [ws] and the seeds [seed .. seed + num_auctions - 1] are
    valid, the result is [ws] repeated [num_auctions] times. *)
Theorem simulate_multiple_auctions_repeats keywords num_auctions seed
    ads ws (g g1 : G) :
  (0 <= seed)%Z -> (0 <= num_auctions)%Z ->
  (seed + num_auctions <= 2 ^ 32)%Z -> (seed < 2 ^ 32)%Z ->
  mapM ad_of_keyword keywords = Some ads ->
  run_auction_on ads seed g = Some (ws, g1) ->
  exists g',
    simulate_multiple_auctions keywords num_auctions seed g =
      Some (concat (replicate (Z.to_nat num_auctions) ws), g').
Proof.
  intros Hs Hn Hmax Hlt Hads Hrun.
  unfold simulate_multiple_auctions, mbind, rand_bind, rnd.seed.
  rewrite (valid_seed seed) by lia. cbn.
  apply (auctions_loop_repeats keywords seed ads ws); try done; try lia.
  intros s2 g2 Hs2. by eapply run_auction_on_any_seed.
Qed.

Lemma auctions_loop_overflow keywords seed n :
  forall i (g : G),
    (0 < n)%nat -> (2 ^ 32 < seed + Z.of_nat i + Z.of_nat n)%Z ->
    auctions_loop keywords seed i n g = None.
Proof.
  induction n as [|n IH]; intros i g Hn Hover; [lia|].
  cbn [auctions_loop]. unfold mbind, rand_bind, rnd.lift.
  destruct (mapM ad_of_keyword keywords) as [ads|]; [|done]. cbn.
  destruct (run_auction_on ads (seed + Z.of_nat i) g) as [[ws g1]|] eqn:Hr;
    [|done].
  assert (Hi : (seed + Z.of_nat i < 2 ^ 32)%Z).
  { unfold run_auction_on, auction.run_auction, run_auction, np_random.seed in Hr.
    destruct ((0 <=? seed + Z.of_nat i) && (seed + Z.of_nat i <? 2 ^ 32))%Z
      eqn:Hb; [lia|done]. }
  rewrite IH; [done|lia|lia].
Qed.

(** X5. The seeds of the auctions are [seed], [seed + 1], ...: when
    [seed + num_auctions] exceeds [2 ** 32] one of them is no valid
    seed and the call raises, whatever the keywords are. *)
Theorem simulate_multiple_auctions_seed_overflow keywords num_auctions seed
    (g : G) :
  (0 < num_auctions)%Z -> (2 ^ 32 < seed + num_auctions)%Z ->
  simulate_multiple_auctions keywords num_auctions seed g = None.
Proof.
  intros Hn Hover.
  unfold simulate_multiple_auctions, mbind, rand_bind, rnd.seed.
  destruct (np_random.seed seed) as [g0|]; [|done]. cbn.
  apply auctions_loop_overflow; lia.
Qed.
End auction_sim_more.

Lemma simulate_multiple_auctions_repeats_witness :
  exists ws g1,
    mapM auction_sim.ad_of_keyword more_examples.two_keywords
      = Some more_examples.two_ads /\
    auction_sim.run_auction_on more_examples.two_ads 12345 (0%Z : Z)
      = Some (ws, g1) /\
    exists g',
      auction_sim.simulate_multiple_auctions more_examples.two_keywords 3 12345 (0%Z : Z) =
        Some (concat (replicate (Z.to_nat 3) ws), g').
Proof.
  eexists _, _. split; [vm_compute; reflexivity|].
  split; [vm_compute; reflexivity|].
  eapply (simulate_multiple_auctions_repeats more_examples.two_keywords 3 12345
            more_examples.two_ads);
    [lia|lia|lia|lia|vm_compute; reflexivity|vm_compute; reflexivity].
Defined.

Lemma simulate_multiple_auctions_seed_overflow_witness :
  auction_sim.simulate_multiple_auctions more_examples.two_keywords 2 4294967295 (0%Z : Z)
    = None.
Proof.
  apply (simulate_multiple_auctions_seed_overflow more_examples.two_keywords 2
           4294967295 (0%Z : Z)); lia.
Defined.

(** ** The static table, competition levels and cost estimates *)

Section volume_more.
Import volume_estimation volume_suggestions.
Open Scope string_scope.
Open Scope Q_scope.

Lemma static_rows_ok : forallb (fun kv => row_ok kv.2) static_volume_rows = true.
Proof. vm_compute. reflexivity. Qed.

Lemma static_volume_db_rows k v :
  static_volume_db !! k = Some v -> In (k, v) static_volume_rows.
Proof.
  intros Hl. apply list_elem_of_In.
  exact (elem_of_list_to_map_2 static_volume_rows k v Hl).
Qed.

Lemma static_volume_db_ok k v : static_volume_db !! k = Some v -> row_ok v = true.
Proof.
  intros Hl%static_volume_db_rows.
  pose proof static_rows_ok as Hall. rewrite forallb_forall in Hall.
  exact (Hall _ Hl).
Qed.

Lemma row_ok_spec v :
  row_ok v = true ->
  (competition v = "High" \/ competition v = "Medium" \/ competition v = "Low") /\
  0 < cpc_low v /\ cpc_low v <= avg_cpc v /\ avg_cpc v <= cpc_high v /\
  0.6 <= avg_cpc v /\ (0 < monthly_searches v)%Z.
Proof.
  unfold row_ok. rewrite !andb_true_iff, !orb_true_iff, !String.eqb_eq,
    negb_true_iff, !Qle_bool_iff, Z.ltb_lt.
  intros [[[[[Hc Hl] Hla] Hah] Ha] Hm]. split_and!; try done; try tauto.
  apply not_true_iff_false in Hl. rewrite Qle_bool_iff in Hl. lra.
Qed.

(** X6. [get_competition_level] answers ['High'], ['Medium'] or
    ['Low'] for every keyword, so that the default of
    [competitor_counts.get] is never used. *)
Theorem get_competition_level_values keyword :
  get_competition_level keyword = "High" \/
  get_competition_level keyword = "Medium" \/
  get_competition_level keyword = "Low".
Proof.
  unfold get_competition_level, get_volume_data.
  destruct (static_volume_db !! normalize keyword) as [v|] eqn:Hv.
  - by destruct (row_ok_spec v (static_volume_db_ok _ _ Hv)) as [? _].
  - destruct (_ && _); [by left|]. destruct (3 <=? _)%nat; tauto.
Qed.

(** X7. The three prices of [get_estimated_cpc] are positive and in
    the order low, average, high, for every keyword and match type;
    the average is at least 0.48. *)
Theorem get_estimated_cpc_ordered keyword match_type :
  let '(low, avg, high) := get_estimated_cpc keyword match_type in
  0 < low /\ low <= avg /\ avg <= high /\ 0.48 <= avg.
Proof.
  unfold get_estimated_cpc, get_volume_data.
  assert (Hbase : exists bl ba bh,
    match static_volume_db !! normalize keyword with
    | Some volume_data =>
        (cpc_low volume_data, avg_cpc volume_data, cpc_high volume_data)
    | None =>
        if String.eqb (get_competition_level keyword) "High" then (8.0, 15.0, 25.0)
        else if String.eqb (get_competition_level keyword) "Medium"
             then (4.0, 8.0, 15.0)
        else (2.0, 5.0, 10.0)
    end = (bl, ba, bh) /\ 0 < bl /\ bl <= ba /\ ba <= bh /\ 0.6 <= ba).
  { destruct (static_volume_db !! normalize keyword) as [v|] eqn:Hv.
    - destruct (row_ok_spec v (static_volume_db_ok _ _ Hv))
        as (_ & ? & ? & ? & ? & _).
      by eexists _, _, _.
    - destruct (String.eqb _ "High"); [|destruct (String.eqb _ "Medium")];
        eexists _, _, _; (split; [reflexivity|]); split_and!; lra. }
  destruct Hbase as (bl & ba & bh & -> & Hl & Hla & Hah & Ha).
  destruct (String.eqb match_type "exact"); [|destruct (String.eqb match_type "phrase")];
    split_and!; nra.
Qed.
End volume_more.

(** ** [_generate_competitor_ads] under a generator that keeps to its ranges *)

Lemma lcg_lawful : LawfulRandom Z.
Proof.
  split.
  - intros low high g Hlt. cbn.
    pose proof (Z.mod_pos_bound g (high - low)). lia.
  - intros low high g Hle. cbn [mt_uniform lcg_random fst].
    pose proof (Z.mod_pos_bound g 1000 eq_refl) as [H0 H1].
    assert (Hf0 : (0 <= g mod 1000 # 1000)%Q) by (unfold Qle; cbn; lia).
    assert (Hf1 : (g mod 1000 # 1000 <= 1)%Q) by (unfold Qle; cbn; lia).
    split; nra.
Qed.

Section competitors.
Import constants volume_estimation volume_suggestions enhanced_auction.
Open Scope string_scope.

(** What the loop leaves in each dictionary. *)
Lemma competitor_loop_spec {G} `{LawfulRandom G} match_type avg_cpc n : forall i (g : G) ads g',
  competitor_loop match_type avg_cpc i n g = Some (ads, g') ->
  (0 <= avg_cpc)%Q ->
  length ads = n /\
  forall j ad, ads !! j = Some ad ->
    ad !! "keyword" = Some (VStr ("competitor_" ++ pystr.of_nat (i + j))) /\
    ad !! "match_type" = Some (VStr match_type) /\
    exists bid qs,
      ad !! "bid" = Some (VNum bid) /\
      ad !! "quality_score" = Some (VNum (inject_Z qs)) /\
      (5 <= qs <= 9)%Z /\
      (py.round (avg_cpc * 0.7) 2 <= bid <= py.round (avg_cpc * 1.3) 2)%Q.
Proof.
  induction n as [|n IH]; intros i g ads g' Hl Havg.
  - cbn in Hl. injection Hl as <- <-. split; [done|]. intros j ad Hj. done.
  - cbn [competitor_loop] in Hl.
    unfold mbind, rand_bind, rnd.uniform, rnd.randint, np_random.uniform,
      np_random.randint in Hl.
    pose proof (uniform_range (avg_cpc * 0.7)%Q (avg_cpc * 1.3)%Q g) as Hu.
    destruct (mt_uniform (avg_cpc * 0.7)%Q (avg_cpc * 1.3)%Q g) as [bid g1].
    pose proof (randint_range 5 10 g1) as Hq.
    destruct (mt_randint 5 10 g1) as [qs g2].
    cbn [fst] in Hu, Hq.
    destruct (competitor_loop match_type avg_cpc (S i) n g2) as [[rest g3]|] eqn:Hrest;
      [|done].
    cbn in Hl. injection Hl as <- <-.
    destruct (IH _ _ _ _ Hrest Havg) as [Hlen Hrest_spec].
    split; [cbn; by rewrite Hlen|].
    intros [|j] ad Hj.
    + cbn in Hj. injection Hj as <-. rewrite Nat.add_0_r.
      split; [by rewrite lookup_insert_eq|].
      split; [rewrite lookup_insert_ne by done; by rewrite lookup_insert_eq|].
      exists (py.round bid 2), qs.
      split; [rewrite !lookup_insert_ne by done; by rewrite lookup_insert_eq|].
      split; [rewrite !lookup_insert_ne by done; by rewrite lookup_insert_eq|].
      split; [lia|].
      destruct Hu as [Hu1 Hu2]; [lra|].
      split; by apply round_mono.
    + cbn in Hj. rewrite Nat.add_succ_r. by apply Hrest_spec.
Qed.

(** X8. With a generator that keeps to its ranges,
    [_generate_competitor_ads] makes between one and eight
    competitors, as many as the competition level of the keyword
    allows; competitor [i] is called [competitor_i], has a quality
    score from 5 to 9 and a bid between 70% and 130% of the average
    price (each rounded to cents), and is eligible for the auction. *)
Theorem _generate_competitor_ads_ranges {G} `{LawfulRandom G}
    keyword match_type geo seed
    (g : G) ads g' :
  _generate_competitor_ads keyword match_type geo seed g = Some (ads, g') ->
  let range := competitor_range (get_competition_level keyword) in
  let avg_cpc := (get_estimated_cpc keyword match_type).1.2 in
  (1 <= range.1)%Z /\ (range.2 <= 8)%Z /\
  (range.1 <= Z.of_nat (length ads) <= range.2)%Z /\
  forall i ad, ads !! i = Some ad ->
    ad !! "keyword" = Some (VStr ("competitor_" ++ pystr.of_nat i)) /\
    ad !! "match_type" = Some (VStr match_type) /\
    exists bid qs,
      ad !! "bid" = Some (VNum bid) /\
      ad !! "quality_score" = Some (VNum (inject_Z qs)) /\
      (5 <= qs <= 9)%Z /\
      (py.round (avg_cpc * 0.7) 2 <= bid <= py.round (avg_cpc * 1.3) 2)%Q /\
      (MIN_AD_RANK <= auction_engine.calculate_ad_rank bid (inject_Z qs))%Q.
Proof.
  intros Hg. cbv zeta.
  unfold _generate_competitor_ads, mbind, rand_bind, rnd.seed in Hg.
  destruct (np_random.seed seed) as [g0|]; [|done]. cbn [mbind option_bind] in Hg.
  unfold competitor_range.
  assert (Hrange : exists lo hi,
    default (2, 5)%Z (competitor_counts !! get_competition_level keyword)
      = (lo, hi) /\ (1 <= lo <= hi)%Z /\ (hi <= 8)%Z).
  { destruct (get_competition_level_values keyword) as [ -> | [ -> | -> ] ];
      eexists _, _; (split; [vm_compute; reflexivity|]); lia. }
  destruct Hrange as (lo & hi & Hc & Hlo & Hhi). rewrite Hc in Hg |- *.
  cbn [fst snd].
  unfold rnd.randint, np_random.randint in Hg.
  pose proof (randint_range lo (hi + 1) g0) as Hn.
  destruct (mt_randint lo (hi + 1) g0) as [num g1]. cbn [fst] in Hn.
  pose proof (get_estimated_cpc_ordered keyword match_type) as Hcpc.
  destruct (get_estimated_cpc keyword match_type) as [[low avg] high].
  destruct Hcpc as (Hlow & Hla & Hah & Havg). cbn [fst snd].
  destruct (competitor_loop_spec _ _ _ _ _ _ _ Hg) as [Hlen Hspec]; [lra|].
  split; [lia|]. split; [lia|]. split; [lia|].
  intros i ad Hi.
  destruct (Hspec i ad Hi) as (Hk & Hm & bid & qs & Hb & Hq & Hqs & Hbid).
  split; [done|]. split; [done|]. exists bid, qs.
  split; [done|]. split; [done|]. split; [lia|]. split; [done|].
  unfold MIN_AD_RANK, auction_engine.calculate_ad_rank.
  assert (Hmin : (0.34 <= py.round (avg * 0.7) 2)%Q).
  { change 0.34%Q with (py.round 0.336 2) at 1. apply round_mono. lra. }
  assert (Hq5 : (5 <= inject_Z qs)%Q).
  { change 5%Q with (inject_Z 5). rewrite <- Zle_Qle. lia. }
  nra.
Qed.
End competitors.

Lemma _generate_competitor_ads_ranges_witness :
  enhanced_auction._generate_competitor_ads "emergency plumber nearby" "exact" "US"
      0 (0%Z : Z)
    = Some ([more_examples.competitor_0], 654583775%Z) /\
  let range :=
    volume_suggestions.competitor_range
      (volume_estimation.get_competition_level "emergency plumber nearby") in
  let avg_cpc :=
    (volume_estimation.get_estimated_cpc "emergency plumber nearby" "exact").1.2 in
  (1 <= range.1)%Z /\ (range.2 <= 8)%Z /\
  (range.1 <= Z.of_nat (length [more_examples.competitor_0]) <= range.2)%Z /\
  forall i ad, [more_examples.competitor_0] !! i = Some ad ->
    ad !! "keyword" = Some (VStr ("competitor_" ++ pystr.of_nat i)%string) /\
    ad !! "match_type" = Some (VStr "exact") /\
    exists bid qs,
      ad !! "bid" = Some (VNum bid) /\
      ad !! "quality_score" = Some (VNum (inject_Z qs)) /\
      (5 <= qs <= 9)%Z /\
      (py.round (avg_cpc * 0.7) 2 <= bid <= py.round (avg_cpc * 1.3) 2)%Q /\
      (constants.MIN_AD_RANK <= auction_engine.calculate_ad_rank bid (inject_Z qs))%Q.
Proof.
  split; [vm_compute; reflexivity|].
  eapply (@_generate_competitor_ads_ranges Z _ lcg_lawful
            "emergency plumber nearby" "exact" "US" 0 0%Z).
  vm_compute; reflexivity.
Defined.

(** ** Daily auctions and keyword suggestions *)

Section volume_order.
Import volume_estimation volume_suggestions.
Open Scope string_scope.
Open Scope Q_scope.

Lemma int_floor x : 0 <= x -> py.int x = Qfloor x.
Proof.
  intros Hx. destruct x as [n d]. unfold py.int, Qfloor. cbn.
  apply Z.quot_div_nonneg; [|lia].
  unfold Qle in Hx. cbn in Hx. lia.
Qed.

Lemma int_mono x y : 0 <= x -> x <= y -> (py.int x <= py.int y)%Z.
Proof.
  intros Hx Hxy. rewrite !int_floor by lra. by apply Qfloor_resp_le.
Qed.

Lemma int_nonneg x : 0 <= x -> (0 <= py.int x)%Z.
Proof.
  intros Hx. rewrite int_floor by done.
  change 0%Z with (Qfloor 0). by apply Qfloor_resp_le.
Qed.

Lemma length_modifier_pos n : 0 < default 5000 (length_modifiers !! n).
Proof.
  destruct (length_modifiers !! n) as [q|] eqn:Hq; [|reflexivity].
  apply elem_of_list_to_map_2 in Hq. cbn.
  repeat (apply elem_of_cons in Hq as [[= -> ->]|Hq]; [reflexivity|]).
  by apply elem_of_nil in Hq.
Qed.

Lemma geo_modifier_nonneg geo : 0 <= default 0.05 (geo_modifiers !! geo).
Proof.
  destruct (geo_modifiers !! geo) as [q|] eqn:Hq; [|cbn; lra].
  apply elem_of_list_to_map_2 in Hq. cbn.
  repeat (apply elem_of_cons in Hq as [[= -> ->]|Hq]; [lra|]).
  by apply elem_of_nil in Hq.
Qed.

Lemma match_modifier_pos match_type : 0 < match_modifier match_type.
Proof.
  unfold match_modifier.
  destruct (match_type_modifiers !! match_type) as [q|] eqn:Hq; [|reflexivity].
  apply elem_of_list_to_map_2 in Hq. cbn.
  repeat (apply elem_of_cons in Hq as [[= -> ->]|Hq]; [reflexivity|]).
  by apply elem_of_nil in Hq.
Qed.

Lemma _estimate_volume_from_keyword_nonneg k m :
  _estimate_volume_from_keyword k = Some m -> (0 <= m)%Z.
Proof.
  unfold _estimate_volume_from_keyword.
  pose proof (length_modifier_pos (String.length k)) as Hb.
  generalize dependent (default 5000 (length_modifiers !! String.length k)).
  intros b Hb.
  destruct (looks_like_brand k) as [brand|]; [|done].
  cbn [mbind option_bind]. intros [= <-]. apply int_nonneg.
  repeat match goal with
         | |- context [if ?c then _ else _] => destruct c
         end; lra.
Qed.

(** X9. For the same keyword and geography a match type with a larger
    volume modifier never gets fewer daily auctions: broad (0.4), an
    unknown match type (0.5), phrase (0.7), exact (1.0), in that
    order. *)
Theorem estimate_daily_auctions_monotone keyword geo mt1 mt2 e1 e2 :
  estimate_daily_auctions keyword mt1 geo = Some e1 ->
  estimate_daily_auctions keyword mt2 geo = Some e2 ->
  match_modifier mt1 <= match_modifier mt2 ->
  (daily_auctions e1 <= daily_auctions e2)%Z.
Proof.
  unfold estimate_daily_auctions, match_modifier.
  pose proof (geo_modifier_nonneg geo) as Hgeo.
  generalize dependent (default 0.05 (geo_modifiers !! geo)). intros gm Hgeo.
  pose proof (match_modifier_pos mt1) as Hm1. unfold match_modifier in Hm1.
  generalize dependent (default 0.5 (match_type_modifiers !! mt1)).
  generalize (default 0.5 (match_type_modifiers !! mt2)). intros m2 m1 Hm1.
  assert (Hmonthly : forall r,
    match static_volume_db !! normalize keyword with
    | Some volume_data => Some (monthly_searches volume_data, "static", 0.9)
    | None =>
        m ← _estimate_volume_from_keyword (normalize keyword);
        Some (m, "estimated", 0.6)
    end = Some r -> (0 <= r.1.1)%Z).
  { intros r. destruct (static_volume_db !! normalize keyword) as [v|] eqn:Hv.
    - intros [= <-]. cbn.
      destruct (row_ok_spec v (static_volume_db_ok _ _ Hv)) as (_ & _ & _ & _ & _ & ?).
      lia.
    - destruct (_estimate_volume_from_keyword (normalize keyword)) as [m|] eqn:Hm;
        [|done].
      intros [= <-]. cbn. by eapply _estimate_volume_from_keyword_nonneg. }
  destruct (match static_volume_db !! normalize keyword with
            | Some _ => _ | None => _ end) as [[[monthly source] conf]|]; [|done].
  specialize (Hmonthly _ eq_refl). cbn in Hmonthly.
  cbn. intros [= <-] [= <-] Hm. cbn.
  assert (Hmq : 0 <= inject_Z monthly).
  { change 0 with (inject_Z 0). by rewrite <- Zle_Qle. }
  apply Z.max_le_compat_l.
  assert (Hx : 0 <= inject_Z monthly / 30).
  { apply Qle_shift_div_l; [reflexivity|]. lra. }
  remember (inject_Z monthly / 30) as x eqn:Ex. clear Ex.
  apply int_mono.
  - apply Qmult_le_0_compat; [apply Qmult_le_0_compat; lra|lra].
  - apply Qmult_le_compat_r; [|lra].
    rewrite !(Qmult_comm x). apply Qmult_le_compat_r; lra.
Qed.

Lemma estimate_daily_auctions_monotone_witness :
  exists e1 e2,
    estimate_daily_auctions "plumber" "broad" "US" = Some e1 /\
    estimate_daily_auctions "plumber" "exact" "US" = Some e2 /\
    match_modifier "broad" <= match_modifier "exact" /\
    (daily_auctions e1 <= daily_auctions e2)%Z.
Proof.
  eexists _, _. split; [vm_compute; reflexivity|].
  split; [vm_compute; reflexivity|].
  assert (Hm : match_modifier "broad" <= match_modifier "exact")
    by (vm_compute; discriminate).
  split; [exact Hm|].
  eapply (estimate_daily_auctions_monotone "plumber" "US" "broad" "exact");
    [vm_compute; reflexivity|vm_compute; reflexivity|exact Hm].
Defined.
End volume_order.

Section suggestions.
Import volume_estimation volume_suggestions.
Open Scope string_scope.

Lemma StronglySorted_take_impl {A} (R R' : relation A) l :
  (forall a b, R a b -> R' a b) ->
  StronglySorted R l -> forall k, StronglySorted R' (take k l).
Proof.
  intros Himpl. induction 1 as [|a l Hl IH Hall]; intros [|k]; cbn;
    try constructor.
  - apply IH.
  - apply Forall_forall. intros b Hb. apply Himpl.
    rewrite Forall_forall in Hall. apply Hall.
    by apply (subseteq_take k l).
Qed.

Lemma filter_all {A} (p : A -> bool) (l : list A) :
  (forall x, p x = true) -> List.filter p l = l.
Proof.
  intros Hp. induction l as [|x l IH]; [done|].
  cbn. by rewrite Hp, IH.
Qed.

Lemma slice_to_take {A} n (l : list A) :
  exists k, pyseq.slice_to n l = take k l /\
            ((0 <= n)%Z -> k = Z.to_nat n).
Proof.
  unfold pyseq.slice_to. destruct (n <? 0)%Z eqn:Hn.
  - eexists. split; [reflexivity|]. lia.
  - eexists. split; [reflexivity|]. done.
Qed.

(** X10. The suggestions of [get_keyword_suggestions] come in the
    order of decreasing monthly searches; there are at most
    [max_suggestions] of them when that is not negative; each is an
    entry of the static table whose keyword contains the normalised
    seed or is contained in it. *)
Theorem get_keyword_suggestions_sorted seed_keyword max_suggestions :
  let suggestions := get_keyword_suggestions seed_keyword max_suggestions in
  StronglySorted (fun a b => (monthly_searches b <= monthly_searches a)%Z)
    suggestions /\
  ((0 <= max_suggestions)%Z ->
   (Z.of_nat (length suggestions) <= max_suggestions)%Z) /\
  forall v, v ∈ suggestions ->
    exists k, (k, v) ∈ static_volume_rows /\
              related (normalize seed_keyword) k = true.
Proof.
  cbv zeta. unfold get_keyword_suggestions.
  set (key := fun x : VolumeData => inject_Z (monthly_searches x)).
  set (found := map snd (List.filter _ static_volume_rows)).
  destruct (slice_to_take max_suggestions (py.sorted_desc key found))
    as (k & -> & Hk).
  split; [|split].
  - apply (StronglySorted_take_impl (py.desc key)).
    + intros a b Hab. unfold py.desc, key in Hab. by rewrite Zle_Qle.
    + apply sorted_desc_sorted.
  - intros Hmax. rewrite (Hk Hmax), length_take. lia.
  - intros v Hv. apply (subseteq_take k) in Hv.
    rewrite sorted_desc_perm in Hv. subst found.
    apply list_elem_of_In, in_map_iff in Hv as ([k' v'] & <- & Hin).
    apply filter_In in Hin as [Hin Hrel]. exists k'.
    split; [by apply list_elem_of_In|done].
Qed.

(** X11. A seed that is empty or blank is contained in every
    keyword: the suggestions for it are the whole table, most
    searched first, cut at [max_suggestions]. *)
Theorem get_keyword_suggestions_blank_seed seed_keyword max_suggestions :
  normalize seed_keyword = "" ->
  get_keyword_suggestions seed_keyword max_suggestions =
    pyseq.slice_to max_suggestions
      (py.sorted_desc (fun x => inject_Z (monthly_searches x))
         (map snd static_volume_rows)).
Proof.
  intros Hblank. unfold get_keyword_suggestions. rewrite Hblank.
  rewrite filter_all; [reflexivity|].
  intros [k v]. unfold related. by destruct k.
Qed.

Lemma get_keyword_suggestions_blank_seed_witness :
  normalize "  " = "" /\
  get_keyword_suggestions "  " 3 =
    pyseq.slice_to 3
      (py.sorted_desc (fun x => inject_Z (monthly_searches x))
         (map snd static_volume_rows)).
Proof.
  split; [reflexivity|].
  apply (get_keyword_suggestions_blank_seed "  " 3). reflexivity.
Defined.
End suggestions.

(** ** The Quality Score engine: the ranges of the components and of the score *)

Section quality_more.
Import campaign quality_score_engine enhanced_quality quality_vocabulary.
Open Scope string_scope.
Open Scope Q_scope.


















End quality_more.

(** ** Confidence ranges: where the value lies *)

Section confidence_more.
Import campaign confidence_ranges error_ranges.
Open Scope string_scope.
Open Scope Q_scope.

Lemma match_type_variance_cases match_type :
  (match_type = "exact" /\ default 0.03 (match_type_variance !! match_type) = 0.01) \/
  (match_type <> "exact" /\
   0.03 <= default 0.03 (match_type_variance !! match_type) <= 0.05).
Proof.
  destruct (match_type_variance !! match_type) as [q|] eqn:Hq.
  - apply elem_of_list_to_map_2 in Hq. cbn.
    apply elem_of_cons in Hq as [[= -> ->]|Hq]; [by left|].
    apply elem_of_cons in Hq as [[= -> ->]|Hq]; [right; split; [done|lra]|].
    apply elem_of_cons in Hq as [[= -> ->]|Hq]; [right; split; [done|lra]|].
    by apply elem_of_nil in Hq.
  - right. split; [by intros ->|cbn; lra].
Qed.

(** The context factor, by cases. *)
Lemma _calculate_context_factor_cases c :
  - 0.015 <= _calculate_context_factor c <= 0.04 /\
  (~ (truthy c = true /\ 0.9 < lp_score_of c /\ goal_of c = "sales"
      /\ geo_of c = "US") ->
   - 0.01 <= _calculate_context_factor c) /\
  (truthy c = true -> 0.9 < lp_score_of c -> goal_of c = "sales" ->
   geo_of c = "US" -> _calculate_context_factor c == - 0.015).
Proof.
  unfold _calculate_context_factor, lp_score_of, goal_of, geo_of.
  destruct (truthy c); cbn [negb].
  2:{ split; [lra|]. split; [lra|done]. }
  cbv zeta.
  destruct (py.ltb (default 0.7 (c ≫= ctx_lp_score)) 0.5) eqn:Hlow.
  - apply ltb_lt in Hlow.
    destruct (String.eqb (default "sales" (c ≫= ctx_goal)) "brand_awareness"),
      (String.eqb (default "sales" (c ≫= ctx_goal)) "sales"),
      (negb (String.eqb (default "US" (c ≫= ctx_geo)) "US"));
      (split; [lra|]); (split; [lra|]); intros; lra.
  - destruct (py.ltb 0.9 (default 0.7 (c ≫= ctx_lp_score))) eqn:Hhigh.
    + apply ltb_lt in Hhigh.
      destruct (String.eqb (default "sales" (c ≫= ctx_goal)) "brand_awareness")
        eqn:Hba.
      * apply String.eqb_eq in Hba.
        destruct (negb (String.eqb (default "US" (c ≫= ctx_geo)) "US"));
          (split; [lra|]); (split; [lra|]); intros _ _ Hs _;
          rewrite Hba in Hs; discriminate.
      * destruct (String.eqb (default "sales" (c ≫= ctx_goal)) "sales") eqn:Hs.
        -- apply String.eqb_eq in Hs.
           destruct (String.eqb (default "US" (c ≫= ctx_geo)) "US") eqn:Hus;
             cbn [negb].
           ++ apply String.eqb_eq in Hus.
              split; [lra|]. split; [|intros; lra].
              intros Hn. exfalso. apply Hn. done.
           ++ apply String.eqb_neq in Hus.
              split; [lra|]. split; [lra|]. intros _ _ _ Hg. done.
        -- apply String.eqb_neq in Hs.
           destruct (negb (String.eqb (default "US" (c ≫= ctx_geo)) "US"));
             (split; [lra|]); (split; [lra|]); intros _ _ Hg _; done.
    + apply ltb_ge in Hhigh.
      destruct (String.eqb (default "sales" (c ≫= ctx_goal)) "brand_awareness"),
        (String.eqb (default "sales" (c ≫= ctx_goal)) "sales"),
        (negb (String.eqb (default "US" (c ≫= ctx_geo)) "US"));
        (split; [lra|]); (split; [lra|]); intros; lra.
Qed.

Lemma total_variance_cases match_type c :
  let variance :=
    default 0.03 (match_type_variance !! match_type) + _calculate_context_factor c in
  (~ narrowest match_type c -> 0 <= variance <= 0.09) /\
  (narrowest match_type c -> variance == - 0.005).
Proof.
  cbv zeta. unfold narrowest.
  destruct (_calculate_context_factor_cases c) as (Hall & Hmost & Hone).
  destruct (match_type_variance_cases match_type) as [[-> ->]|[Hne Hv]].
  - split.
    + intros Hn. assert (- 0.01 <= _calculate_context_factor c).
      { apply Hmost. intros (? & ? & ? & ?). apply Hn. done. }
      lra.
    + intros (_ & Ht & Hlp & Hg & Hgeo). rewrite (Hone Ht Hlp Hg Hgeo). lra.
  - split; [intros _; lra|]. intros [He _]. done.
Qed.

(** X15. Except for the one combination of inputs with a negative
    variance, the range of a metric that is not negative contains the
    metric: [lower_bound <= value <= upper_bound], and the variance
    lies between 0 and 9%. *)
Theorem calculate_confidence_range_brackets_value
    value metric_type match_type level c :
  0 <= value -> ~ narrowest match_type c ->
  let r := calculate_confidence_range value metric_type match_type level c in
  lower_bound r <= value <= upper_bound r /\
  0 <= variance_percentage r <= 0.09.
Proof.
  intros Hv Hn. cbv zeta. unfold calculate_confidence_range.
  cbn [lower_bound upper_bound variance_percentage].
  destruct (total_variance_cases match_type c) as [Hvar _].
  specialize (Hvar Hn). cbv zeta in Hvar.
  generalize dependent
    (default 0.03 (match_type_variance !! match_type) + _calculate_context_factor c).
  intros var Hvar. split; [|done].
  assert (Hprod : 0 <= value * var) by (apply Qmult_le_0_compat; lra).
  split; [|lra].
  destruct (max_cases 0 (value - value * var)) as [-> | ->]; lra.
Qed.

Lemma calculate_confidence_range_brackets_value_witness :
  0 <= 100 /\ ~ narrowest "phrase" None /\
  let r := calculate_confidence_range 100 "ctr" "phrase" 0.95 None in
  lower_bound r <= 100 <= upper_bound r /\
  0 <= variance_percentage r <= 0.09.
Proof.
  assert (Hn : ~ narrowest "phrase" None) by (intros [? _]; discriminate).
  split; [lra|]. split; [exact Hn|].
  apply (calculate_confidence_range_brackets_value 100 "ctr" "phrase" 0.95 None);
    [lra|exact Hn].
Defined.

(** X16. For exact match with a non-empty context that has an
    excellent landing page (score above 0.9), the goal 'sales' (also
    the default) and the geography 'US' (also the default) the
    variance is -0.5%, and the range of a positive metric is turned
    around: [upper_bound < value < lower_bound]. *)
Theorem calculate_confidence_range_inverted
    value metric_type match_type level c :
  0 < value -> narrowest match_type c ->
  let r := calculate_confidence_range value metric_type match_type level c in
  variance_percentage r == - 0.005 /\
  upper_bound r < value /\ value < lower_bound r.
Proof.
  intros Hv Hn. cbv zeta. unfold calculate_confidence_range.
  cbn [lower_bound upper_bound variance_percentage].
  destruct (total_variance_cases match_type c) as [_ Hvar].
  specialize (Hvar Hn). cbv zeta in Hvar.
  generalize dependent
    (default 0.03 (match_type_variance !! match_type) + _calculate_context_factor c).
  intros var Hvar. split; [done|].
  assert (Hprod : value * var == - (0.005 * value)) by (rewrite Hvar; ring).
  split; [lra|].
  pose proof (max_spec 0 (value - value * var)) as [_ Hmax]. lra.
Qed.

Lemma calculate_confidence_range_inverted_witness :
  0 < 100 /\ narrowest "exact" (Some confidence_examples.excellent_page) /\
  let r := calculate_confidence_range 100 "ctr" "exact" 0.95
             (Some confidence_examples.excellent_page) in
  variance_percentage r == - 0.005 /\
  upper_bound r < 100 /\ 100 < lower_bound r.
Proof.
  assert (Hn : narrowest "exact" (Some confidence_examples.excellent_page)).
  { unfold narrowest. split; [reflexivity|]. split; [reflexivity|].
    split; [reflexivity|]. split; reflexivity. }
  split; [reflexivity|]. split; [exact Hn|].
  apply (calculate_confidence_range_inverted 100 "ctr" "exact" 0.95
           (Some confidence_examples.excellent_page)); [reflexivity|exact Hn].
Defined.

(** X17. The error bars of [simulate_error_range] depend on the match
    type alone: the variance is 1%, 3% or 5% (3% for an unknown match
    type), whatever the metric; the bars lie strictly on both sides
    of the demonstration value and are [2 * value * variance]
    apart. *)
Theorem simulate_error_range_bars metric match_type :
  let value := default 1000 (default_values !! metric) in
  let bars := simulate_error_range metric match_type in
  bars.2 == default 0.03 (match_type_variance !! match_type) /\
  0.01 <= bars.2 <= 0.05 /\
  bars.1.1 < value /\ value < bars.1.2 /\
  bars.1.2 - bars.1.1 == 2 * value * bars.2.
Proof.
  cbv zeta. unfold simulate_error_range, calculate_error_range,
    calculate_confidence_range.
  cbn [min_value max_value variance_percent lower_bound upper_bound
       variance_percentage fst snd].
  change (_calculate_context_factor None) with 0.0.
  assert (Hvalue : 0 < default 1000 (default_values !! metric)).
  { destruct (default_values !! metric) as [q|] eqn:Hq; [|reflexivity].
    apply elem_of_list_to_map_2 in Hq. cbn.
    repeat (apply elem_of_cons in Hq as [[= -> ->]|Hq]; [reflexivity|]).
    by apply elem_of_nil in Hq. }
  generalize dependent (default 1000 (default_values !! metric)).
  intros value Hvalue.
  assert (Hvar : 0.01 <= default 0.03 (match_type_variance !! match_type) <= 0.05).
  { destruct (match_type_variance_cases match_type) as [[_ ->]|[_ ?]]; lra. }
  generalize dependent (default 0.03 (match_type_variance !! match_type)).
  intros var Hvar.
  assert (Hprod : 0.01 * value <= value * (var + 0.0) <= 0.05 * value) by nra.
  split; [lra|]. split; [lra|].
  assert (Hlow : py.max 0 (value - value * (var + 0.0))
                 = value - value * (var + 0.0)).
  { unfold py.max. destruct (py.ltb 0 _) eqn:E; [done|].
    apply ltb_ge in E. lra. }
  rewrite Hlow. split; [lra|]. split; [lra|]. ring.
Qed.
End confidence_more.

(** ** The cache: counters, invalidation, hits, other keys, restarts *)

Section cache_more.
Import deterministic_cache cache_ops.
Open Scope string_scope.
Variable float_repr : Q -> string.
Variable sha256_hexdigest : string -> string.
Variable payload : Type.

Abbreviation hash := (_generate_config_hash float_repr sha256_hexdigest).
Abbreviation get := (get float_repr sha256_hexdigest payload).
Abbreviation set := (set float_repr sha256_hexdigest payload).
Abbreviation invalidate := (invalidate float_repr sha256_hexdigest payload).
Abbreviation step := (step float_repr sha256_hexdigest payload).
Abbreviation run := (run float_repr sha256_hexdigest payload).
Abbreviation gets := (gets float_repr sha256_hexdigest payload).

Lemma count_consistent dh dm de s :
  consistent s -> (0 <= dh)%Z -> (0 <= dm)%Z -> (0 <= de)%Z ->
  consistent (count dh dm de (dh + dm) s).
Proof. unfold consistent, count. cbn. lia. Qed.

Lemma get_persistent_consistent c cache_key clk n s0 :
  stats payload c = count 0 0 (evictions (stats payload c) - evictions s0) 1 s0 ->
  consistent s0 -> (evictions s0 <= evictions (stats payload c))%Z ->
  consistent (stats payload (get_persistent payload c cache_key clk n).2).
Proof.
  intros Hs Hok Hev. unfold get_persistent.
  destruct (cache_dir payload c !! cache_key) as [[entry|]|];
    [destruct (negb (_is_expired payload (clk n) entry))|..];
    cbn [snd stats]; rewrite Hs; unfold consistent, count in *; cbn; lia.
Qed.

Lemma get_consistent c config clk :
  consistent (stats payload c) ->
  consistent (stats payload (get c config clk).2).
Proof.
  intros Hok. unfold deterministic_cache.get.
  destruct (memory_cache payload c !! hash config) as [entry|].
  - destruct (negb (_is_expired payload (clk 0%nat) entry)).
    + cbn [snd stats]. unfold consistent, count in *. cbn. lia.
    + apply (get_persistent_consistent _ _ _ _ (stats payload c)); cbn [stats];
        [|done|cbn; lia].
      unfold count. cbn. f_equal; lia.
  - apply (get_persistent_consistent _ _ _ _ (stats payload c)); cbn [stats];
      [|done|cbn; lia].
    unfold count. cbn. f_equal; lia.
Qed.

Lemma step_consistent c k :
  consistent (stats payload c) -> consistent (stats payload (step c k)).
Proof.
  intros Hok. destruct k as [config clk|config d custom clk w|config| |now];
    cbn [cache_ops.step].
  - by apply get_consistent.
  - done.
  - done.
  - unfold consistent. cbn. lia.
  - unfold _cleanup_expired. cbn [stats]. unfold consistent, count in *. cbn. lia.
Qed.

Lemma run_consistent calls : forall c,
  consistent (stats payload c) -> consistent (stats payload (run c calls)).
Proof.
  induction calls as [|k calls IH]; intros c Hok; [done|].
  cbn. apply IH. by apply step_consistent.
Qed.

(** X18. Whatever calls are made on a cache after its creation, the
    counters add up: [hits + misses = total_requests], none is
    negative, and the hit rate of [get_stats] lies between 0 and 1. *)
Theorem get_stats_consistent dir ttl calls :
  let s := get_stats payload (run (init payload dir ttl) calls) in
  (cs_hits s + cs_misses s = cs_total_requests s)%Z /\
  (0 <= cs_hits s)%Z /\ (0 <= cs_misses s)%Z /\ (0 <= cs_evictions s)%Z /\
  (0 <= hit_rate s <= 1)%Q.
Proof.
  cbv zeta.
  pose proof (run_consistent calls (init payload dir ttl)) as Hok.
  destruct Hok as (Hsum & Hh & Hm & He); [unfold consistent; cbn; lia|].
  unfold get_stats. cbn [cs_hits cs_misses cs_evictions cs_total_requests hit_rate].
  generalize dependent (stats payload (run (init payload dir ttl) calls)).
  intros s Hsum Hh Hm He. split_and!; try done.
  - destruct (0 <? total_requests s)%Z eqn:Ht; [|done].
    apply Qle_shift_div_l.
    + change 0%Q with (inject_Z 0). rewrite <- Zlt_Qlt. lia.
    + rewrite Qmult_0_l. change 0%Q with (inject_Z 0). rewrite <- Zle_Qle. lia.
  - destruct (0 <? total_requests s)%Z eqn:Ht; [|done].
    apply Qle_shift_div_r.
    + change 0%Q with (inject_Z 0). rewrite <- Zlt_Qlt. lia.
    + rewrite Qmult_1_l. rewrite <- Zle_Qle. lia.
Qed.

Lemma get_absent c config clk :
  memory_cache payload c !! hash config = None ->
  cache_dir payload c !! hash config = None ->
  (get c config clk).1 = None.
Proof.
  intros Hm Hd. unfold deterministic_cache.get. rewrite Hm.
  unfold get_persistent. cbn [cache_dir]. by rewrite Hd.
Qed.

(** What [get] answers depends on the two entries under its key
    only. *)
Lemma get_local c c' config clk :
  memory_cache payload c' !! hash config = memory_cache payload c !! hash config ->
  cache_dir payload c' !! hash config = cache_dir payload c !! hash config ->
  (get c' config clk).1 = (get c config clk).1.
Proof.
  intros Hm Hd. unfold deterministic_cache.get. rewrite Hm.
  destruct (memory_cache payload c !! hash config) as [entry|].
  - destruct (negb (_is_expired payload (clk 0%nat) entry)); [done|].
    unfold get_persistent. cbn [cache_dir]. rewrite Hd.
    destruct (cache_dir payload c !! hash config) as [[e|]|];
      [destruct (negb (_is_expired payload (clk 1%nat) e))|..]; done.
  - unfold get_persistent. cbn [cache_dir]. rewrite Hd.
    destruct (cache_dir payload c !! hash config) as [[e|]|];
      [destruct (negb (_is_expired payload (clk 0%nat) e))|..]; done.
Qed.

(** X19. [invalidate(config)] answers whether there was an entry for
    the key, in memory or on disk; afterwards [get(config)] is a
    miss at any time, and what [get] returns for a configuration
    with another key is as before. After [clear()] every [get] is a
    miss. *)
Theorem invalidate_then_get c config :
  let result := invalidate c config in
  (result.1 = true <->
     is_Some (memory_cache payload c !! hash config) \/
     is_Some (cache_dir payload c !! hash config)) /\
  (forall clk, (get result.2 config clk).1 = None) /\
  (forall config' clk, hash config' <> hash config ->
     (get result.2 config' clk).1 = (get c config' clk).1) /\
  (forall config' clk, (get (clear payload c) config' clk).1 = None).
Proof.
  cbv zeta. unfold cache_ops.invalidate. cbn [fst snd]. split_and!.
  - rewrite orb_true_iff, !bool_decide_eq_true. done.
  - intros clk. apply get_absent; cbn; apply lookup_delete_eq.
  - intros config' clk Hne.
    apply get_local; cbn; by rewrite lookup_delete_ne.
  - intros config' clk. apply get_absent; cbn; apply lookup_empty.
Qed.

(** X21. [set] for one configuration never changes what [get]
    returns for a configuration with another key. *)
Theorem set_other_key c config d custom clk w config' clk' :
  hash config' <> hash config ->
  (get (set c config d custom clk w).2 config' clk').1 = (get c config' clk').1.
Proof.
  intros Hne. apply get_local; unfold deterministic_cache.set; cbn.
  - by rewrite lookup_insert_ne.
  - destruct w; [by rewrite lookup_insert_ne|done|by rewrite lookup_insert_ne].
Qed.

(** X22. A result that one process has cached is served to the next:
    when the write of [set] went well, a cache created over the same
    directory, its memory empty, returns the result to a [get]
    whose clock has not passed the expiry time, and holds it in
    memory afterwards. *)
Theorem get_after_restart c config R custom clk ttl clk' :
  (clk' 0%nat <= expiry payload c custom clk)%Z ->
  let c1 := (set c config R custom clk WriteOk).2 in
  let after := get (init payload (cache_dir payload c1) ttl) config clk' in
  after.1 = Some R /\
  data payload <$> memory_cache payload after.2 !! hash config = Some R.
Proof.
  intros Hclk. cbv zeta. unfold deterministic_cache.get, init.
  cbn [memory_cache cache_dir]. rewrite lookup_empty.
  unfold get_persistent. cbn [cache_dir]. unfold deterministic_cache.set.
  cbn [snd cache_dir]. rewrite lookup_insert_eq.
  unfold _is_expired. cbn [expires_at].
  fold (expiry payload c custom clk).
  assert ((expiry payload c custom clk <? clk' 0%nat)%Z = false) as -> by lia.
  cbn [negb fst snd memory_cache data]. split; [done|].
  by rewrite lookup_insert_eq.
Qed.

Lemma gets_hits config R expires : forall clks c e,
  memory_cache payload c !! hash config = Some e ->
  data payload e = R -> expires_at payload e = Some expires ->
  Forall (fun clk : clock => (clk 0%nat <= expires)%Z) clks ->
  let result := gets c config clks in
  result.1 = replicate (length clks) (Some R) /\
  (exists e', memory_cache payload result.2 !! hash config = Some e' /\
     data payload e' = R /\ expires_at payload e' = Some expires /\
     hit_count payload e' = (hit_count payload e + Z.of_nat (length clks))%Z) /\
  hits (stats payload result.2)
    = (hits (stats payload c) + Z.of_nat (length clks))%Z.
Proof.
  induction clks as [|clk clks IH]; intros c e He Hd Hx Hall; cbv zeta.
  - cbn. split; [done|]. split; [|lia]. exists e. split_and!; try done. lia.
  - apply Forall_cons in Hall as [Hclk Hall]. cbn [cache_ops.gets].
    set (c1 :=
      {| ttl_hours := ttl_hours payload c;
         memory_cache :=
           <[hash config := touch payload (clk 1%nat) e]> (memory_cache payload c);
         cache_dir := cache_dir payload c;
         stats := count 1 0 0 1 (stats payload c) |}).
    assert (Hget : get c config clk = (Some R, c1)).
    { unfold deterministic_cache.get. rewrite He. unfold _is_expired. rewrite Hx.
      assert ((expires <? clk 0%nat)%Z = false) as -> by lia.
      cbn [negb]. by rewrite Hd. }
    rewrite Hget.
    specialize (IH c1 (touch payload (clk 1%nat) e)).
    cbv zeta in IH.
    destruct IH as (Hr & (e' & He' & Hd' & Hx' & Hc') & Hh);
      [cbn; apply lookup_insert_eq|done|done|done|].
    destruct (gets _ config clks) as [rs c''] eqn:Hgets. cbn [fst snd] in *.
    split; [by rewrite Hr|]. split.
    + exists e'. split_and!; try done. rewrite Hc'. cbn. lia.
    + rewrite Hh. cbn. lia.
Qed.

(** X20. After [set(config, R)], any number of [get(config)] whose
    clocks have not passed the expiry time all return [R]; the entry
    in memory counts them in [hit_count], and the cache in
    [hits]. *)
Theorem gets_after_set c config R custom clk w clks :
  Forall (fun clk' : clock => (clk' 0%nat <= expiry payload c custom clk)%Z) clks ->
  let c1 := (set c config R custom clk w).2 in
  let result := gets c1 config clks in
  result.1 = replicate (length clks) (Some R) /\
  hit_count payload <$> memory_cache payload result.2 !! hash config
    = Some (Z.of_nat (length clks)) /\
  hits (stats payload result.2)
    = (hits (stats payload c) + Z.of_nat (length clks))%Z.
Proof.
  intros Hall. cbv zeta.
  pose proof (gets_hits config R (expiry payload c custom clk) clks
                (set c config R custom clk w).2 _
                (set_memory float_repr sha256_hexdigest payload c config R custom
                   clk w) eq_refl eq_refl Hall) as Hg.
  cbv zeta in Hg. destruct Hg as (Hr & (e' & He' & _ & _ & Hc') & Hh).
  split; [done|]. split.
  - rewrite He'. cbn [fmap option_fmap option_map]. rewrite Hc'.
    cbn [hit_count]. done.
  - rewrite Hh. done.
Qed.
End cache_more.

Section cache_more_examples.
Import deterministic_cache cache_ops examples.
Open Scope string_scope.

Lemma gets_after_set_witness :
  Forall (fun clk' : clock =>
            (clk' 0%nat <= expiry Z empty_cache None (at_time 0))%Z)
    [at_time 1; at_time (hours 24)] /\
  let c1 := (set toy_repr toy_digest Z empty_cache config_a 42%Z None
               (at_time 0) WriteOk).2 in
  let result := gets toy_repr toy_digest Z c1 config_a
                  [at_time 1; at_time (hours 24)] in
  result.1 = replicate (length [at_time 1; at_time (hours 24)]) (Some 42%Z) /\
  hit_count Z <$> memory_cache Z result.2
                    !! _generate_config_hash toy_repr toy_digest config_a
    = Some (Z.of_nat (length [at_time 1; at_time (hours 24)])) /\
  hits (stats Z result.2)
    = (hits (stats Z empty_cache)
       + Z.of_nat (length [at_time 1; at_time (hours 24)]))%Z.
Proof.
  assert (Hall : Forall (fun clk' : clock =>
            (clk' 0%nat <= expiry Z empty_cache None (at_time 0))%Z)
    [at_time 1; at_time (hours 24)]).
  { repeat constructor; vm_compute; discriminate. }
  split; [exact Hall|].
  apply (gets_after_set toy_repr toy_digest Z empty_cache config_a 42%Z None
           (at_time 0) WriteOk [at_time 1; at_time (hours 24)] Hall).
Defined.

Lemma set_other_key_witness :
  _generate_config_hash toy_repr toy_digest (CDict [])
    <> _generate_config_hash toy_repr toy_digest config_a /\
  (get toy_repr toy_digest Z
     (set toy_repr toy_digest Z stale_cache (CDict []) 42%Z None (at_time 0)
        WriteOk).2 config_a (at_time 1)).1
  = (get toy_repr toy_digest Z stale_cache config_a (at_time 1)).1.
Proof.
  assert (Hne : _generate_config_hash toy_repr toy_digest config_a
                <> _generate_config_hash toy_repr toy_digest (CDict [])).
  { intros E. vm_compute in E. discriminate. }
  split; [intros E; apply Hne; by rewrite E|].
  apply (set_other_key toy_repr toy_digest Z stale_cache (CDict []) 42%Z None
           (at_time 0) WriteOk config_a (at_time 1) Hne).
Defined.

Lemma get_after_restart_witness :
  (at_time (hours 24) 0%nat <= expiry Z empty_cache None (at_time 0))%Z /\
  let c1 := (set toy_repr toy_digest Z empty_cache config_a 42%Z None
               (at_time 0) WriteOk).2 in
  let after := get toy_repr toy_digest Z (init Z (cache_dir Z c1) 24) config_a
                 (at_time (hours 24)) in
  after.1 = Some 42%Z /\
  data Z <$> memory_cache Z after.2
               !! _generate_config_hash toy_repr toy_digest config_a
    = Some 42%Z.
Proof.
  assert (Hclk : (at_time (hours 24) 0%nat
                  <= expiry Z empty_cache None (at_time 0))%Z)
    by (vm_compute; discriminate).
  split; [exact Hclk|].
  apply (get_after_restart toy_repr toy_digest Z empty_cache config_a 42%Z None
           (at_time 0) 24 (at_time (hours 24)) Hclk).
Defined.
End cache_more_examples.

(** ** Bidding strategies *)

Section bidding_more.
Import bidding.
Open Scope string_scope.
Open Scope Q_scope.

(** X23. As [run_simulation] calls it, the strategy
    'target_impression_share' always raises: the call passes no
    [target_share], a parameter without default. *)
Theorem adjusted_bid_target_impression_share
    target_cpa target_roas conversion_value daily_budget num_auctions base_cvr bid :
  adjusted_bid "target_impression_share" target_cpa target_roas conversion_value
    daily_budget num_auctions base_cvr bid = None.
Proof.
  unfold adjusted_bid. cbn [String.eqb Ascii.eqb Bool.eqb negb].
  change (negb ("target_impression_share" =? "manual_cpc")%string) with true.
  cbv iota. unfold apply_bidding_strategy, strategy_function.
  change ("target_impression_share" =? "manual_cpc")%string with false.
  change ("target_impression_share" =? "target_cpa")%string with false.
  change ("target_impression_share" =? "target_roas")%string with false.
  change ("target_impression_share" =? "maximize_clicks")%string with false.
  change ("target_impression_share" =? "target_impression_share")%string with true.
  cbv iota. unfold target_impression_share, run_simulation_params.
  rewrite !lookup_insert_ne by done. by rewrite lookup_empty.
Qed.





End bidding_more.

(** ** Click and conversion rates *)

Section ctr_more.
Import matching ctr_model.
Open Scope string_scope.
Open Scope Q_scope.

Lemma get_ctr_boost_range match_type : - 0.05 <= get_ctr_boost match_type <= 0.15.
Proof.
  unfold get_ctr_boost, get_match_type_modifiers.
  destruct (MATCH_TYPE_LOGIC !! pystr.lower match_type) as [m|] eqn:Hm;
    [|cbn; lra].
  apply elem_of_list_to_map_2 in Hm. cbn.
  repeat (apply elem_of_cons in Hm as [[= _ ->]|Hm]; [cbn; lra|]).
  by apply elem_of_nil in Hm.
Qed.

(** X26. The click-through rate of [calculate_ctr] is the cap, 0.25,
    for every quality score that is not negative, whatever the
    keyword, match type, position, device and extensions: the
    sigmoid term alone is at least 0.5. ([math.exp] is only assumed
    to lie in (0, 1] on numbers that are not positive.) *)
Theorem calculate_ctr_saturated (exp : Q -> Q)
    keyword match_type position quality_score device_type extensions :
  (forall x, x <= 0 -> 0 < exp x <= 1) ->
  (0 <= quality_score)%Z ->
  calculate_ctr exp keyword match_type position quality_score device_type
    extensions = Some 0.25.
Proof.
  intros Hexp Hqs. unfold calculate_ctr, simulate_ctr.
  assert (Hrank : - (inject_Z quality_score * 1.5) <= 0).
  { assert (0 <= inject_Z quality_score)
      by (change 0 with (inject_Z 0); rewrite <- Zle_Qle; lia).
    lra. }
  destruct (Hexp _ Hrank) as [He0 He1].
  generalize dependent (exp (- (inject_Z quality_score * 1.5))). intros e He0 He1.
  rewrite div_nonzero by lra. cbn [mbind option_bind].
  assert (Hs : 0.5 <= 1 / (1 + e)).
  { apply Qle_shift_div_l; lra. }
  generalize dependent (1 / (1 + e)). intros s Hs.
  pose proof (get_ctr_boost_range match_type) as Hboost.
  generalize dependent (get_ctr_boost match_type). intros boost Hboost.
  match goal with |- Some (py.min (?x * _) _) = _ => set (b := x) end.
  assert (Hb : 0.53 <= b).
  { subst b.
    assert (Hext : 0 <= 0.01 * inject_Z (Z.of_nat (length (default [] extensions)))).
    { assert (0 <= inject_Z (Z.of_nat (length (default [] extensions))))
        by (change 0 with (inject_Z 0); rewrite <- Zle_Qle; lia).
      lra. }
    destruct (default [] extensions) as [|x l] eqn:Hl;
      destruct (position =? 1)%Z, (position =? 2)%Z, (position =? 3)%Z,
        (String.eqb device_type "mobile"), (String.eqb device_type "tablet");
      lra. }
  clearbody b. f_equal. unfold py.min.
  assert (py.ltb 0.25 (b * (1 + boost)) = true) as ->; [|done].
  apply ltb_lt. nra.
Qed.

Lemma toy_exp_unit x : x <= 0 -> 0 < ctr_examples.toy_exp x <= 1.
Proof.
  intros Hx. unfold ctr_examples.toy_exp.
  assert (Qle_bool x 0 = true) as -> by (by apply Qle_bool_iff).
  split.
  - apply Qlt_shift_div_l; lra.
  - apply Qle_shift_div_r; lra.
Qed.

Lemma calculate_ctr_saturated_witness :
  (forall x, x <= 0 -> 0 < ctr_examples.toy_exp x <= 1) /\ (0 <= 7)%Z /\
  calculate_ctr ctr_examples.toy_exp "plumber" "exact" 1 7 "desktop" (Some [])
    = Some 0.25.
Proof.
  split; [exact toy_exp_unit|]. split; [lia|].
  apply (calculate_ctr_saturated ctr_examples.toy_exp "plumber" "exact" 1 7
           "desktop" (Some []) toy_exp_unit). lia.
Defined.

Lemma base_cvr_range objective :
  0.02 <= default 0.05 (base_cvr_by_objective !! objective) <= 0.12.
Proof.
  destruct (base_cvr_by_objective !! objective) as [q|] eqn:Hq; [|cbn; lra].
  apply elem_of_list_to_map_2 in Hq. cbn.
  repeat (apply elem_of_cons in Hq as [[= _ ->]|Hq]; [lra|]).
  by apply elem_of_nil in Hq.
Qed.

(** X27. For a landing page score between 0 and 1 the conversion
    rate of [calculate_cvr] lies between 0 and
    0.12 * 1.2 * 1.3 = 0.1872 (the cap at 1.0 never applies), and it
    is at least 0.02 * 0.8 * 0.9 times the landing page score. *)
Theorem calculate_cvr_range campaign_objective lp_score quality_score position :
  0 <= lp_score <= 1 ->
  0.0144 * lp_score
    <= calculate_cvr campaign_objective lp_score quality_score position
    <= 0.1872.
Proof.
  intros Hlp. unfold calculate_cvr, simulate_cvr. cbv zeta.
  pose proof (base_cvr_range campaign_objective) as Hbase.
  generalize dependent (default 0.05 (base_cvr_by_objective !! campaign_objective)).
  intros base Hbase.
  assert (Hcvr : 0.02 * lp_score <= base * lp_score <= 0.12) by nra.
  generalize dependent (base * lp_score). intros cvr Hcvr.
  match goal with |- _ <= py.min ?x _ <= _ => set (c := x) end.
  assert (Hc : 0.0144 * lp_score <= c <= 0.1872).
  { subst c.
    repeat match goal with
           | |- context [if ?t then _ else _] => destruct t
           end; lra. }
  clearbody c. unfold py.min. destruct (py.ltb 1.0 c) eqn:E; [|lra].
  apply ltb_lt in E. lra.
Qed.

Lemma calculate_cvr_range_witness :
  0 <= 0.7 <= 1 /\
  0.0144 * 0.7 <= calculate_cvr "sales" 0.7 7 1 <= 0.1872.
Proof.
  split; [lra|]. apply (calculate_cvr_range "sales" 0.7 7 1). lra.
Defined.
End ctr_more.

(** ** Budget pacing *)

Section pacing_more.
Import pacing.
Open Scope Q_scope.

Lemma sum_from (l : list Q) acc : fold_left Qplus l acc == acc + sum l.
Proof.
  unfold sum. revert acc. induction l as [|p l IH]; intros acc; cbn.
  - lra.
  - rewrite IH, (IH (0 + p)). lra.
Qed.

Lemma sum_cons p l : sum (p :: l) == p + sum l.
Proof. unfold sum at 1. cbn. rewrite sum_from. lra. Qed.

Lemma sum_scaled (f : Q -> Q) k l :
  (forall p, f p == k * p) -> sum (map f l) == k * sum l.
Proof.
  intros Hf. induction l as [|p l IH].
  - unfold sum. cbn. lra.
  - cbn [map]. rewrite !sum_cons, IH, Hf. lra.
Qed.

Lemma mapM_div total l :
  ~ total == 0 -> mapM (fun p => py.div p total) l = Some (map (fun p => p / total) l).
Proof.
  intros Ht. apply mapM_Some. induction l as [|p l IH]; cbn; constructor; [|done].
  by apply div_nonzero.
Qed.

Lemma pacing_of_nonempty custom : exists p l, pacing_of custom = p :: l.
Proof.
  destruct custom as [[|p l]|]; cbn; unfold HOURLY_PACING; by eexists _, _.
Qed.

(** X28. [distribute_budget_by_hour] hands out the whole budget, one
    amount for each entry of the pacing, whenever the pacing does not
    sum to zero; a pacing that sums to zero (twenty-four zeros, say)
    makes it raise. The default pacing sums to 1.12, so that each
    hour gets its listed share divided by 1.12. *)
Theorem distribute_budget_by_hour_total daily_budget custom_pacing :
  let pacing := pacing_of custom_pacing in
  (sum pacing == 0 ->
   distribute_budget_by_hour daily_budget custom_pacing = None) /\
  (~ sum pacing == 0 ->
   exists hourly_budgets,
     distribute_budget_by_hour daily_budget custom_pacing = Some hourly_budgets /\
     length hourly_budgets = length pacing /\
     sum hourly_budgets == daily_budget) /\
  sum HOURLY_PACING == 1.12 /\
  distribute_budget_by_hour daily_budget None =
    Some (map (fun p => daily_budget * (p / sum HOURLY_PACING)) HOURLY_PACING).
Proof.
  cbv zeta. unfold distribute_budget_by_hour. split; [|split; [|split]].
  - intros Hz.
    assert (Qeq_bool (sum (pacing_of custom_pacing)) 1.0 = false) as ->.
    { apply not_true_iff_false. rewrite Qeq_bool_iff. rewrite Hz. discriminate. }
    cbn [negb]. apply Qeq_bool_iff in Hz.
    remember (sum (pacing_of custom_pacing)) as total eqn:Ht. clear Ht.
    destruct (pacing_of_nonempty custom_pacing) as (p & l & ->).
    cbn [mapM]. unfold py.div. by rewrite Hz.
  - intros Hnz. destruct (Qeq_bool _ 1.0) eqn:Hone; cbn [negb mbind option_bind].
    + eexists. split; [reflexivity|]. split; [by rewrite length_map|].
      apply Qeq_bool_iff in Hone.
      rewrite (sum_scaled _ daily_budget) by (intros; lra). rewrite Hone. lra.
    + rewrite mapM_div by done. cbn [mbind option_bind].
      eexists. split; [reflexivity|]. split; [by rewrite !length_map|].
      rewrite map_map.
      rewrite (sum_scaled _ (daily_budget / sum (pacing_of custom_pacing))).
      * field. done.
      * intros p. field. done.
  - reflexivity.
  - cbn [pacing_of].
    assert (Qeq_bool (sum HOURLY_PACING) 1.0 = false) as -> by reflexivity.
    cbn [negb]. rewrite mapM_div by (intros E; vm_compute in E; discriminate).
    cbn [mbind option_bind]. by rewrite map_map.
Qed.
End pacing_more.
